(** * pillz_tracker_bot: schedule resolution, reminders and the tracking ledger

    A shallow embedding of [pillz_tracker_bot.py] and the properties its
    specification states about it.

    Conventions of the embedding.
    - A Python [str] is a [string], one [ascii] per character (code points
      below 256); comparison of strings is by code point, as in Python.
    - A Python [int] is a [Z].  JSON numbers with a fraction or an exponent
      (Python [float]) are not represented.
    - A raised exception is a value [Raise e] of the [result] monad; a
      [try ... except Exception] is a [match] on it.
    - The SQLite file is a record [db] of two tables, each a list of rows in
      rowid order, which is the order a [SELECT] without [ORDER BY] scans.
    - [datetime.now()] is an argument of every function that calls it.
    - Messages built by f-strings are kept as the values they interpolate. *)

From Stdlib Require Import ZArith Lia Ascii String DecimalString.
From stdpp Require Import base option list gmap strings sorting.

Set Warnings "-register-all".
Local Open Scope string_scope.
Local Open Scope list_scope.
Local Open Scope Z_scope.

(** ** Exceptions *)

Inductive exn :=
| JSONDecodeError
| ValueError
| TypeError
| KeyError (key : string)
| IntegrityError.

Inductive result (A : Type) :=
| Ok (a : A)
| Raise (e : exn).
Arguments Ok {A} a.
Arguments Raise {A} e.

Definition bind {A B : Type} (m : result A) (f : A → result B) : result B :=
  match m with
  | Ok a => f a
  | Raise e => Raise e
  end.

Notation "'let!' x ':=' m 'in' k" := (bind m (λ x, k))
  (at level 10, x name, m at level 100, k at level 200).

(** ** JSON values, as [json.loads] returns them

    A number is an integer: the numbers with a fraction or an exponent,
    which [json.loads] returns as [float], are left out. *)

Inductive json :=
| JNull
| JBool (b : bool)
| JInt (n : Z)
| JStr (s : string)
| JList (items : list json)
| JDict (items : list (string * json)).

(** A [dict] is kept as its key/value pairs, keys distinct; [d[k]] is the
    value bound to [k]. *)
Fixpoint assoc (k : string) (kv : list (string * json)) : option json :=
  match kv with
  | [] => None
  | (k', v) :: kv' => if String.eqb k k' then Some v else assoc k kv'
  end.

(** [v[k]] for a string [k]: only a dict can be subscripted by a string. *)
Definition py_getitem (v : json) (k : string) : result json :=
  match v with
  | JDict kv => match assoc k kv with Some x => Ok x | None => Raise (KeyError k) end
  | _ => Raise TypeError
  end.

Fixpoint chars (s : string) : list json :=
  match s with
  | EmptyString => []
  | String c s' => JStr (String c EmptyString) :: chars s'
  end.

(** [for x in v]: a list yields its items, a dict its keys, a string its
    characters; nothing else is iterable. *)
Definition py_iter (v : json) : result (list json) :=
  match v with
  | JList l => Ok l
  | JDict kv => Ok (map (λ p, JStr (fst p)) kv)
  | JStr s => Ok (chars s)
  | _ => Raise TypeError
  end.

(** The value of a number ([bool] is a subclass of [int]). *)
Definition as_int (v : json) : option Z :=
  match v with
  | JInt n => Some n
  | JBool b => Some (if b then 1 else 0)
  | _ => None
  end.

(** [n + v] for an int [n]. *)
Definition py_add (n : Z) (v : json) : result Z :=
  match as_int v with
  | Some d => Ok (n + d)
  | None => Raise TypeError
  end.

(** [a == b]; it never raises on JSON values. *)
Fixpoint py_eq (a b : json) : bool :=
  match a, b with
  | JNull, JNull => true
  | JBool _, JBool _ | JBool _, JInt _ | JInt _, JBool _ | JInt _, JInt _ =>
      bool_decide (as_int a = as_int b)
  | JStr s, JStr t => String.eqb s t
  | JList l, JList m =>
      (fix go (l m : list json) : bool :=
         match l, m with
         | [], [] => true
         | x :: l', y :: m' => py_eq x y && go l' m'
         | _, _ => false
         end) l m
  | JDict kv, JDict kv' =>
      Nat.eqb (length kv) (length kv') &&
      (fix go (kv : list (string * json)) : bool :=
         match kv with
         | [] => true
         | (k, v) :: r =>
             match assoc k kv' with
             | Some v' => py_eq v v'
             | None => false
             end && go r
         end) kv
  | _, _ => false
  end.

(** [a < b]: defined between two strings, two numbers and two lists
    (lexicographically); a [TypeError] otherwise. *)
Fixpoint py_lt (a b : json) : result bool :=
  match a, b with
  | JBool _, JBool _ | JBool _, JInt _ | JInt _, JBool _ | JInt _, JInt _ =>
      match as_int a, as_int b with
      | Some x, Some y => Ok (x <? y)
      | _, _ => Raise TypeError
      end
  | JStr s, JStr t => Ok (String.ltb s t)
  | JList l, JList m =>
      (fix go (l m : list json) : result bool :=
         match l, m with
         | [], [] => Ok false
         | [], _ :: _ => Ok true
         | _ :: _, [] => Ok false
         | x :: l', y :: m' => if py_eq x y then go l' m' else py_lt x y
         end) l m
  | _, _ => Raise TypeError
  end.

(** [hash(v)]: lists and dicts are unhashable. *)
Definition hashable (v : json) : bool :=
  match v with
  | JList _ | JDict _ => false
  | _ => true
  end.

(** [sorted(l, key=key)]: a stable sort that uses only [<] on the keys.
    An element goes in front of the first later element that is not
    smaller than it. *)
Section Sorted.
Context {A : Type} (key : A → json).

Fixpoint insert_sorted (x : A) (l : list A) : result (list A) :=
  match l with
  | [] => Ok [x]
  | y :: l' =>
      let! b := py_lt (key y) (key x) in
      if b : bool then let! r := insert_sorted x l' in Ok (y :: r)
      else Ok (x :: l)
  end.

Fixpoint sorted (l : list A) : result (list A) :=
  match l with
  | [] => Ok []
  | x :: l' => let! r := sorted l' in insert_sorted x r
  end.
End Sorted.

(** ** [datetime] *)

Record datetime := {
  year : Z; month : Z; day : Z;
  hour : Z; minute : Z; second : Z; microsecond : Z
}.

Definition is_leap (y : Z) : bool :=
  (y mod 4 =? 0) && (negb (y mod 100 =? 0) || (y mod 400 =? 0)).

Definition days_in_month (y m : Z) : Z :=
  if m =? 2 then (if is_leap y then 29 else 28)
  else if (m =? 4) || (m =? 6) || (m =? 9) || (m =? 11) then 30
  else 31.

Definition days_before_year (y : Z) : Z :=
  let y' := y - 1 in y' * 365 + y' / 4 - y' / 100 + y' / 400.

(** The days of the year before the first of month [m]: the table of a
    common year, and one more after February of a leap year. *)
Definition days_before_month (y m : Z) : Z :=
  nth (Z.to_nat (m - 1)) [0; 31; 59; 90; 120; 151; 181; 212; 243; 273; 304; 334] 0
  + (if (2 <? m) && is_leap y then 1 else 0).

(** [date.toordinal()]: 1 for 0001-01-01. *)
Definition toordinal (d : datetime) : Z :=
  days_before_year (year d) + days_before_month (year d) (month d) + day d.

(** What the constructor of [datetime] accepts. *)
Definition valid_datetime (d : datetime) : Prop :=
  1 ≤ year d ≤ 9999 ∧ 1 ≤ month d ≤ 12 ∧
  1 ≤ day d ≤ days_in_month (year d) (month d) ∧
  0 ≤ hour d < 24 ∧ 0 ≤ minute d < 60 ∧ 0 ≤ second d < 60 ∧
  0 ≤ microsecond d < 1000000.

(** The days of year [y]. *)
Definition year_days (y : Z) : Z := if is_leap y then 366 else 365.

(** The date of [d] is a date of the calendar. *)
Definition valid_date (d : datetime) : Prop :=
  1 ≤ month d ≤ 12 ∧ 1 ≤ day d ≤ days_in_month (year d) (month d).

(** [d] is the first instant of its date. *)
Definition midnight (d : datetime) : Prop :=
  hour d = 0 ∧ minute d = 0 ∧ second d = 0 ∧ microsecond d = 0.

Fixpoint lex_lt (a b : list Z) : bool :=
  match a, b with
  | x :: a', y :: b' => (x <? y) || ((x =? y) && lex_lt a' b')
  | _, _ => false
  end.

(** The order of the dates of two instants. *)
Definition date_lt (a b : datetime) : bool :=
  lex_lt [year a; month a; day a] [year b; month b; day b].

Definition fields (d : datetime) : list Z :=
  [year d; month d; day d; hour d; minute d; second d; microsecond d].

(** [a < b] on naive datetimes: field by field. *)
Definition datetime_lt (a b : datetime) : bool := lex_lt (fields a) (fields b).

(** [(a - b).days].  The difference is
    [timedelta(days1 - days2, secs1 - secs2, us1 - us2)], which the
    constructor normalises by carrying microseconds into seconds and
    seconds into days, rounding down. *)
Definition seconds_of_day (d : datetime) : Z :=
  second d + minute d * 60 + hour d * 3600.

Definition sub_days (a b : datetime) : Z :=
  let d := toordinal a - toordinal b in
  let s := seconds_of_day a - seconds_of_day b in
  let us := microsecond a - microsecond b in
  let s' := s + us / 1000000 in
  d + s' / 86400.

Definition digit (n : Z) : ascii := ascii_of_nat (Z.to_nat (48 + n)).

Definition pad2 (n : Z) : string :=
  String (digit (n / 10)) (String (digit (n mod 10)) EmptyString).

Definition pad4 (n : Z) : string :=
  String (digit (n / 1000)) (String (digit (n / 100 mod 10)) (pad2 (n mod 100))).

(** [d.strftime("%H:%M")] *)
Definition strftime_HM (d : datetime) : string :=
  pad2 (hour d) +:+ ":" +:+ pad2 (minute d).

(** [d.strftime("%Y-%m-%d")] *)
Definition strftime_Ymd (d : datetime) : string :=
  pad4 (year d) +:+ "-" +:+ pad2 (month d) +:+ "-" +:+ pad2 (day d).

Definition digit_val (c : ascii) : option Z :=
  let n := Z.of_nat (nat_of_ascii c) in
  if (48 <=? n) && (n <=? 57) then Some (n - 48) else None.

(** The month of [%m]: [1[0-2]|0[1-9]|[1-9]], followed here by ["-"]. *)
Definition parse_month (s : string) : option (Z * string) :=
  match s with
  | String a (String b rest) =>
      if Ascii.eqb b "-" then
        m ← digit_val a;
        if 1 <=? m then Some (m, rest) else None
      else
        match rest with
        | String c rest' =>
            if Ascii.eqb c "-" then
              x ← digit_val a; y ← digit_val b;
              let m := 10 * x + y in
              if (1 <=? m) && (m <=? 12) then Some (m, rest') else None
            else None
        | EmptyString => None
        end
  | _ => None
  end.

(** The day of [%d]: [3[01]|[12]\d|0[1-9]|[1-9]| [1-9]], which has to
    reach the end of the text. *)
Definition parse_day (s : string) : option Z :=
  match s with
  | String a EmptyString =>
      d ← digit_val a;
      if 1 <=? d then Some d else None
  | String a (String b EmptyString) =>
      if Ascii.eqb a " " then
        d ← digit_val b;
        if 1 <=? d then Some d else None
      else
        x ← digit_val a; y ← digit_val b;
        let d := 10 * x + y in
        if (1 <=? d) && (d <=? 31) then Some d else None
  | _ => None
  end.

(** The text of a date: four digits of year, ["-"], a month, ["-"], a day. *)
Definition parse_Ymd (s : string) : option (Z * Z * Z) :=
  match s with
  | String a (String b (String c (String d (String e rest)))) =>
      if Ascii.eqb e "-" then
        x3 ← digit_val a; x2 ← digit_val b; x1 ← digit_val c; x0 ← digit_val d;
        '(m, rest') ← parse_month rest;
        dd ← parse_day rest';
        Some (1000 * x3 + 100 * x2 + 10 * x1 + x0, m, dd)
      else None
  | _ => None
  end.

(** [datetime.strptime(s, "%Y-%m-%d")]: the text has to be that of a date
    and the date has to exist; midnight of that date. *)
Definition strptime_Ymd (s : string) : result datetime :=
  match parse_Ymd s with
  | Some (y, m, dd) =>
      if (1 <=? y) && (dd <=? days_in_month y m)
      then Ok {| year := y; month := m; day := dd;
                 hour := 0; minute := 0; second := 0; microsecond := 0 |}
      else Raise ValueError
  | None => Raise ValueError
  end.

(** ** [str] methods *)

(** [c.lower()] on a character below 256: A-Z and the upper-case letters
    of Latin-1 move up by 32. *)
Definition lower_char (c : ascii) : ascii :=
  let n := Z.of_nat (nat_of_ascii c) in
  if ((65 <=? n) && (n <=? 90)) || ((192 <=? n) && (n <=? 222) && negb (n =? 215))
  then ascii_of_nat (Z.to_nat (n + 32))
  else c.

Fixpoint lower (s : string) : string :=
  match s with
  | EmptyString => EmptyString
  | String c s' => String (lower_char c) (lower s')
  end.

Fixpoint drop_chars (n : nat) (s : string) : string :=
  match n, s with
  | S n', String _ s' => drop_chars n' s'
  | _, _ => s
  end.

(** [s.rsplit(sep, 1)] unpacked into two names: the text before and after
    the last [sep]; a [ValueError] when [sep] does not occur. *)
Fixpoint rsplit1 (sep s : string) : result (string * string) :=
  match s with
  | EmptyString => Raise ValueError
  | String c s' =>
      match rsplit1 sep s' with
      | Ok (a, b) => Ok (String c a, b)
      | Raise _ =>
          if String.prefix sep s then Ok (EmptyString, drop_chars (String.length sep) s)
          else Raise ValueError
      end
  end.

(** [s[:-1]] *)
Fixpoint drop_last (s : string) : string :=
  match s with
  | EmptyString => EmptyString
  | String c EmptyString => EmptyString
  | String c s' => String c (drop_last s')
  end.

(** ** The database of [init_db] *)

(** A [TEXT] column is a [string].  The column [schedule_json] is given by
    what [json.loads] makes of its text: [None] for a text that is not
    JSON.  The column [logged_at] is given by the instant whose
    [isoformat()] it holds. *)
Module Schedules.
Record row := {
  id : Z;
  user_id : string;
  name : string;
  start_date : string;
  schedule_json : option json
}.
End Schedules.

Module Tracking.
Record row := {
  id : Z;
  user_id : string;
  name : string;
  taken_date : string;
  taken_time : string;
  logged_at : datetime
}.
End Tracking.

Record db := {
  schedules : list Schedules.row;
  tracking : list Tracking.row
}.

Definition json_loads (text : option json) : result json :=
  match text with
  | Some v => Ok v
  | None => Raise JSONDecodeError
  end.

(** [INTEGER PRIMARY KEY AUTOINCREMENT]: one more than every id used so
    far; no row of [tracking] is ever deleted. *)
Definition next_id (rows : list Tracking.row) : Z :=
  1 + foldr Z.max 0 (map Tracking.id rows).

(** [INSERT INTO tracking (user_id, name, taken_date, taken_time,
    logged_at) VALUES (?, ?, ?, ?, ?)].  The table declares [NOT NULL] on
    every column and nothing else, and the five values are strings, so no
    constraint can fail. *)
Definition insert_tracking (d : db) (user_id name taken_date taken_time : string)
    (logged_at : datetime) : result db :=
  Ok {| schedules := schedules d;
        tracking := tracking d ++
          [ {| Tracking.id := next_id (tracking d);
               Tracking.user_id := user_id;
               Tracking.name := name;
               Tracking.taken_date := taken_date;
               Tracking.taken_time := taken_time;
               Tracking.logged_at := logged_at |} ] |}.

(** [DELETE FROM schedules WHERE user_id = ? AND name = ?], with
    [cursor.rowcount]. *)
Definition delete_schedules (d : db) (user_id name : string) : db * Z :=
  let hit (r : Schedules.row) :=
    Schedules.user_id r = user_id ∧ Schedules.name r = name in
  ({| schedules := filter (λ r, ¬ hit r) (schedules d);
      tracking := tracking d |},
   Z.of_nat (length (filter hit (schedules d)))).

(** [SELECT name, taken_time FROM tracking WHERE user_id = ? AND
    taken_date = ?] *)
Definition select_taken (d : db) (user_id today_str : string) : list (string * string) :=
  map (λ r, (Tracking.name r, Tracking.taken_time r))
      (filter (λ r, Tracking.user_id r = user_id ∧ Tracking.taken_date r = today_str)
              (tracking d)).

(** [SELECT name, start_date, schedule_json FROM schedules WHERE
    user_id = ?] *)
Definition select_schedules (d : db) (user_id : string) : list Schedules.row :=
  filter (λ r, Schedules.user_id r = user_id) (schedules d).

(** ** The walk over the periods of a schedule

    The three loops of [check_reminders], [get_pending_pills] and
    [get_todaypills_message] are the same: [find_period] returns the
    period on which the loop runs its body and breaks, [None] when the
    loop runs to its end. *)

(** [cumulative_days <= days_since_start < cumulative_days + duration]:
    a chained comparison does not evaluate its second half when the
    first is false. *)
Definition in_window (cumulative_days days_since_start : Z) (duration : json) : result bool :=
  if cumulative_days <=? days_since_start then
    let! upper := py_add cumulative_days duration in
    Ok (days_since_start <? upper)
  else Ok false.

Fixpoint find_period (days_since_start cumulative_days : Z) (schedule : list json)
    : result (option json) :=
  match schedule with
  | [] => Ok None
  | period :: rest =>
      let! duration := py_getitem period "duration_days" in
      let! hit := in_window cumulative_days days_since_start duration in
      if hit : bool then Ok (Some period)
      else
        let! cumulative_days := py_add cumulative_days duration in
        find_period days_since_start cumulative_days rest
  end.

(** ** [check_reminders] *)

(** What a tick does to the outside: [context.bot.send_message], kept as
    the chat it goes to and the three values its text and its button
    interpolate, and [logger.error]. *)
Inductive event :=
| SendMessage (chat_id name : string) (dosage time : json)
| LogError (user_id : string) (e : exn).

(** The body of the [if] on the window: the reminder for the period the
    row is in, when its time is the current one. *)
Definition notify (current_time_str : string) (r : Schedules.row) (period : json)
    : result (list event) :=
  let! time := py_getitem period "time" in
  if py_eq time (JStr current_time_str) then
    let! dosage := py_getitem period "dosage" in
    let! time := py_getitem period "time" in
    Ok [SendMessage (Schedules.user_id r) (Schedules.name r) dosage time]
  else Ok [].

(** The body of the [try] for one row. *)
Definition remind (now : datetime) (current_time_str : string) (r : Schedules.row)
    : result (list event) :=
  let! schedule := json_loads (Schedules.schedule_json r) in
  let! start_date := strptime_Ymd (Schedules.start_date r) in
  if datetime_lt now start_date then Ok []
  else
    let days_since_start := sub_days now start_date in
    let! periods := py_iter schedule in
    let! found := find_period days_since_start 0 periods in
    match found with
    | None => Ok []
    | Some period => notify current_time_str r period
    end.

Definition check_reminders (d : db) (now : datetime) : list event :=
  let all_schedules := schedules d in
  let current_time_str := strftime_HM now in
  foldl (λ out r,
           match remind now current_time_str r with
           | Ok sent => out ++ sent
           | Raise e => out ++ [LogError (Schedules.user_id r) e]
           end)
        [] all_schedules.

(** ** [get_pending_pills] *)

Module Pending.
Record pill := { name : string; time : json }.
End Pending.

(** [(name, time) in taken_pills]: the tuple is hashed first, which a
    list or a dict in it refuses; the set holds pairs of strings, so only
    a string can be equal to a member's time. *)
Definition in_taken (name : string) (time : json) (taken_pills : gset (string * string))
    : result bool :=
  if hashable time then
    Ok match time with
       | JStr t => bool_decide ((name, t) ∈ taken_pills)
       | _ => false
       end
  else Raise TypeError.

(** The body of the [try] for one row: the entry appended, if any. *)
Definition pending_entry (now : datetime) (r : Schedules.row) : result (option Pending.pill) :=
  let! start_date := strptime_Ymd (Schedules.start_date r) in
  if datetime_lt now start_date then Ok None
  else
    let days_since_start := sub_days now start_date in
    let! schedule := json_loads (Schedules.schedule_json r) in
    let! periods := py_iter schedule in
    let! found := find_period days_since_start 0 periods in
    match found with
    | None => Ok None
    | Some period =>
        let! time := py_getitem period "time" in
        Ok (Some {| Pending.name := Schedules.name r; Pending.time := time |})
    end.

(** [[pill for pill in todays_pills if (pill['name'], pill['time']) not
    in taken_pills]] *)
Fixpoint not_taken (taken_pills : gset (string * string)) (todays_pills : list Pending.pill)
    : result (list Pending.pill) :=
  match todays_pills with
  | [] => Ok []
  | pill :: rest =>
      let! taken := in_taken (Pending.name pill) (Pending.time pill) taken_pills in
      let! rest := not_taken taken_pills rest in
      Ok (if taken : bool then rest else pill :: rest)
  end.

Definition get_pending_pills (d : db) (user_id : string) (now : datetime)
    : result (list Pending.pill) :=
  let user_items := select_schedules d user_id in
  let today_str := strftime_Ymd now in
  let taken_pills_today := select_taken d user_id today_str in
  let taken_pills : gset (string * string) := list_to_set taken_pills_today in
  let todays_pills :=
    foldl (λ acc r,
             match pending_entry now r with
             | Ok (Some pill) => acc ++ [pill]
             | Ok None => acc
             | Raise _ => acc
             end)
          [] user_items in
  not_taken taken_pills todays_pills.

(** ** [logpill_command] *)

(** A row of the reply keyboard: the text of a pill's button is kept as
    the name and the time it interpolates. *)
Inductive button :=
| PillButton (name : string) (time : json)
| CancelButton.

Definition pill_button (pill : Pending.pill) : button :=
  PillButton (Pending.name pill) (Pending.time pill).

Inductive logpill_reply :=
| EverythingLogged
| WhichPill (keyboard : list button).

Definition logpill_command (d : db) (user_id : string) (now : datetime)
    : result logpill_reply :=
  let! pending_pills := get_pending_pills d user_id now in
  match pending_pills with
  | [] => Ok EverythingLogged
  | _ =>
      let! ordered := sorted Pending.time pending_pills in
      Ok (WhichPill (map pill_button ordered ++ [CancelButton]))
  end.

(** ** [log_selected_pill] *)

Inductive reply :=
| Logged (pill_name : string)
| AlreadyLogged (pill_name : string)
| ErrorOccurred
| DeleteSuccess (choice : string)
| DeleteError.

(** The new database and the reply sent before the start menu; no reply
    on "cancel".  [now] and [later] are the two readings of the clock, for
    [today_str] and for [logged_at_timestamp].  [str.rsplit] and the
    unpacking raise nothing but [ValueError]. *)
Definition log_selected_pill (d : db) (user_id choice : string) (now later : datetime)
    : db * option reply :=
  if bool_decide (lower choice = "cancel") then (d, None)
  else
    match rsplit1 " (" choice with
    | Raise _ => (d, Some ErrorOccurred)
    | Ok (pill_name, pill_time) =>
        let pill_time := drop_last pill_time in
        let today_str := strftime_Ymd now in
        let logged_at_timestamp := later in
        match insert_tracking d user_id pill_name today_str pill_time
                logged_at_timestamp with
        | Ok d' => (d', Some (Logged pill_name))
        | Raise IntegrityError => (d, Some (AlreadyLogged pill_name))
        | Raise _ => (d, Some ErrorOccurred)
        end
    end.

(** ** [delete_selected_pill] *)

Definition delete_selected_pill (d : db) (user_id choice : string) : db * reply :=
  let '(d', rowcount) := delete_schedules d user_id choice in
  (d', if 0 <? rowcount then DeleteSuccess choice else DeleteError).

(** ** [get_todaypills_message] *)

Module Today.
Record pill := { name : string; dosage : json; time : json }.
End Today.

Inductive line :=
| Header
| TakenLine (name : string) (dosage time : json)
| PendingLine (name : string) (dosage time : json).

(** A button of the inline keyboard, with the two values of its callback
    data. *)
Inductive mark_button :=
| MarkTaken (name : string) (time : json).

Inductive today_message :=
| NoRemindersToday
| TodayPills (message_lines : list line) (keyboard : list mark_button).

Definition today_entry (now : datetime) (r : Schedules.row) : result (option Today.pill) :=
  let! start_date := strptime_Ymd (Schedules.start_date r) in
  if datetime_lt now start_date then Ok None
  else
    let days_since_start := sub_days now start_date in
    let! schedule := json_loads (Schedules.schedule_json r) in
    let! periods := py_iter schedule in
    let! found := find_period days_since_start 0 periods in
    match found with
    | None => Ok None
    | Some period =>
        let! dosage := py_getitem period "dosage" in
        let! time := py_getitem period "time" in
        Ok (Some {| Today.name := Schedules.name r;
                    Today.dosage := dosage; Today.time := time |})
    end.

(** The loop over the sorted pills: the lines and the buttons it appends. *)
Fixpoint today_lines (taken_pills : gset (string * string)) (pills : list Today.pill)
    : result (list line * list mark_button) :=
  match pills with
  | [] => Ok ([], [])
  | pill :: rest =>
      let! taken := in_taken (Today.name pill) (Today.time pill) taken_pills in
      let! more := today_lines taken_pills rest in
      Ok (if taken : bool
          then (TakenLine (Today.name pill) (Today.dosage pill) (Today.time pill)
                  :: fst more,
                snd more)
          else (PendingLine (Today.name pill) (Today.dosage pill) (Today.time pill)
                  :: fst more,
                MarkTaken (Today.name pill) (Today.time pill) :: snd more))
  end.

Definition get_todaypills_message (d : db) (user_id : string) (now : datetime)
    : result today_message :=
  let user_items := select_schedules d user_id in
  let today_str := strftime_Ymd now in
  let taken_pills_today := select_taken d user_id today_str in
  let taken_pills : gset (string * string) := list_to_set taken_pills_today in
  let todays_pills :=
    foldl (λ acc r,
             match today_entry now r with
             | Ok (Some pill) => acc ++ [pill]
             | Ok None => acc
             | Raise _ => acc
             end)
          [] user_items in
  match todays_pills with
  | [] => Ok NoRemindersToday
  | _ =>
      let! ordered := sorted Today.time todays_pills in
      let! out := today_lines taken_pills ordered in
      Ok (TodayPills (Header :: fst out) (snd out))
  end.

(** ** What the three loops share *)

(** The period a row is in at [now], as [get_pending_pills] and
    [get_todaypills_message] compute it: [None] before the start date and
    past the last period.  [check_reminders] decodes the JSON first and the
    date second, which changes nothing but the exception raised when both
    are malformed. *)
Definition resolve (now : datetime) (r : Schedules.row) : result (option json) :=
  let! start_date := strptime_Ymd (Schedules.start_date r) in
  if datetime_lt now start_date then Ok None
  else
    let days_since_start := sub_days now start_date in
    let! schedule := json_loads (Schedules.schedule_json r) in
    let! periods := py_iter schedule in
    find_period days_since_start 0 periods.

(** What one turn of the loop of [check_reminders] adds to the events of
    the tick. *)
Definition tick_row (now : datetime) (r : Schedules.row) : list event :=
  match remind now (strftime_HM now) r with
  | Ok sent => sent
  | Raise e => [LogError (Schedules.user_id r) e]
  end.

Definition is_send (ev : event) : bool :=
  match ev with
  | SendMessage _ _ _ _ => true
  | LogError _ _ => false
  end.

(** The database with another table of schedules. *)
Definition with_schedules (d : db) (rows : list Schedules.row) : db :=
  {| schedules := rows; tracking := tracking d |}.

(** The text is two digits of hour, a colon and two digits of minute. *)
Definition is_HHMM (s : string) : bool :=
  match s with
  | String a (String b (String ":" (String c (String d EmptyString)))) =>
      match digit_val a, digit_val b, digit_val c, digit_val d with
      | Some h1, Some h0, Some m1, Some m0 =>
          (10 * h1 + h0 <? 24) && (10 * m1 + m0 <? 60)
      | _, _, _, _ => false
      end
  | _ => false
  end.

(** The rows of [tracking] for one dose slot. *)
Definition slot_records (d : db) (user_id name taken_date taken_time : string)
    : list Tracking.row :=
  filter (λ r, Tracking.user_id r = user_id ∧ Tracking.name r = name ∧
               Tracking.taken_date r = taken_date ∧ Tracking.taken_time r = taken_time)
         (tracking d).

(** ** The resolver of the specification

    The resolver as section 4.1 of the specification words it, over any
    type of phases with a duration in days, to be compared with the walk
    of the source. *)
Module Spec.
Section Resolve.
Context {P : Type} (duration_days : P → Z).

Definition microseconds (d : datetime) : Z :=
  (toordinal d * 86400 + seconds_of_day d) * 1000000 + microsecond d.

(** Whole days from [a] to [b], truncating. *)
Definition whole_days_between (a b : datetime) : Z :=
  Z.quot (microseconds b - microseconds a) (86400 * 1000000).

(** The phases in order, each with the days consumed before it. *)
Fixpoint windows (cum : Z) (phases : list P) : list (Z * P) :=
  match phases with
  | [] => []
  | p :: rest => (cum, p) :: windows (cum + duration_days p) rest
  end.

Definition contains (elapsed : Z) (w : Z * P) : Prop :=
  w.1 ≤ elapsed < w.1 + duration_days w.2.

Global Instance contains_dec elapsed w : Decision (contains elapsed w).
Proof. unfold contains. apply _. Defined.

(** The first phase whose window contains the elapsed days, with its
    cumulative day offset; none before the start date. *)
Definition resolve (start_date as_of : datetime) (phases : list P) : option (P * Z) :=
  if datetime_lt as_of start_date then None
  else
    let elapsed := whole_days_between start_date as_of in
    w ← list_find (contains elapsed) (windows 0 phases);
    Some (w.2.2, w.2.1).
End Resolve.
End Spec.

(** The period declares an integer duration. *)
Definition int_duration (period : json) : Prop :=
  ∃ n, py_getitem period "duration_days" = Ok (JInt n).

(** The duration a stored period declares, when it is an integer. *)
Definition duration_of (period : json) : Z :=
  match py_getitem period "duration_days" with
  | Ok (JInt n) => n
  | _ => 0
  end.

(** The entry a row gives to a loop that skips rows in error. *)
Definition entry_of {A} (f : Schedules.row → result (option A)) (r : Schedules.row)
    : option A :=
  match f r with
  | Ok (Some pill) => Some pill
  | Ok None => None
  | Raise _ => None
  end.

(** [a] is not after [b]: [b < a] is defined and false. *)
Definition time_le (a b : json) : Prop := py_lt b a = Ok false.

(** A list in ascending order of the key [key]. *)
Definition ordered_by {A} (key : A → json) (l : list A) : Prop :=
  StronglySorted (λ x y, time_le (key x) (key y)) l.

(** The key of [x] is a string. *)
Definition has_str_key {A} (key : A → json) (x : A) : Prop := ∃ t, key x = JStr t.

(** ** Sample data *)

Definition at_time (y m d H M : Z) : datetime :=
  {| year := y; month := m; day := d;
     hour := H; minute := M; second := 0; microsecond := 0 |}.

Definition period (days : Z) (dosage time : string) : json :=
  JDict [("duration_days", JInt days); ("dosage", JStr dosage); ("time", JStr time)].

Definition schedule_row (id : Z) (user_id name start_date : string) (periods : list json)
    : Schedules.row :=
  {| Schedules.id := id; Schedules.user_id := user_id; Schedules.name := name;
     Schedules.start_date := start_date;
     Schedules.schedule_json := Some (JList periods) |}.

Definition aspirin : Schedules.row :=
  schedule_row 1 "42" "Aspirin" "2024-01-01"
    [period 3 "A" "20:00"; period 9999 "B" "08:00"].

Definition zinc : Schedules.row :=
  schedule_row 2 "42" "Zinc" "2024-01-01" [period 9999 "Z" "08:00"].

Definition undated : Schedules.row :=
  schedule_row 3 "42" "Drops" "tomorrow" [period 9999 "D" "08:00"].

Definition iron : Schedules.row :=
  schedule_row 4 "7" "Iron" "2024-01-01" [period 9999 "I" "08:00"].

Definition unpadded : Schedules.row :=
  schedule_row 5 "42" "Syrup" "2024-01-01" [period 9999 "S" "8:00"].

Definition sample_db : db :=
  {| schedules := [aspirin; zinc; undated; iron]; tracking := [] |}.

Definition aspirin_taken : Tracking.row :=
  {| Tracking.id := 1; Tracking.user_id := "42"; Tracking.name := "Aspirin";
     Tracking.taken_date := "2024-01-02"; Tracking.taken_time := "20:00";
     Tracking.logged_at := at_time 2024 1 2 20 3 |}.

Definition aspirin_again : Schedules.row :=
  schedule_row 6 "42" "Aspirin" "2024-01-02" [period 9999 "A2" "20:00"].

Definition twin_db : db :=
  {| schedules := [aspirin; aspirin_again]; tracking := [aspirin_taken] |}.

Definition logged_db : db :=
  {| schedules := [aspirin; zinc; undated; iron]; tracking := [aspirin_taken] |}.

(** ** Further notions used by the properties *)

(** The period declares a positive integer duration. *)
Definition pos_duration (period : json) : Prop :=
  ∃ n, py_getitem period "duration_days" = Ok (JInt n) ∧ 0 < n.

(** The two instants are on the same day of the calendar. *)
Definition same_date (a b : datetime) : Prop :=
  year a = year b ∧ month a = month b ∧ day a = day b.

(** The first instant of the date of [d]. *)
Definition start_of_day (d : datetime) : datetime :=
  {| year := year d; month := month d; day := day d;
     hour := 0; minute := 0; second := 0; microsecond := 0 |}.

(** The event is a reminder sent to the chat [chat_id]. *)
Definition is_sent_to (chat_id : string) (ev : event) : Prop :=
  match ev with
  | SendMessage c _ _ _ => c = chat_id
  | LogError _ _ => False
  end.

Global Instance is_sent_to_dec chat_id ev : Decision (is_sent_to chat_id ev).
Proof. destruct ev; simpl; apply _. Defined.

(** [sep in s] *)
Fixpoint occurs (sep s : string) : bool :=
  String.prefix sep s ||
  match s with
  | EmptyString => false
  | String _ s' => occurs sep s'
  end.

(** [c in s] for a character [c]. *)
Fixpoint has_char (c : ascii) (s : string) : bool :=
  match s with
  | EmptyString => false
  | String x s' => Ascii.eqb x c || has_char c s'
  end.

(** The text of a button of [logpill_command] for a pill whose time is a
    string: [f"{pill['name']} ({pill['time']})"]. *)
Definition button_text (name time : string) : string :=
  name +:+ " (" +:+ time +:+ ")".

(** The row [log_selected_pill] and [button_handler] write. *)
Definition taken_row (d : db) (user_id name taken_date taken_time : string)
    (logged_at : datetime) : Tracking.row :=
  {| Tracking.id := next_id (tracking d);
     Tracking.user_id := user_id;
     Tracking.name := name;
     Tracking.taken_date := taken_date;
     Tracking.taken_time := taken_time;
     Tracking.logged_at := logged_at |}.

(** The pill is not the dose slot of the name and the time. *)
Definition other_slot (name time : string) (pill : Pending.pill) : Prop :=
  ¬ (Pending.name pill = name ∧ Pending.time pill = JStr time).

Global Instance json_eq_dec : EqDecision json.
Proof.
  refine (fix go (a b : json) {struct a} : Decision (a = b) :=
    match a, b with
    | JNull, JNull => left eq_refl
    | JBool x, JBool y => cast_if (decide (x = y))
    | JInt x, JInt y => cast_if (decide (x = y))
    | JStr x, JStr y => cast_if (decide (x = y))
    | JList x, JList y =>
        cast_if ((fix gol (l m : list json) {struct l} : Decision (l = m) :=
           match l, m with
           | [], [] => left eq_refl
           | u :: l', v :: m' => cast_if_and (go u v) (gol l' m')
           | _, _ => right _
           end) x y)
    | JDict x, JDict y =>
        cast_if ((fix gol (l m : list (string * json)) {struct l} : Decision (l = m) :=
           match l, m with
           | [], [] => left eq_refl
           | (k, u) :: l', (k', v) :: m' =>
               cast_if_and3 (decide (k = k')) (go u v) (gol l' m')
           | _, _ => right _
           end) x y)
    | _, _ => right _
    end); abstract congruence.
Defined.

Global Instance other_slot_dec name time pill : Decision (other_slot name time pill).
Proof. unfold other_slot. apply _. Defined.

(** ** [button_handler] *)

(** The text before and after the first [c] of [s]. *)
Fixpoint split_first (c : ascii) (s : string) : option (string * string) :=
  match s with
  | EmptyString => None
  | String x s' =>
      if Ascii.eqb x c then Some (EmptyString, s')
      else
        match split_first c s' with
        | Some (a, b) => Some (String x a, b)
        | None => None
        end
  end.

(** [action, pill_name, pill_time = data.split('|', 2)]: the text is cut
    at its first two bars; a [ValueError] when it has fewer. *)
Definition split_data (data : string) : result (string * string * string) :=
  match split_first "|" data with
  | Some (action, rest) =>
      match split_first "|" rest with
      | Some (pill_name, pill_time) => Ok (action, pill_name, pill_time)
      | None => Raise ValueError
      end
  | None => Raise ValueError
  end.

(** The callback data of the button under a reminder and of a button of
    today's list, for a time that is a string:
    [f"take|{name}|{period['time']}"]. *)
Definition callback_data (name time : string) : string :=
  "take|" +:+ name +:+ "|" +:+ time.

(** What the handler makes of the message that carried the button. *)
Inductive edit :=
| Refreshed (message : today_message)
| WentWrong.

(** [now] and [later] are the two readings of the clock of the handler,
    [now'] the one of [get_todaypills_message]. *)
Definition button_handler (d : db) (user_id data : string) (now later now' : datetime)
    : db * option edit :=
  match split_data data with
  | Raise _ => (d, Some WentWrong)
  | Ok (action, pill_name, pill_time) =>
      let today_str := strftime_Ymd now in
      let logged_at_timestamp := later in
      if bool_decide (action = "take") then
        match insert_tracking d user_id pill_name today_str pill_time
                logged_at_timestamp with
        | Raise _ => (d, Some WentWrong)
        | Ok d' =>
            match get_todaypills_message d' user_id now' with
            | Ok message => (d', Some (Refreshed message))
            | Raise _ => (d', Some WentWrong)
            end
        end
      else (d, None)
  end.

(** ** [deletepill_command] *)

Inductive deletepill_reply :=
| NothingToDelete
| WhichToDelete (keyboard : list string).

Definition deletepill_command (d : db) (user_id : string) : deletepill_reply :=
  let user_items := Schedules.name <$> select_schedules d user_id in
  match user_items with
  | [] => NothingToDelete
  | _ => WhichToDelete user_items
  end.

(** More sample data. *)

Definition tea : Schedules.row :=
  {| Schedules.id := 7; Schedules.user_id := "42"; Schedules.name := "Tea";
     Schedules.start_date := "2024-01-01";
     Schedules.schedule_json :=
       Some (JList [JDict [("duration_days", JInt 9999); ("dosage", JStr "cup");
                           ("time", JInt 8)]]) |}.

Definition tea_taken : Tracking.row :=
  {| Tracking.id := 1; Tracking.user_id := "42"; Tracking.name := "Tea";
     Tracking.taken_date := "2024-01-02"; Tracking.taken_time := "8";
     Tracking.logged_at := at_time 2024 1 2 8 1 |}.

Definition tea_db : db := {| schedules := [tea]; tracking := [tea_taken] |}.

Definition listed : Schedules.row :=
  {| Schedules.id := 8; Schedules.user_id := "42"; Schedules.name := "Mix";
     Schedules.start_date := "2024-01-01";
     Schedules.schedule_json :=
       Some (JList [JDict [("duration_days", JInt 9999); ("dosage", JStr "spoon");
                           ("time", JList [JStr "08:00"; JStr "20:00"])]]) |}.

Definition listed_db : db := {| schedules := [zinc; listed]; tracking := [] |}.

Global Instance exn_eq_dec : EqDecision exn.
Proof. solve_decision. Defined.

Global Instance result_eq_dec {A} `{EqDecision A} : EqDecision (result A).
Proof. solve_decision. Defined.

(** The button of today's list for a pending entry. *)
Definition mark_of (pill : Pending.pill) : mark_button :=
  MarkTaken (Pending.name pill) (Pending.time pill).

(** The pending entry of an entry of today's list. *)
Definition pending_of (pill : Today.pill) : Pending.pill :=
  {| Pending.name := Today.name pill; Pending.time := Today.time pill |}.

(** ** [context.user_data] and [clean_user_context]

    The dict holds no key but the two the program sets; a key that is
    absent is [None]. *)

Record user_data := {
  parsed_pills : option json;
  pill_conversation_history : option (list string)
}.

Definition clean_user_context (ud : user_data) : user_data :=
  {| parsed_pills := None; pill_conversation_history := None |}.

(** [bool(v)] *)
Definition truthy (v : json) : bool :=
  match v with
  | JNull => false
  | JBool b => b
  | JInt n => negb (n =? 0)
  | JStr s => negb (String.eqb s "")
  | JList l => match l with [] => false | _ => true end
  | JDict kv => match kv with [] => false | _ => true end
  end.

(** ** [save_confirmed_pills] *)

(** The exceptions of the [sqlite3] module on top of those of [exn]: a
    parameter that is an int out of the 64 bits of SQLite, and a parameter
    of a type the module cannot bind. *)
Inductive sqlite_exn :=
| Python (e : exn)
| OverflowError
| ProgrammingError.

Inductive attempt (A : Type) :=
| Success (a : A)
| Failure (e : sqlite_exn).
Arguments Success {A} a.
Arguments Failure {A} e.

Definition attempt_bind {A B : Type} (m : attempt A) (f : A → attempt B) : attempt B :=
  match m with
  | Success a => f a
  | Failure e => Failure e
  end.

Notation "'try!' x ':=' m 'in' k" := (attempt_bind m (λ x, k))
  (at level 10, x name, m at level 100, k at level 200).

Definition lift {A : Type} (m : result A) : attempt A :=
  match m with
  | Ok a => Success a
  | Raise e => Failure (Python e)
  end.

(** The text of an int, as SQLite writes an integer into a [TEXT] column. *)
Definition decimal (n : Z) : string := NilZero.string_of_int (Z.to_int n).

(** A value bound to a parameter of a [TEXT] column: [None] is [NULL], a
    string is stored as it is, an int (or a bool, which is an int) as its
    decimal text; a list or a dict cannot be bound. *)
Definition adapt (v : json) : attempt (option string) :=
  match v with
  | JNull => Success None
  | JBool b => Success (Some (if b then "1" else "0"))
  | JInt n =>
      if (- 2 ^ 63 <=? n) && (n <? 2 ^ 63) then Success (Some (decimal n))
      else Failure OverflowError
  | JStr s => Success (Some s)
  | JList _ | JDict _ => Failure ProgrammingError
  end.

(** [INSERT INTO schedules (user_id, name, start_date, schedule_json)
    VALUES (?, ?, ?, ?)]: the parameters are bound in order, then the
    [NOT NULL] constraints are checked.  [seq] is the largest id the table
    has ever used ([AUTOINCREMENT]); the text of [schedule_json] is the
    [json.dumps] of [schedule], which [json.loads] reads back as
    [schedule]. *)
Definition insert_schedule (d : db) (seq : Z) (user_id : string)
    (name start_date schedule : json) : attempt (db * Z) :=
  try! name := adapt name in
  try! start_date := adapt start_date in
  match name, start_date with
  | Some name, Some start_date =>
      let id := 1 + Z.max seq (foldr Z.max 0 (Schedules.id <$> schedules d)) in
      Success ({| schedules := schedules d ++
                    [ {| Schedules.id := id;
                         Schedules.user_id := user_id;
                         Schedules.name := name;
                         Schedules.start_date := start_date;
                         Schedules.schedule_json := Some schedule |} ];
                  tracking := tracking d |}, id)
  | _, _ => Failure (Python IntegrityError)
  end.

(** The loop of the inserts. *)
Fixpoint insert_pills (d : db) (seq : Z) (user_id : string) (pills : list json)
    : attempt (db * Z) :=
  match pills with
  | [] => Success (d, seq)
  | pill :: rest =>
      try! name := lift (py_getitem pill "name") in
      try! start_date := lift (py_getitem pill "start_date") in
      try! schedule := lift (py_getitem pill "schedule") in
      try! next := insert_schedule d seq user_id name start_date schedule in
      insert_pills next.1 next.2 user_id rest
  end.

(** [', '.join(names)]: every name has to be a string. *)
Fixpoint join_names (names : list json) : result string :=
  match names with
  | [] => Ok EmptyString
  | name :: rest =>
      match name with
      | JStr s =>
          let! more := join_names rest in
          Ok (match rest with [] => s | _ => s +:+ ", " +:+ more end)
      | _ => Raise TypeError
      end
  end.

Fixpoint pill_names (pills : list json) : result (list json) :=
  match pills with
  | [] => Ok []
  | pill :: rest =>
      let! name := py_getitem pill "name" in
      let! names := pill_names rest in
      Ok (name :: names)
  end.

Inductive save_reply :=
| SaveSuccess (pill_names : string)
| SaveError.

(** The database and its sequence, the user data and the reply, or the
    exception that leaves the handler.  Nothing is written before
    [conn.commit()]: an exception in the loop leaves the database as it
    was; one after the commit leaves the rows in it.  An exception leaves
    the user data as they were. *)
Definition save_confirmed_pills (d : db) (seq : Z) (ud : user_data) (user_id : string)
    : db * Z * user_data * attempt save_reply :=
  let pills := default (JList []) (parsed_pills ud) in
  if truthy pills then
    match (try! items := lift (py_iter pills) in insert_pills d seq user_id items) with
    | Failure e => (d, seq, ud, Failure e)
    | Success (d', seq') =>
        match (let! items := py_iter pills in
               let! names := pill_names items in
               join_names names) with
        | Ok names => (d', seq', clean_user_context ud, Success (SaveSuccess names))
        | Raise e => (d', seq', ud, Failure (Python e))
        end
    end
  else (d, seq, clean_user_context ud, Success SaveError).

(** ** The conversation of [addpill_command] *)

Inductive state :=
| PARSE_PILL
| CONFIRM_PILL
| AWAIT_CORRECTION
| END.

Definition addpill_command (ud : user_data) : user_data * state :=
  ({| parsed_pills := parsed_pills ud; pill_conversation_history := Some [] |},
   PARSE_PILL).

Definition handle_rejection (ud : user_data) : user_data * state :=
  (ud, AWAIT_CORRECTION).

Definition cancel_command (ud : user_data) : user_data * state :=
  (clean_user_context ud, END).

(** [c.isspace()] on a character below 256. *)
Definition is_space (c : ascii) : bool :=
  let n := Z.of_nat (nat_of_ascii c) in
  ((9 <=? n) && (n <=? 13)) || ((28 <=? n) && (n <=? 32)) || (n =? 133) || (n =? 160).

Fixpoint lstrip (s : string) : string :=
  match s with
  | EmptyString => EmptyString
  | String c s' => if is_space c then lstrip s' else s
  end.

(** [s.rstrip()]: the text up to its last character that is not a space. *)
Fixpoint rstrip (s : string) : string :=
  match s with
  | EmptyString => EmptyString
  | String c s' =>
      match rstrip s' with
      | EmptyString => if is_space c then EmptyString else String c EmptyString
      | rest => String c rest
      end
  end.

(** [s.strip()] *)
Definition strip (s : string) : string := rstrip (lstrip s).

(** [s.replace(old, "")] for a text [old] that is not empty: the
    occurrences of [old] are removed from left to right; [skip] counts the
    characters of an occurrence still to be dropped. *)
Fixpoint remove_from (old : string) (skip : nat) (s : string) : string :=
  match s with
  | EmptyString => EmptyString
  | String c s' =>
      match skip with
      | S n => remove_from old n s'
      | O =>
          if String.prefix old s then remove_from old (String.length old - 1) s'
          else String c (remove_from old 0 s')
      end
  end.

Definition remove_all (old s : string) : string := remove_from old 0 s.

(** [text.strip().replace("```json", "").replace("```", "")] *)
Definition json_response_text (text : string) : string :=
  remove_all "```" (remove_all "```json" (strip text)).

Definition newline : string := String (ascii_of_nat 10) EmptyString.

(** [sep.join(l)] *)
Fixpoint join (sep : string) (l : list string) : string :=
  match l with
  | [] => EmptyString
  | [x] => x
  | x :: rest => x +:+ sep +:+ join sep rest
  end.

(** The prompt, kept as the two texts it interpolates. *)
Record prompt := { today_date : string; full_conversation : string }.

(** A line of the schedule shown for confirmation, kept as the three
    values it interpolates, and a pill with its lines. *)
Definition show_period (period : json) : result (json * json * json) :=
  let! duration_days := py_getitem period "duration_days" in
  let! dosage := py_getitem period "dosage" in
  let! time := py_getitem period "time" in
  Ok (duration_days, dosage, time).

Fixpoint show_periods (periods : list json) : result (list (json * json * json)) :=
  match periods with
  | [] => Ok []
  | period :: rest =>
      let! line := show_period period in
      let! lines := show_periods rest in
      Ok (line :: lines)
  end.

Definition show_pill (pill : json) : result (json * json * list (json * json * json)) :=
  let! name := py_getitem pill "name" in
  let! start_date := py_getitem pill "start_date" in
  let! schedule := py_getitem pill "schedule" in
  let! periods := py_iter schedule in
  let! lines := show_periods periods in
  Ok (name, start_date, lines).

Fixpoint show_pills (pills : list json)
    : result (list (json * json * list (json * json * json))) :=
  match pills with
  | [] => Ok []
  | pill :: rest =>
      let! shown := show_pill pill in
      let! more := show_pills rest in
      Ok (shown :: more)
  end.

Inductive parse_reply :=
| ConfirmationPrompt (schedule_text : list (json * json * list (json * json * json)))
| ParseError
| GenericError.

Section Gemini.

(** The parsing service: the text of the first part of the first candidate
    of the response to a prompt, [None] when the call or the reading of the
    response raises. *)
Variable generate_content : prompt → option string.

(** [json.loads] on a text: [None] when it raises. *)
Variable loads : string → option json.

(** The user data, the reply and the next state, or the [KeyError] of a
    history that is absent, which is raised outside the [try]. *)
Definition parse_with_gemini (ud : user_data) (user_text : string) (now : datetime)
    : result (user_data * parse_reply * state) :=
  match pill_conversation_history ud with
  | None => Raise (KeyError "pill_conversation_history")
  | Some history =>
      let history := history ++ [user_text] in
      let ud := {| parsed_pills := parsed_pills ud;
                   pill_conversation_history := Some history |} in
      let prompt := {| today_date := strftime_Ymd now;
                       full_conversation :=
                         join (newline +:+ "---" +:+ newline) history |} in
      match generate_content prompt with
      | None => Ok (clean_user_context ud, GenericError, END)
      | Some text =>
          match loads (json_response_text text) with
          | None => Ok (clean_user_context ud, GenericError, END)
          | Some pills =>
              if truthy pills then
                let ud := {| parsed_pills := Some pills;
                             pill_conversation_history := Some history |} in
                match (let! items := py_iter pills in show_pills items) with
                | Ok schedule_text =>
                    Ok (ud, ConfirmationPrompt schedule_text, CONFIRM_PILL)
                | Raise _ => Ok (clean_user_context ud, GenericError, END)
                end
              else Ok (clean_user_context ud, ParseError, END)
          end
      end
  end.

End Gemini.

(** Every pill has a name, a start date and a schedule, and every period
    of every schedule a duration, a dosage and a time. *)
Definition shown_period (period : json) : Prop :=
  ∃ duration_days dosage time,
    py_getitem period "duration_days" = Ok duration_days
    ∧ py_getitem period "dosage" = Ok dosage
    ∧ py_getitem period "time" = Ok time.

Definition shown_pill (pill : json) : Prop :=
  ∃ name start_date schedule periods,
    py_getitem pill "name" = Ok name
    ∧ py_getitem pill "start_date" = Ok start_date
    ∧ py_getitem pill "schedule" = Ok schedule
    ∧ py_iter schedule = Ok periods
    ∧ Forall shown_period periods.

(** A stored row holds a schedule that was shown for confirmation. *)
Definition shown_row (r : Schedules.row) : Prop :=
  ∃ schedule periods,
    Schedules.schedule_json r = Some schedule
    ∧ py_iter schedule = Ok periods
    ∧ Forall shown_period periods.

(** The exception is that of a key that is missing or of a text that is
    not JSON. *)
Definition undecoded (e : exn) : Prop :=
  e = JSONDecodeError ∨ ∃ key, e = KeyError key.

(** A stored row is the row of a pill. *)
Definition row_of_pill (user_id : string) (pill : json) (r : Schedules.row) : Prop :=
  Schedules.user_id r = user_id
  ∧ ∃ name start_date schedule,
      py_getitem pill "name" = Ok name
      ∧ adapt name = Success (Some (Schedules.name r))
      ∧ py_getitem pill "start_date" = Ok start_date
      ∧ adapt start_date = Success (Some (Schedules.start_date r))
      ∧ py_getitem pill "schedule" = Ok schedule
      ∧ Schedules.schedule_json r = Some schedule.

(** The pill has a name and a start date that are strings, and a
    schedule. *)
Definition text_pill (pill : json) : Prop :=
  ∃ name start_date schedule,
    py_getitem pill "name" = Ok (JStr name)
    ∧ py_getitem pill "start_date" = Ok (JStr start_date)
    ∧ py_getitem pill "schedule" = Ok schedule.

Definition pill (name start_date : string) (periods : list json) : json :=
  JDict [("name", JStr name); ("start_date", JStr start_date);
         ("schedule", JList periods)].

Definition confirmed : user_data :=
  {| parsed_pills := Some (JList [pill "Zinc" "2024-01-05" [period 9999 "Z" "08:00"]]);
     pill_conversation_history := Some ["zinc every morning at 8"] |}.

(** The text of a time that is a string. *)
Definition time_text (time : json) : string :=
  match time with
  | JStr s => s
  | _ => EmptyString
  end.

(** The choice of the button of a pending entry. *)
Definition choice_of (pill : Pending.pill) : string :=
  button_text (Pending.name pill) (time_text (Pending.time pill)).

(** The time of an entry is a string that can stand on a button. *)
Definition button_time (pill : Pending.pill) : Prop :=
  ∃ t, Pending.time pill = JStr t ∧ occurs " (" t = false.

(** The time a line of today's list shows. *)
Definition line_time (l : line) : json :=
  match l with
  | Header => JNull
  | TakenLine _ _ time => time
  | PendingLine _ _ time => time
  end.

(** * Properties *)

(** One case for each month of the year. *)
Ltac each_month m :=
  let H := fresh in
  assert (m = 1 ∨ m = 2 ∨ m = 3 ∨ m = 4 ∨ m = 5 ∨ m = 6 ∨ m = 7 ∨ m = 8 ∨
          m = 9 ∨ m = 10 ∨ m = 11 ∨ m = 12) as H by lia;
  repeat (destruct H as [->|H]); [..|subst m].

(** ** Worked examples *)

Example strptime_padded :
  strptime_Ymd "2024-01-01" = Ok (at_time 2024 1 1 0 0).
Proof. reflexivity. Qed.

Example strptime_unpadded :
  strptime_Ymd "2024-1-5" = Ok (at_time 2024 1 5 0 0).
Proof. reflexivity. Qed.

Example strptime_no_such_day : strptime_Ymd "2023-02-29" = Raise ValueError.
Proof. reflexivity. Qed.

Example strptime_trailing_text : strptime_Ymd "2024-01-011" = Raise ValueError.
Proof. reflexivity. Qed.

Example toordinal_2024 : toordinal (at_time 2024 3 1 0 0) = 738946.
Proof. reflexivity. Qed.

Example rsplit_last_paren : rsplit1 " (" "Drops (eye) (08:00)" = Ok ("Drops (eye)", "08:00)").
Proof. reflexivity. Qed.

Example rsplit_absent : rsplit1 " (" "Aspirin" = Raise ValueError.
Proof. reflexivity. Qed.

Example lower_cancel : lower "CaNcEl" = "cancel".
Proof. reflexivity. Qed.

(** The schedule of the specification: three days of A, then B for good,
    from 2024-01-01. *)
Example resolve_second_day :
  resolve (at_time 2024 1 2 12 0) aspirin = Ok (Some (period 3 "A" "20:00")).
Proof. reflexivity. Qed.

Example resolve_fifth_day :
  resolve (at_time 2024 1 5 12 0) aspirin = Ok (Some (period 9999 "B" "08:00")).
Proof. reflexivity. Qed.

Example resolve_in_june :
  resolve (at_time 2024 6 1 12 0) aspirin = Ok (Some (period 9999 "B" "08:00")).
Proof. reflexivity. Qed.

Example resolve_spec_in_june :
  Spec.resolve duration_of (at_time 2024 1 1 0 0) (at_time 2024 6 1 12 0)
    [period 3 "A" "20:00"; period 9999 "B" "08:00"]
  = Some (period 9999 "B" "08:00", 3).
Proof. reflexivity. Qed.

(** A duration that is not a number is an error only when the walk
    reaches it. *)
Example find_period_text_duration :
  find_period 1 0 [period 3 "A" "20:00"; JDict [("duration_days", JStr "7")]]
  = Ok (Some (period 3 "A" "20:00"))
  ∧ find_period 5 0 [period 3 "A" "20:00"; JDict [("duration_days", JStr "7")]]
    = Raise TypeError.
Proof. split; reflexivity. Qed.

Example tick_at_eight :
  check_reminders sample_db (at_time 2024 1 5 8 0) =
    [SendMessage "42" "Aspirin" (JStr "B") (JStr "08:00");
     SendMessage "42" "Zinc" (JStr "Z") (JStr "08:00");
     LogError "42" ValueError;
     SendMessage "7" "Iron" (JStr "I") (JStr "08:00")].
Proof. reflexivity. Qed.

Example sorted_is_stable :
  sorted Pending.time
    [ {| Pending.name := "b"; Pending.time := JStr "08:00" |};
      {| Pending.name := "c"; Pending.time := JStr "07:30" |};
      {| Pending.name := "a"; Pending.time := JStr "08:00" |} ]
  = Ok [ {| Pending.name := "c"; Pending.time := JStr "07:30" |};
         {| Pending.name := "b"; Pending.time := JStr "08:00" |};
         {| Pending.name := "a"; Pending.time := JStr "08:00" |} ].
Proof. reflexivity. Qed.

Example sorted_mixed_keys :
  sorted Pending.time
    [ {| Pending.name := "a"; Pending.time := JStr "08:00" |};
      {| Pending.name := "b"; Pending.time := JInt 8 |} ]
  = Raise TypeError.
Proof. reflexivity. Qed.

Example unhashable_time :
  in_taken "a" (JList [JStr "08:00"]) ∅ = Raise TypeError.
Proof. reflexivity. Qed.

Example not_the_format : is_HHMM "8:00" = false ∧ is_HHMM "08:00:00" = false.
Proof. split; reflexivity. Qed.

(** ** The result monad *)

Lemma bind_Ok {A B} (f : A → result B) a : bind (Ok a) f = f a.
Proof. reflexivity. Qed.

Lemma bind_Raise {A B} (f : A → result B) e : bind (Raise e) f = Raise e.
Proof. reflexivity. Qed.

Lemma bind_Ok_inv {A B} (m : result A) (f : A → result B) b :
  bind m f = Ok b → ∃ a, m = Ok a ∧ f a = Ok b.
Proof. destruct m as [a|e]; simpl; [eauto | discriminate]. Qed.

(** ** A loop that appends *)

Lemma foldl_append {A B} (f : list B → A → list B) (g : A → list B)
    (l : list A) (acc : list B) :
  (∀ out r, f out r = out ++ g r) →
  foldl f acc l = acc ++ concat (g <$> l).
Proof.
  intros Hf. revert acc. induction l as [|r l IH]; intros acc; simpl.
  - by rewrite app_nil_r.
  - by rewrite IH, Hf, app_assoc.
Qed.

Lemma check_reminders_rows d now :
  check_reminders d now = concat (tick_row now <$> schedules d).
Proof.
  unfold check_reminders. simpl.
  rewrite (foldl_append _ (tick_row now)); [done|].
  intros out r. unfold tick_row.
  by destruct (remind now (strftime_HM now) r).
Qed.

Lemma check_reminders_split d now pre r post :
  schedules d = pre ++ r :: post →
  check_reminders d now =
    check_reminders (with_schedules d pre) now ++ tick_row now r ++
    check_reminders (with_schedules d post) now.
Proof.
  intros Hrows. rewrite !check_reminders_rows, Hrows. simpl.
  by rewrite fmap_app, concat_app.
Qed.

(** ** The reminder of one row *)

Lemma py_eq_JStr v s : py_eq v (JStr s) = true ↔ v = JStr s.
Proof.
  destruct v; simpl; try (split; [discriminate | congruence]).
  rewrite String.eqb_eq. split; congruence.
Qed.

Lemma remind_found now cur r period :
  resolve now r = Ok (Some period) → remind now cur r = notify cur r period.
Proof.
  unfold resolve, remind. intros H.
  destruct (strptime_Ymd (Schedules.start_date r)) as [sd|]; [|done].
  simpl in H.
  destruct (json_loads (Schedules.schedule_json r)) as [js|]; simpl in *.
  - destruct (datetime_lt now sd); [done|].
    destruct (py_iter js) as [ps|]; [|done]. simpl in *.
    by rewrite H.
  - by destruct (datetime_lt now sd).
Qed.

Lemma notify_sends cur r period ev :
  ev ∈@{list event} match notify cur r period with Ok l => l | Raise _ => [] end →
  ∃ dosage, py_getitem period "time" = Ok (JStr cur) ∧
            py_getitem period "dosage" = Ok dosage ∧
            ev = SendMessage (Schedules.user_id r) (Schedules.name r) dosage (JStr cur).
Proof.
  unfold notify. destruct (py_getitem period "time") as [t|] eqn:Ht; simpl.
  2: by intros ?%elem_of_nil.
  destruct (py_eq t (JStr cur)) eqn:Heq; [|by intros ?%elem_of_nil].
  apply py_eq_JStr in Heq as ->.
  destruct (py_getitem period "dosage") as [dd|]; simpl.
  2: by intros ?%elem_of_nil.
  intros ->%list_elem_of_singleton. eauto.
Qed.

(** A row sends at most the reminder of the period it is in, and only when
    that period's time is the text of the current minute. *)
Lemma tick_row_send now r u n dd t :
  SendMessage u n dd t ∈ tick_row now r →
  ∃ period, resolve now r = Ok (Some period) ∧
            py_getitem period "time" = Ok (JStr (strftime_HM now)) ∧
            py_getitem period "dosage" = Ok dd ∧
            t = JStr (strftime_HM now) ∧
            u = Schedules.user_id r ∧ n = Schedules.name r.
Proof.
  unfold tick_row, remind, resolve.
  destruct (json_loads (Schedules.schedule_json r)) as [js|]; simpl.
  2: { intros H%list_elem_of_singleton. discriminate. }
  destruct (strptime_Ymd (Schedules.start_date r)) as [sd|]; simpl.
  2: { intros H%list_elem_of_singleton. discriminate. }
  destruct (datetime_lt now sd). { by intros ?%elem_of_nil. }
  destruct (py_iter js) as [ps|]; simpl.
  2: { intros H%list_elem_of_singleton. discriminate. }
  destruct (find_period _ _ ps) as [[period|]|]; simpl.
  - intros H. exists period. split; [done|].
    destruct (notify (strftime_HM now) r period) as [l|] eqn:Hn.
    + pose proof (notify_sends (strftime_HM now) r period (SendMessage u n dd t)) as Hs.
      rewrite Hn in Hs. destruct (Hs H) as (dd' & ? & ? & [= -> -> -> ->]). done.
    + apply list_elem_of_singleton in H. discriminate.
  - by intros ?%elem_of_nil.
  - intros H%list_elem_of_singleton. discriminate.
Qed.

Lemma remind_none now cur r ev :
  resolve now r = Ok None →
  ev ∈ match remind now cur r with Ok l => l | Raise e => [LogError (Schedules.user_id r) e] end →
  is_send ev = false.
Proof.
  unfold resolve, remind. intros H.
  destruct (strptime_Ymd (Schedules.start_date r)) as [sd|]; [|done].
  simpl in H.
  destruct (json_loads (Schedules.schedule_json r)) as [js|]; simpl in *.
  2: { by intros ->%list_elem_of_singleton. }
  destruct (datetime_lt now sd). { by intros ?%elem_of_nil. }
  destruct (py_iter js) as [ps|]; [|done]. simpl in *.
  rewrite H. by intros ?%elem_of_nil.
Qed.

Lemma no_send_iff (l : list event) :
  (∀ ev, ev ∈ l → is_send ev = false) ↔ ∀ u n dd t, SendMessage u n dd t ∉ l.
Proof.
  split.
  - intros H u n dd t Hin. by apply H in Hin.
  - intros H [u n dd t|u e] Hin; [by apply H in Hin | done].
Qed.

(** ** C2: one reminder for a row whose period is due, none otherwise *)

(** C2.  On a tick, the events are those of the rows before [r], those of
    [r], and those of the rows after it.  When [r] is in a period whose
    [time] is the text "HH:MM" of the tick and which has a [dosage], the
    events of [r] are exactly one reminder, sent to the owner of [r]; when
    [r] is in no period whose time is that text, [r] sends nothing. *)
Theorem reminder_emission d now pre r post :
  schedules d = pre ++ r :: post →
  check_reminders d now =
    check_reminders (with_schedules d pre) now ++ tick_row now r ++
    check_reminders (with_schedules d post) now
  ∧ (∀ period dosage,
       resolve now r = Ok (Some period) →
       py_getitem period "time" = Ok (JStr (strftime_HM now)) →
       py_getitem period "dosage" = Ok dosage →
       tick_row now r =
         [SendMessage (Schedules.user_id r) (Schedules.name r) dosage
                      (JStr (strftime_HM now))])
  ∧ ((∀ period, resolve now r = Ok (Some period) →
                py_getitem period "time" ≠ Ok (JStr (strftime_HM now))) →
     ∀ ev, ev ∈ tick_row now r → is_send ev = false).
Proof.
  intros Hrows. split; [by apply check_reminders_split|]. split.
  - intros p dosage Hres Htime Hdose. unfold tick_row.
    rewrite (remind_found _ _ _ p Hres). unfold notify.
    rewrite Htime, bind_Ok.
    assert (py_eq (JStr (strftime_HM now)) (JStr (strftime_HM now)) = true) as ->
      by by apply py_eq_JStr.
    by rewrite Hdose.
  - intros Hno [u n dd t|u e] Hin; [|done]. exfalso.
    apply tick_row_send in Hin as (p & Hres & Htime & _).
    by apply (Hno p).
Qed.

Lemma reminder_emission_witness :
  schedules sample_db = [aspirin] ++ zinc :: [undated; iron]
  ∧ tick_row (at_time 2024 1 5 8 0) zinc =
      [SendMessage "42" "Zinc" (JStr "Z") (JStr "08:00")]
  ∧ check_reminders sample_db (at_time 2024 1 5 8 0) =
      [SendMessage "42" "Aspirin" (JStr "B") (JStr "08:00");
       SendMessage "42" "Zinc" (JStr "Z") (JStr "08:00");
       LogError "42" ValueError;
       SendMessage "7" "Iron" (JStr "I") (JStr "08:00")].
Proof.
  assert (schedules sample_db = [aspirin] ++ zinc :: [undated; iron]) as Hrows
    by reflexivity.
  destruct (reminder_emission sample_db (at_time 2024 1 5 8 0) _ _ _ Hrows)
    as (Hsplit & Hone & _).
  split; [exact Hrows|]. split.
  - apply (Hone (period 9999 "Z" "08:00")); reflexivity.
  - rewrite Hsplit. reflexivity.
Defined.

(** ** C7: an error in one row does not stop the tick *)

(** C7.  When the processing of a row [r] raises [e], the tick logs [e]
    for the owner of [r] in the place of the events of [r], and the rows
    before and after [r] are processed as they are without it. *)
Theorem error_skips_only_that_schedule d now pre r post e :
  schedules d = pre ++ r :: post →
  remind now (strftime_HM now) r = Raise e →
  check_reminders d now =
    check_reminders (with_schedules d pre) now ++
    [LogError (Schedules.user_id r) e] ++
    check_reminders (with_schedules d post) now.
Proof.
  intros Hrows Hraise. rewrite (check_reminders_split d now pre r post Hrows).
  unfold tick_row. by rewrite Hraise.
Qed.

Lemma error_skips_only_that_schedule_witness :
  schedules sample_db = [aspirin; zinc] ++ undated :: [iron]
  ∧ remind (at_time 2024 1 5 8 0) (strftime_HM (at_time 2024 1 5 8 0)) undated
    = Raise ValueError
  ∧ check_reminders sample_db (at_time 2024 1 5 8 0) =
      [SendMessage "42" "Aspirin" (JStr "B") (JStr "08:00");
       SendMessage "42" "Zinc" (JStr "Z") (JStr "08:00")] ++
      [LogError "42" ValueError] ++
      [SendMessage "7" "Iron" (JStr "I") (JStr "08:00")].
Proof.
  split; [reflexivity|]. split; [reflexivity|].
  apply (error_skips_only_that_schedule sample_db (at_time 2024 1 5 8 0)
           [aspirin; zinc] undated [iron] ValueError); reflexivity.
Defined.

(** ** C6: nothing before the start date *)

(** C6.  At an instant before the start date of a row, the row is in no
    period: it gives no pending entry, no entry of today's list, and the
    tick sends no reminder for it. *)
Theorem before_start_resolves_none now r start_date :
  strptime_Ymd (Schedules.start_date r) = Ok start_date →
  datetime_lt now start_date = true →
  resolve now r = Ok None
  ∧ pending_entry now r = Ok None
  ∧ today_entry now r = Ok None
  ∧ ∀ ev, ev ∈ tick_row now r → is_send ev = false.
Proof.
  intros Hstart Hlt.
  assert (resolve now r = Ok None) as Hres.
  { unfold resolve. rewrite Hstart. simpl. by rewrite Hlt. }
  split; [done|]. split; [|split].
  - unfold pending_entry. rewrite Hstart. simpl. by rewrite Hlt.
  - unfold today_entry. rewrite Hstart. simpl. by rewrite Hlt.
  - intros ev. unfold tick_row. by apply remind_none.
Qed.

Lemma before_start_resolves_none_witness :
  strptime_Ymd (Schedules.start_date aspirin) = Ok (at_time 2024 1 1 0 0)
  ∧ datetime_lt (at_time 2023 12 31 23 59) (at_time 2024 1 1 0 0) = true
  ∧ resolve (at_time 2023 12 31 23 59) aspirin = Ok None.
Proof.
  split; [reflexivity|]. split; [reflexivity|].
  apply (before_start_resolves_none (at_time 2023 12 31 23 59) aspirin
           (at_time 2024 1 1 0 0)); reflexivity.
Defined.

(** ** C9: the time is matched as text *)

Lemma digit_val_digit n : 0 ≤ n ≤ 9 → digit_val (digit n) = Some n.
Proof.
  intros Hn.
  assert (n = 0 ∨ n = 1 ∨ n = 2 ∨ n = 3 ∨ n = 4 ∨ n = 5 ∨ n = 6 ∨ n = 7 ∨
          n = 8 ∨ n = 9) as H by lia.
  repeat (destruct H as [->|H]; [reflexivity|]). by subst.
Qed.

Lemma strftime_HM_is_HHMM now : valid_datetime now → is_HHMM (strftime_HM now) = true.
Proof.
  intros (_ & _ & _ & Hh & Hm & _).
  unfold strftime_HM, pad2. simpl. unfold is_HHMM.
  rewrite !digit_val_digit by (Z.div_mod_to_equations; lia).
  apply andb_true_intro. split; apply Z.ltb_lt; Z.div_mod_to_equations; lia.
Qed.

(** C9.  A row that is in a period whose [time] is a text not of the form
    "HH:MM" sends no reminder, at any tick: the text of the tick always has
    that form, and the two are compared as texts. *)
Theorem reminder_needs_HHMM now r period s :
  valid_datetime now →
  resolve now r = Ok (Some period) →
  py_getitem period "time" = Ok (JStr s) →
  is_HHMM s = false →
  ∀ ev, ev ∈ tick_row now r → is_send ev = false.
Proof.
  intros Hnow Hres Htime Hs [u n dd t|u e] Hin; [|done]. exfalso.
  apply tick_row_send in Hin as (p & Hres' & Htime' & _).
  rewrite Hres in Hres'. injection Hres' as <-.
  rewrite Htime in Htime'. injection Htime' as ->.
  rewrite strftime_HM_is_HHMM in Hs by done. discriminate.
Qed.

Lemma at_time_valid y m d H M :
  1 ≤ y ≤ 9999 → 1 ≤ m ≤ 12 → 1 ≤ d ≤ days_in_month y m →
  0 ≤ H < 24 → 0 ≤ M < 60 → valid_datetime (at_time y m d H M).
Proof.
  unfold valid_datetime, at_time.
  cbn [year month day hour minute second microsecond]. lia.
Qed.

Lemma reminder_needs_HHMM_witness :
  valid_datetime (at_time 2024 1 5 8 0)
  ∧ resolve (at_time 2024 1 5 8 0) unpadded = Ok (Some (period 9999 "S" "8:00"))
  ∧ py_getitem (period 9999 "S" "8:00") "time" = Ok (JStr "8:00")
  ∧ is_HHMM "8:00" = false
  ∧ is_HHMM "08:00:00" = false
  ∧ ∀ ev, ev ∈ tick_row (at_time 2024 1 5 8 0) unpadded → is_send ev = false.
Proof.
  assert (valid_datetime (at_time 2024 1 5 8 0)) as Hnow.
  { apply at_time_valid; split; by vm_compute. }
  split; [exact Hnow|]. split; [reflexivity|]. split; [reflexivity|].
  split; [reflexivity|]. split; [reflexivity|].
  apply (reminder_needs_HHMM _ unpadded (period 9999 "S" "8:00") "8:00");
    [exact Hnow | reflexivity | reflexivity | reflexivity].
Defined.

(** ** C8: deleting a name that is not stored *)

Lemma filter_all {A} (P : A → Prop) `{∀ x, Decision (P x)} (l : list A) :
  (∀ x, x ∈ l → P x) → filter P l = l.
Proof.
  induction l as [|x l IH]; intros Hall; [done|].
  rewrite filter_cons_True by (apply Hall; left).
  f_equal. apply IH. intros y Hy. apply Hall. by right.
Qed.

Lemma filter_none {A} (P : A → Prop) `{∀ x, Decision (P x)} (l : list A) :
  (∀ x, x ∈ l → ¬ P x) → filter P l = [].
Proof.
  induction l as [|x l IH]; intros Hall; [done|].
  rewrite filter_cons_False by (apply Hall; left).
  apply IH. intros y Hy. apply Hall. by right.
Qed.

(** C8.  When the owner has no schedule of the chosen name, the [DELETE]
    leaves the database as it is and reports a row count of zero, and the
    handler answers with the "not found" reply, raising nothing. *)
Theorem delete_absent_is_noop d user_id choice :
  (∀ r, r ∈ schedules d →
        ¬ (Schedules.user_id r = user_id ∧ Schedules.name r = choice)) →
  delete_schedules d user_id choice = (d, 0)
  ∧ delete_selected_pill d user_id choice = (d, DeleteError).
Proof.
  intros Habsent.
  assert (delete_schedules d user_id choice = (d, 0)) as Hdel.
  { unfold delete_schedules.
    rewrite filter_all, filter_none by done. by destruct d. }
  split; [done|]. unfold delete_selected_pill. by rewrite Hdel.
Qed.

Lemma delete_absent_is_noop_witness :
  (∀ r, r ∈ schedules sample_db →
        ¬ (Schedules.user_id r = "42" ∧ Schedules.name r = "Iron"))
  ∧ delete_selected_pill sample_db "42" "Iron" = (sample_db, DeleteError).
Proof.
  assert (∀ r, r ∈ schedules sample_db →
               ¬ (Schedules.user_id r = "42" ∧ Schedules.name r = "Iron")) as Habsent.
  { intros r Hr [Hu Hn]. simpl in Hr.
    repeat (apply elem_of_cons in Hr as [->|Hr]; [discriminate|]).
    by apply elem_of_nil in Hr. }
  split; [exact Habsent|].
  apply (delete_absent_is_noop sample_db "42" "Iron" Habsent).
Defined.


(** ** C1: logging the same dose slot twice *)

Lemma log_selected_pill_logs d user_id choice pill_name pill_time now later :
  lower choice ≠ "cancel" →
  rsplit1 " (" choice = Ok (pill_name, pill_time) →
  log_selected_pill d user_id choice now later =
    ({| schedules := schedules d;
        tracking := tracking d ++
          [ {| Tracking.id := next_id (tracking d);
               Tracking.user_id := user_id;
               Tracking.name := pill_name;
               Tracking.taken_date := strftime_Ymd now;
               Tracking.taken_time := drop_last pill_time;
               Tracking.logged_at := later |} ] |},
     Some (Logged pill_name)).
Proof.
  intros Hcancel Hsplit. unfold log_selected_pill.
  rewrite bool_decide_eq_false_2 by done. by rewrite Hsplit.
Qed.

Lemma slot_records_snoc rows_s rows row user_id name taken_date taken_time :
  Tracking.user_id row = user_id → Tracking.name row = name →
  Tracking.taken_date row = taken_date → Tracking.taken_time row = taken_time →
  slot_records {| schedules := rows_s; tracking := rows ++ [row] |}
    user_id name taken_date taken_time =
  slot_records {| schedules := rows_s; tracking := rows |}
    user_id name taken_date taken_time ++ [row].
Proof.
  intros. unfold slot_records. simpl.
  by rewrite filter_app, filter_cons_True.
Qed.

(** C1 (what the code does).  The dose slot is not checked before the
    [INSERT] and the table has no uniqueness constraint: a second
    identical choice is answered "logged" like the first, and the slot then
    has two records more than before. *)
Theorem record_taken_twice_stores_two d user_id choice pill_name pill_time
    now later1 later2 :
  lower choice ≠ "cancel" →
  rsplit1 " (" choice = Ok (pill_name, pill_time) →
  let first := log_selected_pill d user_id choice now later1 in
  let second := log_selected_pill first.1 user_id choice now later2 in
  first.2 = Some (Logged pill_name)
  ∧ second.2 = Some (Logged pill_name)
  ∧ length (slot_records second.1 user_id pill_name (strftime_Ymd now)
              (drop_last pill_time)) =
    S (S (length (slot_records d user_id pill_name (strftime_Ymd now)
                    (drop_last pill_time)))).
Proof.
  intros Hcancel Hsplit first second. subst first second.
  rewrite !(log_selected_pill_logs _ _ _ _ _ _ _ Hcancel Hsplit).
  cbn [fst snd schedules tracking].
  split; [done|]. split; [done|].
  rewrite !slot_records_snoc, !length_app by done.
  destruct d. simpl. lia.
Qed.

Lemma record_taken_twice_stores_two_witness :
  lower "Aspirin (20:00)" ≠ "cancel"
  ∧ rsplit1 " (" "Aspirin (20:00)" = Ok ("Aspirin", "20:00)")
  ∧ (log_selected_pill
       (log_selected_pill sample_db "42" "Aspirin (20:00)"
          (at_time 2024 1 2 20 0) (at_time 2024 1 2 20 0)).1
       "42" "Aspirin (20:00)" (at_time 2024 1 2 20 0) (at_time 2024 1 2 20 1)).2
    = Some (Logged "Aspirin")
  ∧ length (slot_records
       (log_selected_pill
          (log_selected_pill sample_db "42" "Aspirin (20:00)"
             (at_time 2024 1 2 20 0) (at_time 2024 1 2 20 0)).1
          "42" "Aspirin (20:00)" (at_time 2024 1 2 20 0) (at_time 2024 1 2 20 1)).1
       "42" "Aspirin" "2024-01-02" "20:00") = 2%nat.
Proof.
  assert (lower "Aspirin (20:00)" ≠ "cancel") as Hcancel by discriminate.
  assert (rsplit1 " (" "Aspirin (20:00)" = Ok ("Aspirin", "20:00)")) as Hsplit
    by reflexivity.
  destruct (record_taken_twice_stores_two sample_db "42" _ _ _
              (at_time 2024 1 2 20 0) (at_time 2024 1 2 20 0) (at_time 2024 1 2 20 1)
              Hcancel Hsplit) as (_ & Hsecond & Hcount).
  split; [exact Hcancel|]. split; [exact Hsplit|]. split; [exact Hsecond|].
  exact Hcount.
Defined.

(** No choice is ever answered "already logged". *)
Lemma log_selected_pill_never_rejects d user_id choice now later pill_name :
  (log_selected_pill d user_id choice now later).2 ≠ Some (AlreadyLogged pill_name).
Proof.
  unfold log_selected_pill. case_bool_decide; [done|].
  by destruct (rsplit1 " (" choice) as [[n t]|].
Qed.

(** ** The entries of today *)

Lemma foldl_entries {A} (f : Schedules.row → result (option A)) rows acc :
  foldl (λ acc r,
           match f r with
           | Ok (Some pill) => acc ++ [pill]
           | Ok None => acc
           | Raise _ => acc
           end) acc rows
  = acc ++ omap (entry_of f) rows.
Proof.
  revert acc. induction rows as [|r rows IH]; intros acc; simpl.
  - by rewrite app_nil_r.
  - rewrite IH. unfold entry_of at 2.
    destruct (f r) as [[pill|]|]; [|done..].
    by rewrite <- app_assoc.
Qed.

Lemma elem_of_select_taken d user_id today_str name time :
  (name, time) ∈ select_taken d user_id today_str ↔
  ∃ rec, rec ∈ tracking d ∧ Tracking.user_id rec = user_id ∧
         Tracking.taken_date rec = today_str ∧
         Tracking.name rec = name ∧ Tracking.taken_time rec = time.
Proof.
  unfold select_taken. rewrite list_elem_of_fmap. split.
  - intros (rec & [= -> ->] & ((Hu & Hd) & Hin)%list_elem_of_filter).
    exists rec. done.
  - intros (rec & Hin & Hu & Hd & <- & <-). exists rec. split; [done|].
    apply list_elem_of_filter. done.
Qed.

Lemma in_taken_true name time taken :
  in_taken name time taken = Ok true ↔ ∃ t, time = JStr t ∧ (name, t) ∈ taken.
Proof.
  unfold in_taken. split.
  - destruct time; simpl; try discriminate.
    intros [= H%bool_decide_eq_true]. eauto.
  - intros (t & -> & Hin). simpl. by rewrite bool_decide_eq_true_2.
Qed.

Lemma not_taken_elem taken pills out pill :
  not_taken taken pills = Ok out →
  pill ∈ out ↔
  pill ∈ pills ∧ in_taken (Pending.name pill) (Pending.time pill) taken = Ok false.
Proof.
  revert out. induction pills as [|p pills IH]; intros out; simpl.
  - intros [= <-]. split; [by intros ?%elem_of_nil | by intros [?%elem_of_nil _]].
  - destruct (in_taken (Pending.name p) (Pending.time p) taken) as [b|] eqn:Hb;
      [|done].
    simpl. destruct (not_taken taken pills) as [rest|]; [|done]. simpl.
    intros [= <-]. specialize (IH rest eq_refl).
    destruct b.
    + rewrite IH, elem_of_cons. split; [tauto|].
      intros [[->|?] Hf]; [congruence | done].
    + rewrite !elem_of_cons, IH. split.
      * intros [->|[? ?]]; [by split; [left|] | by split; [right|]].
      * intros [[->|?] ?]; [by left | by right].
Qed.

Lemma not_taken_total taken pills :
  (∀ pill, pill ∈ pills → hashable (Pending.time pill) = true) →
  ∃ out, not_taken taken pills = Ok out.
Proof.
  induction pills as [|p pills IH]; intros Hh; simpl; [eauto|].
  unfold in_taken at 1. rewrite (Hh p) by left. simpl.
  destruct IH as [rest ->]; [intros; apply Hh; by right|]. simpl. eauto.
Qed.

Lemma get_pending_pills_unfold d user_id now :
  get_pending_pills d user_id now =
  not_taken (list_to_set (select_taken d user_id (strftime_Ymd now)))
            (omap (entry_of (pending_entry now)) (select_schedules d user_id)).
Proof. unfold get_pending_pills. simpl. by rewrite foldl_entries. Qed.

(** A record of the ledger for the owner and the day keeps every entry of
    its name and time out of the pending list. *)
Lemma pending_excludes_taken d user_id now pills rec pill :
  get_pending_pills d user_id now = Ok pills →
  rec ∈ tracking d →
  Tracking.user_id rec = user_id →
  Tracking.taken_date rec = strftime_Ymd now →
  pill ∈ pills →
  ¬ (Pending.name pill = Tracking.name rec ∧
     Pending.time pill = JStr (Tracking.taken_time rec)).
Proof.
  rewrite get_pending_pills_unfold. intros Hget Hrec Hu Hd Hin [Hn Ht].
  apply (not_taken_elem _ _ _ pill Hget) in Hin as [_ Hfalse].
  assert (in_taken (Pending.name pill) (Pending.time pill)
            (list_to_set (select_taken d user_id (strftime_Ymd now))) = Ok true)
    as Htrue; [|congruence].
  apply in_taken_true. exists (Tracking.taken_time rec). split; [done|].
  rewrite elem_of_list_to_set, Hn. apply elem_of_select_taken. by exists rec.
Qed.

(** ** C4: the pending list leaves out what is taken *)

(** C4.  When [get_pending_pills] returns a list for an owner at [now],
    no entry of the list has the name and the time of a record the owner
    has in the ledger for the date of [now].  It returns a list whenever
    the time of every entry of the day is hashable, which every string is. *)
Theorem pending_never_lists_taken d user_id now :
  (∀ pills rec pill,
     get_pending_pills d user_id now = Ok pills →
     rec ∈ tracking d →
     Tracking.user_id rec = user_id →
     Tracking.taken_date rec = strftime_Ymd now →
     pill ∈ pills →
     ¬ (Pending.name pill = Tracking.name rec ∧
        Pending.time pill = JStr (Tracking.taken_time rec)))
  ∧ ((∀ r pill, r ∈ select_schedules d user_id →
                pending_entry now r = Ok (Some pill) →
                hashable (Pending.time pill) = true) →
     ∃ pills, get_pending_pills d user_id now = Ok pills).
Proof.
  split.
  - intros pills rec pill. apply pending_excludes_taken.
  - intros Hh. rewrite get_pending_pills_unfold. apply not_taken_total.
    intros pill (r & Hr & He)%list_elem_of_omap. apply (Hh r); [done|].
    unfold entry_of in He. by destruct (pending_entry now r) as [[?|]|]; simplify_eq.
Qed.

Lemma pending_never_lists_taken_witness :
  get_pending_pills logged_db "42" (at_time 2024 1 2 21 0)
  = Ok [ {| Pending.name := "Zinc"; Pending.time := JStr "08:00" |} ]
  ∧ ∀ pill, pill ∈ [ {| Pending.name := "Zinc"; Pending.time := JStr "08:00" |} ] →
            ¬ (Pending.name pill = "Aspirin" ∧ Pending.time pill = JStr "20:00").
Proof.
  assert (get_pending_pills logged_db "42" (at_time 2024 1 2 21 0)
          = Ok [ {| Pending.name := "Zinc"; Pending.time := JStr "08:00" |} ]) as Hget
    by (vm_compute; reflexivity).
  split; [exact Hget|]. intros pill Hin.
  apply (proj1 (pending_never_lists_taken logged_db "42" (at_time 2024 1 2 21 0))
           _ aspirin_taken pill Hget); [left | reflexivity | reflexivity | exact Hin].
Defined.

(** ** [sorted] *)

Section SortedFacts.
Context {A : Type} (key : A → json).

Lemma insert_sorted_perm x l out :
  insert_sorted key x l = Ok out → out ≡ₚ x :: l.
Proof.
  revert out. induction l as [|y l IH]; intros out; simpl.
  - by intros [= <-].
  - destruct (py_lt (key y) (key x)) as [[]|]; simpl; [| |done].
    + destruct (insert_sorted key x l) as [r|]; [|done]. simpl.
      intros [= <-]. rewrite (IH r eq_refl). apply Permutation_swap.
    + by intros [= <-].
Qed.

Lemma sorted_perm l out : sorted key l = Ok out → out ≡ₚ l.
Proof.
  revert out. induction l as [|x l IH]; intros out; simpl.
  - by intros [= <-].
  - destruct (sorted key l) as [r|]; [|done]. simpl.
    intros H%insert_sorted_perm. by rewrite H, (IH r eq_refl).
Qed.
End SortedFacts.

(** ** C10: a record covers every entry of its name and time *)

Lemma today_lines_pill taken pills out pill :
  today_lines taken pills = Ok out → pill ∈ pills →
  (in_taken (Today.name pill) (Today.time pill) taken = Ok true ∧
   TakenLine (Today.name pill) (Today.dosage pill) (Today.time pill) ∈ out.1)
  ∨ (in_taken (Today.name pill) (Today.time pill) taken = Ok false ∧
     PendingLine (Today.name pill) (Today.dosage pill) (Today.time pill) ∈ out.1 ∧
     MarkTaken (Today.name pill) (Today.time pill) ∈ out.2).
Proof.
  revert out. induction pills as [|p pills IH]; intros out; simpl.
  - by intros _ ?%elem_of_nil.
  - destruct (in_taken (Today.name p) (Today.time p) taken) as [b|] eqn:Hb; [|done].
    simpl. destruct (today_lines taken pills) as [more|]; [|done]. simpl.
    intros [= <-] [->|Hin]%elem_of_cons.
    + destruct b; simpl; [left | right]; repeat split; try done; by left.
    + destruct (IH more eq_refl Hin) as [[? ?]|(? & ? & ?)].
      * left. split; [done|]. destruct b; simpl; by right.
      * right. split; [done|]. destruct b; simpl; split; try done; by right.
Qed.

Lemma today_lines_pending taken pills out :
  today_lines taken pills = Ok out →
  (∀ n dd t, PendingLine n dd t ∈ out.1 → in_taken n t taken = Ok false)
  ∧ (∀ n t, MarkTaken n t ∈ out.2 → in_taken n t taken = Ok false).
Proof.
  revert out. induction pills as [|p pills IH]; intros out; simpl.
  - intros [= <-]. simpl. split; intros; by apply elem_of_nil in H.
  - destruct (in_taken (Today.name p) (Today.time p) taken) as [b|] eqn:Hb; [|done].
    simpl. destruct (today_lines taken pills) as [more|]; [|done]. simpl.
    intros [= <-]. destruct (IH more eq_refl) as [IHl IHk].
    destruct b; simpl; split.
    + intros n dd t [[=]|Hin]%elem_of_cons. by apply (IHl n dd t).
    + done.
    + intros n dd t [[= -> -> ->]|Hin]%elem_of_cons; [done|]. by apply (IHl n dd t).
    + intros n t [[= -> ->]|Hin]%elem_of_cons; [done|]. by apply IHk.
Qed.

Lemma get_todaypills_message_unfold d user_id now lines keyboard :
  get_todaypills_message d user_id now = Ok (TodayPills lines keyboard) →
  ∃ ordered out,
    sorted Today.time (omap (entry_of (today_entry now)) (select_schedules d user_id))
      = Ok ordered
    ∧ today_lines (list_to_set (select_taken d user_id (strftime_Ymd now))) ordered
      = Ok out
    ∧ lines = Header :: out.1 ∧ keyboard = out.2.
Proof.
  unfold get_todaypills_message. simpl. rewrite foldl_entries. simpl.
  destruct (omap _ _) as [|p ps] eqn:Hps; [done|].
  destruct (sorted Today.time (p :: ps)) as [ordered|]; [|done].
  rewrite bind_Ok.
  destruct (today_lines _ ordered) as [out|] eqn:Hout; [|done]. rewrite bind_Ok.
  intros [= <- <-]. by exists ordered, out.
Qed.

(** C10.  A record of the ledger for an owner and the date of [now]
    covers every entry of its name and time, whichever rows of
    [schedules] the entries come from: no such entry is in the pending
    list, and in today's list every such entry has a "taken" line, none has
    a "pending" line and none has a button. *)
Theorem slot_ignores_schedule_row d user_id now rec :
  rec ∈ tracking d →
  Tracking.user_id rec = user_id →
  Tracking.taken_date rec = strftime_Ymd now →
  (∀ pills pill,
     get_pending_pills d user_id now = Ok pills → pill ∈ pills →
     ¬ (Pending.name pill = Tracking.name rec ∧
        Pending.time pill = JStr (Tracking.taken_time rec)))
  ∧ (∀ lines keyboard,
       get_todaypills_message d user_id now = Ok (TodayPills lines keyboard) →
       (∀ r pill,
          r ∈ schedules d → Schedules.user_id r = user_id →
          today_entry now r = Ok (Some pill) →
          Today.name pill = Tracking.name rec →
          Today.time pill = JStr (Tracking.taken_time rec) →
          TakenLine (Tracking.name rec) (Today.dosage pill)
                    (JStr (Tracking.taken_time rec)) ∈ lines)
       ∧ (∀ dosage, PendingLine (Tracking.name rec) dosage
                      (JStr (Tracking.taken_time rec)) ∉ lines)
       ∧ MarkTaken (Tracking.name rec) (JStr (Tracking.taken_time rec)) ∉ keyboard).
Proof.
  intros Hrec Hu Hd.
  assert (in_taken (Tracking.name rec) (JStr (Tracking.taken_time rec))
            (list_to_set (select_taken d user_id (strftime_Ymd now))) = Ok true)
    as Htaken.
  { apply in_taken_true. eexists. split; [done|].
    rewrite elem_of_list_to_set. apply elem_of_select_taken. by exists rec. }
  split.
  - intros pills pill Hget Hin. by apply (pending_excludes_taken d user_id now pills).
  - intros lines keyboard
      (ordered & out & Hsort & Hlines & -> & ->)%get_todaypills_message_unfold.
    destruct (today_lines_pending _ _ _ Hlines) as [Hpend Hbutton].
    split; [|split].
    + intros r pill Hr Hru Hentry Hn Ht.
      assert (pill ∈ ordered) as Hin.
      { rewrite (sorted_perm _ _ _ Hsort). apply list_elem_of_omap.
        exists r. split.
        - apply list_elem_of_filter. done.
        - unfold entry_of. by rewrite Hentry. }
      destruct (today_lines_pill _ _ _ _ Hlines Hin) as [[_ Hline]|[Hfalse _]].
      * rewrite Hn, Ht in Hline. by right.
      * rewrite Hn, Ht in Hfalse. congruence.
    + intros dosage [[=]|Hin]%elem_of_cons. apply Hpend in Hin. congruence.
    + intros Hin. apply Hbutton in Hin. congruence.
Qed.

Lemma slot_ignores_schedule_row_witness :
  aspirin_taken ∈ tracking twin_db
  ∧ Tracking.user_id aspirin_taken = "42"
  ∧ Tracking.taken_date aspirin_taken = strftime_Ymd (at_time 2024 1 2 21 0)
  ∧ get_pending_pills twin_db "42" (at_time 2024 1 2 21 0) = Ok []
  ∧ get_todaypills_message twin_db "42" (at_time 2024 1 2 21 0)
    = Ok (TodayPills [Header; TakenLine "Aspirin" (JStr "A") (JStr "20:00");
                      TakenLine "Aspirin" (JStr "A2") (JStr "20:00")] [])
  ∧ ∀ lines keyboard,
      get_todaypills_message twin_db "42" (at_time 2024 1 2 21 0)
      = Ok (TodayPills lines keyboard) →
      TakenLine "Aspirin" (JStr "A2") (JStr "20:00") ∈ lines
      ∧ MarkTaken "Aspirin" (JStr "20:00") ∉ keyboard.
Proof.
  assert (aspirin_taken ∈ tracking twin_db) as Hrec by left.
  split; [exact Hrec|]. split; [reflexivity|]. split; [reflexivity|].
  split; [vm_compute; reflexivity|]. split; [vm_compute; reflexivity|].
  intros lines keyboard Hmsg.
  destruct (slot_ignores_schedule_row twin_db "42" (at_time 2024 1 2 21 0)
              aspirin_taken Hrec eq_refl eq_refl) as [_ Htoday].
  destruct (Htoday lines keyboard Hmsg) as (Hall & _ & Hbutton).
  split; [|exact Hbutton].
  apply (Hall aspirin_again
           {| Today.name := "Aspirin"; Today.dosage := JStr "A2";
              Today.time := JStr "20:00" |});
    [right; left | reflexivity | reflexivity | reflexivity | reflexivity].
Defined.

(** ** C5: where the order by time comes from *)

Lemma ltb_false_le a b : String.ltb b a = false ↔ String.le a b.
Proof.
  unfold String.le, String.ltb, String.leb.
  rewrite (String.compare_antisym a b).
  destruct (String.compare b a); simpl; split; done.
Qed.

Lemma time_le_JStr a b : time_le (JStr a) (JStr b) ↔ String.le a b.
Proof.
  unfold time_le. simpl. rewrite <- ltb_false_le.
  split; [by intros [= ->] | by intros ->].
Qed.

Section SortedStrings.
Context {A : Type} (key : A → json).

Local Abbreviation str_key := (has_str_key key).

Lemma time_le_trans x y z :
  str_key x → str_key y → str_key z →
  time_le (key x) (key y) → time_le (key y) (key z) → time_le (key x) (key z).
Proof.
  intros [a ->] [b ->] [c ->]. rewrite !time_le_JStr. apply transitivity.
Qed.

Lemma time_lt_le x y :
  str_key x → str_key y → py_lt (key y) (key x) = Ok true → time_le (key y) (key x).
Proof.
  intros [a Ha] [b Hb]. rewrite Ha, Hb, time_le_JStr. simpl. intros [= Hlt].
  unfold String.le, String.leb. unfold String.ltb in Hlt.
  by destruct (String.compare b a).
Qed.

Lemma insert_sorted_ordered x l :
  str_key x → Forall str_key l → ordered_by key l →
  ∃ out, insert_sorted key x l = Ok out ∧ ordered_by key out.
Proof.
  intros Hx Hl Hsorted. induction Hsorted as [|y l Hsorted IH Hy]; simpl.
  - eexists. split; [done|]. repeat constructor.
  - apply Forall_cons in Hl as [Hky Hl].
    destruct (py_lt (key y) (key x)) as [[]|] eqn:Hlt; simpl.
    + destruct (IH Hl) as (r & Hr & Hrs). rewrite Hr. simpl.
      eexists. split; [done|]. constructor; [done|].
      rewrite (insert_sorted_perm _ _ _ _ Hr). constructor; [|done].
      by apply time_lt_le.
    + eexists. split; [done|]. constructor; [by constructor|].
      assert (time_le (key x) (key y)) as Hxy by done.
      constructor; [done|].
      rewrite Forall_forall in Hy, Hl. apply Forall_forall. intros z Hz.
      apply (time_le_trans x y z); auto.
    + destruct Hx as [a Ha], Hky as [b Hb]. by rewrite Ha, Hb in Hlt.
Qed.

Lemma sorted_ordered l :
  Forall str_key l → ∃ out, sorted key l = Ok out ∧ ordered_by key out.
Proof.
  induction l as [|x l IH]; intros Hl; simpl.
  - eexists. split; [done|]. constructor.
  - apply Forall_cons in Hl as [Hx Hl].
    destruct (IH Hl) as (r & Hr & Hrs). rewrite Hr. simpl.
    apply insert_sorted_ordered; [done| |done].
    by rewrite (sorted_perm _ _ _ Hr).
Qed.
End SortedStrings.


Lemma pending_entry_name now r pill :
  pending_entry now r = Ok (Some pill) → Pending.name pill = Schedules.name r.
Proof.
  unfold pending_entry.
  destruct (strptime_Ymd _) as [sd|]; [|done]. simpl.
  destruct (datetime_lt now sd); [done|].
  destruct (json_loads _) as [js|]; [|done]. simpl.
  destruct (py_iter js) as [ps|]; [|done]. simpl.
  destruct (find_period _ _ ps) as [[p|]|]; [|done..]. simpl.
  destruct (py_getitem p "time"); [|done]. simpl. by intros [= <-].
Qed.





(** ** Dates *)

Lemma days_before_year_succ y :
  days_before_year (y + 1) = days_before_year y + year_days y.
Proof.
  unfold days_before_year, year_days, is_leap.
  replace (y + 1 - 1) with y by lia.
  destruct (Z.eqb_spec (y mod 4) 0), (Z.eqb_spec (y mod 100) 0),
    (Z.eqb_spec (y mod 400) 0); simpl; Z.div_mod_to_equations; lia.
Qed.

Lemma days_before_year_mono y1 y2 :
  y1 ≤ y2 → days_before_year y1 ≤ days_before_year y2.
Proof. unfold days_before_year. intros. Z.div_mod_to_equations. lia. Qed.

Lemma day_of_year_bounds y m d :
  1 ≤ m ≤ 12 → 1 ≤ d ≤ days_in_month y m →
  1 ≤ days_before_month y m + d ≤ year_days y.
Proof.
  unfold days_before_month, days_in_month, year_days.
  generalize (is_leap y). intros leap Hm. each_month m; destruct leap; simpl; lia.
Qed.

Lemma days_before_month_next y m1 m2 :
  1 ≤ m1 → m1 < m2 → m2 ≤ 12 →
  days_before_month y m1 + days_in_month y m1 ≤ days_before_month y m2.
Proof.
  unfold days_before_month, days_in_month.
  generalize (is_leap y). intros leap H1 Hlt H2.
  each_month m1; each_month m2; try lia; destruct leap; simpl; lia.
Qed.

Lemma toordinal_lt a b :
  valid_date a → valid_date b → date_lt a b = true → toordinal a < toordinal b.
Proof.
  intros [Hma Hda] [Hmb Hdb]. unfold date_lt, lex_lt, toordinal.
  pose proof (day_of_year_bounds _ _ _ Hma Hda).
  pose proof (day_of_year_bounds _ _ _ Hmb Hdb).
  destruct (Z.ltb_spec (year a) (year b)) as [Hy|Hy]; simpl.
  - intros _.
    pose proof (days_before_year_succ (year a)).
    pose proof (days_before_year_mono (year a + 1) (year b)). lia.
  - destruct (Z.eqb_spec (year a) (year b)) as [Hey|]; [|done]. simpl.
    rewrite Hey in *.
    destruct (Z.ltb_spec (month a) (month b)) as [Hm|Hm]; simpl.
    + intros _.
      pose proof (days_before_month_next (year b) (month a) (month b)). lia.
    + destruct (Z.eqb_spec (month a) (month b)) as [Hem|]; [|done]. simpl.
      rewrite Hem, andb_false_r, orb_false_r. lia.
Qed.

Lemma date_lt_total a b :
  date_lt a b = false →
  date_lt b a = true ∨ (year a = year b ∧ month a = month b ∧ day a = day b).
Proof.
  unfold date_lt, lex_lt.
  destruct (Z.ltb_spec (year a) (year b)); [done|].
  destruct (Z.ltb_spec (year b) (year a)); [by left|].
  destruct (Z.eqb_spec (year a) (year b)); [|lia].
  destruct (Z.eqb_spec (year b) (year a)); [|lia].
  destruct (Z.ltb_spec (month a) (month b)); [done|].
  destruct (Z.ltb_spec (month b) (month a)); [by left|].
  destruct (Z.eqb_spec (month a) (month b)); [|lia].
  destruct (Z.eqb_spec (month b) (month a)); [|lia].
  destruct (Z.ltb_spec (day a) (day b)); [done|].
  destruct (Z.ltb_spec (day b) (day a)); [by left|].
  intros _. right. lia.
Qed.

Lemma datetime_lt_date a b :
  datetime_lt a b = false → date_lt a b = false.
Proof.
  unfold datetime_lt, date_lt, fields, lex_lt.
  destruct (Z.ltb_spec (year a) (year b)); [done|].
  destruct (Z.eqb_spec (year a) (year b)); [|done].
  destruct (Z.ltb_spec (month a) (month b)); [done|].
  destruct (Z.eqb_spec (month a) (month b)); [|done].
  destruct (Z.ltb_spec (day a) (day b)); [done|].
  by destruct (Z.eqb_spec (day a) (day b)).
Qed.

Lemma toordinal_le a b :
  valid_date a → valid_date b → datetime_lt a b = false → toordinal b ≤ toordinal a.
Proof.
  intros Ha Hb Hlt%datetime_lt_date.
  destruct (date_lt_total _ _ Hlt) as [Hba|(Hy & Hm & Hd)].
  - pose proof (toordinal_lt b a Hb Ha Hba). lia.
  - unfold toordinal. rewrite Hy, Hm, Hd. lia.
Qed.

Lemma valid_datetime_date d : valid_datetime d → valid_date d.
Proof. unfold valid_datetime, valid_date. tauto. Qed.

(** The days of a difference are the whole days in it, rounded down. *)
Lemma sub_days_floor a b :
  sub_days a b = (Spec.microseconds a - Spec.microseconds b) / (86400 * 1000000).
Proof.
  unfold sub_days, Spec.microseconds.
  generalize (toordinal a) (toordinal b) (seconds_of_day a) (seconds_of_day b)
    (microsecond a) (microsecond b).
  intros. Z.div_mod_to_equations. lia.
Qed.

(** From the start date on, the days since the start are the whole days
    between the two instants, truncated. *)
Lemma sub_days_truncates now start_date :
  valid_datetime now → valid_date start_date → midnight start_date →
  datetime_lt now start_date = false →
  sub_days now start_date = Spec.whole_days_between start_date now
  ∧ 0 ≤ sub_days now start_date.
Proof.
  intros Hnow Hstart (Hh & Hm & Hs & Hus) Hlt.
  pose proof (toordinal_le now start_date (valid_datetime_date _ Hnow) Hstart Hlt).
  destruct Hnow as (_ & _ & _ & ? & ? & ? & ?).
  assert (0 ≤ Spec.microseconds now - Spec.microseconds start_date) as Hpos.
  { unfold Spec.microseconds, seconds_of_day. rewrite Hh, Hm, Hs, Hus. nia. }
  rewrite sub_days_floor. unfold Spec.whole_days_between.
  rewrite Z.quot_div_nonneg by lia. split; [done|].
  apply Z.div_pos; lia.
Qed.

Lemma digit_val_range c x : digit_val c = Some x → 0 ≤ x ≤ 9.
Proof.
  unfold digit_val.
  destruct (Z.leb_spec 48 (Z.of_nat (nat_of_ascii c))),
    (Z.leb_spec (Z.of_nat (nat_of_ascii c)) 57); simpl; intros [=]; lia.
Qed.

Lemma parse_month_range s m rest : parse_month s = Some (m, rest) → 1 ≤ m ≤ 12.
Proof.
  unfold parse_month. destruct s as [|a [|b s]]; [done..|].
  destruct (Ascii.eqb b "-").
  - destruct (digit_val a) as [x|] eqn:Hx; [|done]. simpl.
    apply digit_val_range in Hx.
    destruct (Z.leb_spec 1 x); intros [=]; lia.
  - destruct s as [|c s]; [done|]. destruct (Ascii.eqb c "-"); [|done].
    destruct (digit_val a) as [x|]; [|done]. simpl.
    destruct (digit_val b) as [y|]; [|done]. simpl.
    destruct (Z.leb_spec 1 (10 * x + y)), (Z.leb_spec (10 * x + y) 12);
      simpl; intros [=]; lia.
Qed.

Lemma parse_day_range s d : parse_day s = Some d → 1 ≤ d.
Proof.
  unfold parse_day. destruct s as [|a [|b [|c s]]]; [done| | |done].
  - destruct (digit_val a) as [x|]; [|done]. simpl.
    destruct (Z.leb_spec 1 x); intros [=]; lia.
  - destruct (Ascii.eqb a " ").
    + destruct (digit_val b) as [x|]; [|done]. simpl.
      destruct (Z.leb_spec 1 x); intros [=]; lia.
    + destruct (digit_val a) as [x|]; [|done]. simpl.
      destruct (digit_val b) as [y|]; [|done]. simpl.
      destruct (Z.leb_spec 1 (10 * x + y)); simpl; [|done].
      destruct (Z.leb_spec (10 * x + y) 31); intros [=]; lia.
Qed.

Lemma parse_Ymd_range s y m d :
  parse_Ymd s = Some (y, m, d) → 0 ≤ y ≤ 9999 ∧ 1 ≤ m ≤ 12 ∧ 1 ≤ d.
Proof.
  unfold parse_Ymd. destruct s as [|a [|b [|c [|e [|f s]]]]]; [done..|].
  destruct (Ascii.eqb f "-"); [|done].
  destruct (digit_val a) as [x3|] eqn:H3; [|done]. simpl.
  destruct (digit_val b) as [x2|] eqn:H2; [|done]. simpl.
  destruct (digit_val c) as [x1|] eqn:H1; [|done]. simpl.
  destruct (digit_val e) as [x0|] eqn:H0; [|done]. simpl.
  destruct (parse_month s) as [[m' rest]|] eqn:Hm; [|done]. simpl.
  destruct (parse_day rest) as [d'|] eqn:Hd; [|done]. simpl.
  intros [= <- <- <-].
  apply digit_val_range in H3, H2, H1, H0.
  apply parse_month_range in Hm. apply parse_day_range in Hd. lia.
Qed.

(** A start date that parses is midnight of a date of the calendar. *)
Lemma strptime_Ymd_valid s d :
  strptime_Ymd s = Ok d → valid_datetime d ∧ midnight d.
Proof.
  unfold strptime_Ymd.
  destruct (parse_Ymd s) as [[[y m] dd]|] eqn:Hp; [|done].
  apply parse_Ymd_range in Hp.
  destruct (Z.leb_spec 1 y); simpl; [|done].
  destruct (Z.leb_spec dd (days_in_month y m)); [|done].
  intros [= <-]. unfold valid_datetime, midnight. simpl. lia.
Qed.

(** ** The walk is the search of the specification *)

Lemma find_period_windows elapsed cum periods :
  Forall int_duration periods →
  find_period elapsed cum periods =
  Ok ((λ w, w.2.2) <$> list_find (Spec.contains duration_of elapsed)
                                 (Spec.windows duration_of cum periods)).
Proof.
  intros Hint. revert cum.
  induction Hint as [|p periods [n Hn] _ IH]; intros cum; [done|].
  assert (duration_of p = n) as Hdur by (unfold duration_of; by rewrite Hn).
  cbn [find_period Spec.windows list_find]. rewrite Hn, bind_Ok, Hdur.
  unfold in_window, py_add. simpl.
  destruct (Z.leb_spec cum elapsed); simpl.
  - destruct (Z.ltb_spec elapsed (cum + n)); simpl.
    + rewrite decide_True; [done|]. unfold Spec.contains. simpl. lia.
    + rewrite decide_False by (unfold Spec.contains; simpl; lia).
      rewrite IH. by destruct (list_find _ _) as [[i w]|].
  - rewrite decide_False by (unfold Spec.contains; simpl; lia).
    rewrite IH. by destruct (list_find _ _) as [[i w]|].
Qed.

(** The offset of a window is the sum of the durations before it. *)
Lemma windows_lookup (periods : list json) cum i c p :
  Spec.windows duration_of cum periods !! i = Some (c, p) ↔
  periods !! i = Some p ∧ c = cum + foldr Z.add 0 (duration_of <$> take i periods).
Proof.
  revert cum i. induction periods as [|q periods IH]; intros cum i; simpl.
  - rewrite !lookup_nil. split; [done | by intros [? _]].
  - destruct i as [|i]; cbn [lookup list_lookup take fmap list_fmap foldr].
    + split.
      * intros [= <- <-]. split; [done|lia].
      * intros [[= <-] ->]. do 2 f_equal. lia.
    + rewrite IH. split; intros [? ->]; (split; [done|]);
        change (list_fmap json Z duration_of) with (fmap (M:=list) duration_of); lia.
Qed.

Lemma pending_entry_resolve now r :
  pending_entry now r =
  let! found := resolve now r in
  match found with
  | None => Ok None
  | Some period =>
      let! time := py_getitem period "time" in
      Ok (Some {| Pending.name := Schedules.name r; Pending.time := time |})
  end.
Proof.
  unfold pending_entry, resolve.
  destruct (strptime_Ymd _) as [sd|]; [|done]. simpl.
  destruct (datetime_lt now sd); [done|].
  destruct (json_loads _) as [js|]; [|done]. simpl.
  by destruct (py_iter js).
Qed.

Lemma today_entry_resolve now r :
  today_entry now r =
  let! found := resolve now r in
  match found with
  | None => Ok None
  | Some period =>
      let! dosage := py_getitem period "dosage" in
      let! time := py_getitem period "time" in
      Ok (Some {| Today.name := Schedules.name r;
                  Today.dosage := dosage; Today.time := time |})
  end.
Proof.
  unfold today_entry, resolve.
  destruct (strptime_Ymd _) as [sd|]; [|done]. simpl.
  destruct (datetime_lt now sd); [done|].
  destruct (json_loads _) as [js|]; [|done]. simpl.
  by destruct (py_iter js).
Qed.

Lemma remind_resolve now cur r schedule :
  Schedules.schedule_json r = Some schedule →
  remind now cur r =
  let! found := resolve now r in
  match found with
  | None => Ok []
  | Some period => notify cur r period
  end.
Proof.
  intros Hjson. unfold remind, resolve. rewrite Hjson. cbn [json_loads bind].
  destruct (strptime_Ymd _) as [sd|]; [|done]. cbn [bind].
  destruct (datetime_lt now sd); [done|].
  by destruct (py_iter schedule).
Qed.

(** ** C3: the period a row is in *)

(** C3.  From the start date on, for a stored schedule whose periods
    declare integer durations, the days since the start are the whole days
    between the start date and [now], truncated, and each of the three
    loops, of [check_reminders], of [get_pending_pills] and of
    [get_todaypills_message], runs its body on the period the resolver of
    the specification returns and on no other: the first period, in
    order, whose window [cum <= elapsed < cum + duration_days] contains
    them, where [cum] is the sum of the durations before it; the loop runs
    to its end without a body exactly when no window contains them. *)
Theorem resolve_is_first_window now r start_date periods :
  valid_datetime now →
  strptime_Ymd (Schedules.start_date r) = Ok start_date →
  Schedules.schedule_json r = Some (JList periods) →
  Forall int_duration periods →
  datetime_lt now start_date = false →
  let elapsed := Spec.whole_days_between start_date now in
  let windows := Spec.windows duration_of 0 periods in
  let found := fst <$> Spec.resolve duration_of start_date now periods in
  sub_days now start_date = elapsed
  ∧ (∀ current_time_str,
       remind now current_time_str r =
       match found with
       | Some period => notify current_time_str r period
       | None => Ok []
       end)
  ∧ pending_entry now r =
    match found with
    | Some period =>
        let! time := py_getitem period "time" in
        Ok (Some {| Pending.name := Schedules.name r; Pending.time := time |})
    | None => Ok None
    end
  ∧ today_entry now r =
    match found with
    | Some period =>
        let! dosage := py_getitem period "dosage" in
        let! time := py_getitem period "time" in
        Ok (Some {| Today.name := Schedules.name r;
                    Today.dosage := dosage; Today.time := time |})
    | None => Ok None
    end
  ∧ resolve now r = Ok found
  ∧ (∀ p, resolve now r = Ok (Some p) ↔
          ∃ i cum,
            periods !! i = Some p
            ∧ cum = foldr Z.add 0 (duration_of <$> take i periods)
            ∧ cum ≤ elapsed < cum + duration_of p
            ∧ ∀ j w, windows !! j = Some w → (j < i)%nat →
                     ¬ Spec.contains duration_of elapsed w)
  ∧ (resolve now r = Ok None ↔
     ∀ w, w ∈ windows → ¬ Spec.contains duration_of elapsed w).
Proof.
  intros Hnow Hstart Hjson Hint Hlt elapsed windows found.
  destruct (strptime_Ymd_valid _ _ Hstart) as [Hvalid Hmid].
  destruct (sub_days_truncates now start_date Hnow
              (valid_datetime_date _ Hvalid) Hmid Hlt) as [Hdays _].
  assert (resolve now r =
          Ok ((λ w, w.2.2) <$> list_find (Spec.contains duration_of elapsed) windows))
    as Hres.
  { unfold resolve. rewrite Hstart, bind_Ok, Hlt, Hjson. simpl.
    rewrite Hdays. by apply find_period_windows. }
  assert (resolve now r = Ok found) as Hfound.
  { rewrite Hres. unfold found, Spec.resolve. rewrite Hlt. fold elapsed windows.
    by destruct (list_find _ windows) as [[i [c p]]|]. }
  split; [done|]. split; [|split; [|split; [|split; [done|split]]]].
  - intros cur. rewrite (remind_resolve _ _ _ _ Hjson), Hfound, bind_Ok.
    by destruct found.
  - rewrite pending_entry_resolve, Hfound, bind_Ok. by destruct found.
  - rewrite today_entry_resolve, Hfound, bind_Ok. by destruct found.
  - intros p. rewrite Hres. split.
    + destruct (list_find _ windows) as [[i [c q]]|] eqn:Hfind; [|done].
      intros [= <-]. apply list_find_Some in Hfind as (Hi & Hin & Hfirst).
      apply windows_lookup in Hi as [Hp ->].
      exists i, (foldr Z.add 0 (duration_of <$> take i periods)).
      split; [done|]. split; [done|]. split; [|done].
      unfold Spec.contains in Hin. simpl in Hin. lia.
    + intros (i & cum & Hp & -> & Hin & Hfirst).
      assert (list_find (Spec.contains duration_of elapsed) windows
              = Some (i, (foldr Z.add 0 (duration_of <$> take i periods), p))) as ->;
        [|done].
      apply list_find_Some. split; [|split; [|done]].
      * apply windows_lookup. split; [done|lia].
      * unfold Spec.contains. simpl. lia.
  - rewrite Hres. split.
    + destruct (list_find _ windows) as [[i w]|] eqn:Hfind; [done|].
      intros _ w Hw. rewrite list_find_None, Forall_forall in Hfind. by apply Hfind.
    + intros Hnone.
      assert (list_find (Spec.contains duration_of elapsed) windows = None) as ->;
        [|done].
      apply list_find_None, Forall_forall. done.
Qed.

Lemma resolve_is_first_window_witness :
  valid_datetime (at_time 2024 1 5 8 0)
  ∧ strptime_Ymd (Schedules.start_date aspirin) = Ok (at_time 2024 1 1 0 0)
  ∧ Forall int_duration [period 3 "A" "20:00"; period 9999 "B" "08:00"]
  ∧ datetime_lt (at_time 2024 1 5 8 0) (at_time 2024 1 1 0 0) = false
  ∧ sub_days (at_time 2024 1 5 8 0) (at_time 2024 1 1 0 0) = 4
  ∧ remind (at_time 2024 1 5 8 0) "08:00" aspirin
    = Ok [SendMessage "42" "Aspirin" (JStr "B") (JStr "08:00")]
  ∧ pending_entry (at_time 2024 1 5 8 0) aspirin
    = Ok (Some {| Pending.name := "Aspirin"; Pending.time := JStr "08:00" |})
  ∧ today_entry (at_time 2024 1 5 8 0) aspirin
    = Ok (Some {| Today.name := "Aspirin"; Today.dosage := JStr "B";
                  Today.time := JStr "08:00" |})
  ∧ resolve (at_time 2024 1 5 8 0) aspirin = Ok (Some (period 9999 "B" "08:00")).
Proof.
  assert (valid_datetime (at_time 2024 1 5 8 0)) as Hnow.
  { apply at_time_valid; split; by vm_compute. }
  assert (Forall int_duration [period 3 "A" "20:00"; period 9999 "B" "08:00"]) as Hint.
  { repeat constructor; eexists; reflexivity. }
  destruct (resolve_is_first_window (at_time 2024 1 5 8 0) aspirin
              (at_time 2024 1 1 0 0) _ Hnow eq_refl eq_refl Hint eq_refl)
    as (Hdays & Hremind & Hpending & Htoday & Hres & _).
  split; [exact Hnow|]. split; [reflexivity|]. split; [exact Hint|].
  split; [reflexivity|]. split; [|split; [|split; [|split]]].
  - rewrite Hdays. reflexivity.
  - rewrite Hremind. reflexivity.
  - rewrite Hpending. reflexivity.
  - rewrite Htoday. reflexivity.
  - rewrite Hres. reflexivity.
Defined.

(** * Further properties of the program *)

(** ** One event for a row, at most *)

Lemma tick_row_length now r : (length (tick_row now r) ≤ 1)%nat.
Proof.
  unfold tick_row, remind.
  destruct (json_loads _) as [js|]; simpl; [|done].
  destruct (strptime_Ymd _) as [sd|]; simpl; [|done].
  destruct (datetime_lt now sd); simpl; [lia|].
  destruct (py_iter js) as [ps|]; simpl; [|done].
  destruct (find_period _ _ ps) as [[p|]|]; simpl; [|lia|done].
  unfold notify. destruct (py_getitem p "time") as [t|]; simpl; [|done].
  destruct (py_eq t _); simpl; [|lia].
  by destruct (py_getitem p "dosage").
Qed.

Lemma tick_row_other_chat now r chat_id :
  Schedules.user_id r ≠ chat_id → filter (is_sent_to chat_id) (tick_row now r) = [].
Proof.
  intros Hne. apply filter_none. intros [u n dd t|u e] Hin; simpl; [|tauto].
  apply tick_row_send in Hin as (_ & _ & _ & _ & _ & -> & _). done.
Qed.

(** A tick sends a chat at most as many reminders as the chat has rows in
    [schedules], whatever the rows hold. *)
Theorem tick_sends_at_most_one_per_schedule d now chat_id :
  (length (filter (is_sent_to chat_id) (check_reminders d now))
   ≤ length (select_schedules d chat_id))%nat.
Proof.
  rewrite check_reminders_rows. unfold select_schedules.
  induction (schedules d) as [|r rows IH]; [done|].
  rewrite fmap_cons. cbn [concat]. rewrite filter_app, length_app.
  destruct (decide (Schedules.user_id r = chat_id)) as [Hu|Hu].
  - rewrite filter_cons_True by done. cbn [length].
    pose proof (length_filter (is_sent_to chat_id) (tick_row now r)).
    pose proof (tick_row_length now r). lia.
  - rewrite filter_cons_False by done.
    rewrite tick_row_other_chat by done. cbn [length]. lia.
Qed.

(** ** The period found *)

(** The period the walk returns is one of the schedule, and the duration
    it declares is a number greater than zero: a period of no days, or of
    a negative number of days, is never the period of the day. *)
Theorem found_period_has_positive_duration elapsed cum periods p :
  find_period elapsed cum periods = Ok (Some p) →
  p ∈ periods
  ∧ ∃ duration n, py_getitem p "duration_days" = Ok duration
                  ∧ as_int duration = Some n ∧ 0 < n.
Proof.
  revert cum. induction periods as [|q periods IH]; intros cum; simpl; [done|].
  destruct (py_getitem q "duration_days") as [dur|] eqn:Hdur; simpl; [|done].
  unfold in_window, py_add.
  destruct (Z.leb_spec cum elapsed) as [Hle|Hle]; simpl.
  - destruct (as_int dur) as [n|] eqn:Hn; simpl; [|done].
    destruct (Z.ltb_spec elapsed (cum + n)) as [Hlt|Hlt].
    + intros [= <-]. split; [by left|]. exists dur, n. repeat split; [done..|lia].
    + intros [Hin Hp]%IH. split; [by right | done].
  - destruct (as_int dur) as [n|]; simpl; [|done].
    intros [Hin Hp]%IH. split; [by right | done].
Qed.

Lemma found_period_has_positive_duration_witness :
  find_period 4 0 [period 3 "A" "20:00"; period 0 "never" "12:00";
                   period 9999 "B" "08:00"]
  = Ok (Some (period 9999 "B" "08:00"))
  ∧ period 9999 "B" "08:00"
    ∈ [period 3 "A" "20:00"; period 0 "never" "12:00"; period 9999 "B" "08:00"].
Proof.
  split; [reflexivity|].
  apply (found_period_has_positive_duration 4 0 _ (period 9999 "B" "08:00")).
  reflexivity.
Defined.

Lemma pos_duration_int p : pos_duration p → int_duration p.
Proof. intros (n & Hn & _). by exists n. Qed.

Lemma pos_duration_of p : pos_duration p → 0 < duration_of p.
Proof. intros (n & Hn & Hpos). unfold duration_of. by rewrite Hn. Qed.

Lemma sum_durations_nonneg periods :
  Forall pos_duration periods → 0 ≤ foldr Z.add 0 (duration_of <$> periods).
Proof.
  induction 1 as [|p periods Hp _ IH]; [done|].
  rewrite fmap_cons. cbn [foldr]. apply pos_duration_of in Hp. lia.
Qed.

Lemma find_period_step elapsed cum p periods :
  int_duration p →
  find_period elapsed cum (p :: periods) =
  if (cum <=? elapsed) && (elapsed <? cum + duration_of p) then Ok (Some p)
  else find_period elapsed (cum + duration_of p) periods.
Proof.
  intros [n Hn].
  assert (duration_of p = n) as -> by (unfold duration_of; by rewrite Hn).
  cbn [find_period]. rewrite Hn, bind_Ok. unfold in_window, py_add. simpl.
  by destruct (cum <=? elapsed).
Qed.

Lemma find_period_past_the_end elapsed cum periods :
  Forall pos_duration periods →
  cum + foldr Z.add 0 (duration_of <$> periods) ≤ elapsed →
  find_period elapsed cum periods = Ok None.
Proof.
  intros Hpos. revert cum.
  induction Hpos as [|p periods Hp Hrest IH]; intros cum Hpast; [done|].
  rewrite find_period_step by by apply pos_duration_int.
  rewrite fmap_cons in Hpast. cbn [foldr] in Hpast.
  pose proof (pos_duration_of p Hp). pose proof (sum_durations_nonneg _ Hrest).
  destruct (Z.leb_spec cum elapsed), (Z.ltb_spec elapsed (cum + duration_of p));
    simpl; try lia; apply IH; lia.
Qed.

Lemma find_period_in_range elapsed cum periods :
  Forall pos_duration periods →
  cum ≤ elapsed →
  elapsed < cum + foldr Z.add 0 (duration_of <$> periods) →
  ∃ i p, find_period elapsed cum periods = Ok (Some p)
         ∧ periods !! i = Some p
         ∧ ∀ j w, Spec.windows duration_of cum periods !! j = Some w →
                  Spec.contains duration_of elapsed w → j = i.
Proof.
  intros Hpos. revert cum.
  induction Hpos as [|p periods Hp Hrest IH]; intros cum Hle Hlt.
  { simpl in Hlt. lia. }
  rewrite find_period_step by by apply pos_duration_int.
  rewrite fmap_cons in Hlt. cbn [foldr] in Hlt.
  pose proof (pos_duration_of p Hp) as Hdur.
  destruct (Z.leb_spec cum elapsed); [|lia].
  destruct (Z.ltb_spec elapsed (cum + duration_of p)) as [Hin|Hout]; simpl.
  - exists 0%nat, p. split; [done|]. split; [done|].
    intros [|j] [c q] Hj Hc; [done|]. exfalso. cbn [Spec.windows] in Hj.
    rewrite lookup_cons in Hj. apply windows_lookup in Hj as [Hq ->].
    unfold Spec.contains in Hc. simpl in Hc.
    pose proof (sum_durations_nonneg (take j periods) (Forall_take _ j _ Hrest)). lia.
  - destruct (IH (cum + duration_of p)) as (i & q & Hfind & Hq & Huniq); [lia..|].
    exists (S i), q. split; [done|]. split; [done|].
    intros [|j] w Hj Hc; cbn [Spec.windows] in Hj; rewrite lookup_cons in Hj.
    + injection Hj as <-. unfold Spec.contains in Hc. simpl in Hc. lia.
    + f_equal. by apply (Huniq j w).
Qed.

(** For a schedule of positive durations, the windows of the periods
    follow each other without a gap and without an overlap: on every day
    from the start to the day before the sum of the durations, the walk
    returns a period and no other period's window contains the day; from
    the sum of the durations on, it returns none. *)
Theorem schedule_covers_its_days elapsed periods :
  Forall pos_duration periods →
  0 ≤ elapsed →
  let total := foldr Z.add 0 (duration_of <$> periods) in
  (elapsed < total →
   ∃ i p, find_period elapsed 0 periods = Ok (Some p)
          ∧ periods !! i = Some p
          ∧ ∀ j w, Spec.windows duration_of 0 periods !! j = Some w →
                   Spec.contains duration_of elapsed w → j = i)
  ∧ (total ≤ elapsed → find_period elapsed 0 periods = Ok None).
Proof.
  intros Hpos Hel total. split.
  - intros Hlt. apply find_period_in_range; [done|lia..].
  - intros Hpast. apply find_period_past_the_end; [done|lia].
Qed.

Lemma schedule_covers_its_days_witness :
  Forall pos_duration [period 3 "A" "20:00"; period 4 "B" "08:00"]
  ∧ find_period 6 0 [period 3 "A" "20:00"; period 4 "B" "08:00"]
    = Ok (Some (period 4 "B" "08:00"))
  ∧ find_period 7 0 [period 3 "A" "20:00"; period 4 "B" "08:00"] = Ok None.
Proof.
  assert (Forall pos_duration [period 3 "A" "20:00"; period 4 "B" "08:00"]) as Hpos.
  { repeat constructor; eexists; (split; [reflexivity|lia]). }
  split; [exact Hpos|]. split; [reflexivity|].
  apply (schedule_covers_its_days 7 _ Hpos); vm_compute; discriminate.
Defined.

(** ** Dates as texts *)

Lemma digit_not_separator n :
  0 ≤ n ≤ 9 → Ascii.eqb (digit n) "-" = false ∧ Ascii.eqb (digit n) " " = false.
Proof.
  intros Hn.
  assert (n = 0 ∨ n = 1 ∨ n = 2 ∨ n = 3 ∨ n = 4 ∨ n = 5 ∨ n = 6 ∨ n = 7 ∨
          n = 8 ∨ n = 9) as H by lia.
  repeat (destruct H as [->|H]; [by split|]). subst. by split.
Qed.

Lemma pad2_append n rest :
  pad2 n +:+ rest = String (digit (n `div` 10)) (String (digit (n `mod` 10)) rest).
Proof. reflexivity. Qed.

Lemma parse_month_pad2 m rest :
  1 ≤ m ≤ 12 → parse_month (pad2 m +:+ String "-" rest) = Some (m, rest).
Proof.
  intros Hm. rewrite pad2_append. unfold parse_month.
  destruct (digit_not_separator (m mod 10)) as [-> _];
    [Z.div_mod_to_equations; lia|].
  assert (Ascii.eqb "-" "-" = true) as -> by reflexivity.
  rewrite !digit_val_digit by (Z.div_mod_to_equations; lia). simpl.
  assert (10 * (m `div` 10) + m `mod` 10 = m) as -> by (Z.div_mod_to_equations; lia).
  destruct (Z.leb_spec 1 m), (Z.leb_spec m 12); simpl; (done || lia).
Qed.

Lemma parse_day_pad2 d : 1 ≤ d ≤ 31 → parse_day (pad2 d) = Some d.
Proof.
  intros Hd. unfold pad2, parse_day.
  destruct (digit_not_separator (d / 10)) as [_ ->];
    [Z.div_mod_to_equations; lia|].
  rewrite !digit_val_digit by (Z.div_mod_to_equations; lia). simpl.
  assert (10 * (d `div` 10) + d `mod` 10 = d) as -> by (Z.div_mod_to_equations; lia).
  destruct (Z.leb_spec 1 d), (Z.leb_spec d 31); simpl; (done || lia).
Qed.

Lemma days_in_month_le y m : days_in_month y m ≤ 31.
Proof.
  unfold days_in_month.
  destruct (m =? 2); [by destruct (is_leap y)|].
  by destruct ((m =? 4) || (m =? 6) || (m =? 9) || (m =? 11)).
Qed.

Lemma strptime_reads_strftime_aux d :
  valid_datetime d → strptime_Ymd (strftime_Ymd d) = Ok (start_of_day d).
Proof.
  intros (Hy & Hm & Hd & _).
  pose proof (days_in_month_le (year d) (month d)).
  assert (strftime_Ymd d =
          String (digit (year d / 1000))
            (String (digit ((year d / 100) mod 10))
              (String (digit ((year d mod 100) / 10))
                (String (digit ((year d mod 100) mod 10))
                  (String "-" (pad2 (month d) +:+ String "-" (pad2 (day d))))))))
    as -> by reflexivity.
  unfold strptime_Ymd, parse_Ymd.
  assert (Ascii.eqb "-" "-" = true) as -> by reflexivity.
  rewrite !digit_val_digit by (Z.div_mod_to_equations; lia).
  cbn [mbind option_bind].
  rewrite parse_month_pad2 by done. cbn [mbind option_bind].
  rewrite parse_day_pad2 by lia. cbn [mbind option_bind].
  assert (1000 * (year d / 1000) + 100 * ((year d / 100) mod 10)
          + 10 * ((year d mod 100) / 10) + (year d mod 100) mod 10 = year d)
    as -> by (Z.div_mod_to_equations; lia).
  destruct (Z.leb_spec 1 (year d)); [|lia].
  destruct (Z.leb_spec (day d) (days_in_month (year d) (month d))); [|lia].
  done.
Qed.

(** The text [strftime("%Y-%m-%d")] gives for an instant is read back by
    [strptime] as the first instant of the same day; so two instants have
    the same text exactly when they are on the same day. *)
Theorem strptime_reads_strftime d :
  valid_datetime d →
  strptime_Ymd (strftime_Ymd d) = Ok (start_of_day d)
  ∧ ∀ d', valid_datetime d' → (strftime_Ymd d = strftime_Ymd d' ↔ same_date d d').
Proof.
  intros Hd. split; [by apply strptime_reads_strftime_aux|].
  intros d' Hd'. split.
  - intros Heq.
    pose proof (strptime_reads_strftime_aux d Hd) as H1.
    pose proof (strptime_reads_strftime_aux d' Hd') as H2.
    rewrite Heq, H2 in H1. injection H1 as Hy Hm Hday. by repeat split.
  - intros (Hy & Hm & Hday). unfold strftime_Ymd. by rewrite Hy, Hm, Hday.
Qed.

Lemma strptime_reads_strftime_witness :
  valid_datetime (at_time 2024 2 29 23 59)
  ∧ strptime_Ymd (strftime_Ymd (at_time 2024 2 29 23 59)) = Ok (at_time 2024 2 29 0 0).
Proof.
  assert (valid_datetime (at_time 2024 2 29 23 59)) as Hvalid.
  { apply at_time_valid; split; by vm_compute. }
  split; [exact Hvalid|].
  apply (proj1 (strptime_reads_strftime (at_time 2024 2 29 23 59) Hvalid)).
Defined.

(** ** The period of a day *)

Lemma datetime_lt_midnight now start_date :
  valid_datetime now → midnight start_date →
  datetime_lt now start_date = date_lt now start_date.
Proof.
  intros (_ & _ & _ & Hh & Hm & Hs & Hus) (Hh0 & Hm0 & Hs0 & Hus0).
  unfold datetime_lt, date_lt, fields, lex_lt. rewrite Hh0, Hm0, Hs0, Hus0.
  assert ((hour now <? 0) || (hour now =? 0) &&
          ((minute now <? 0) || (minute now =? 0) &&
           ((second now <? 0) || (second now =? 0) &&
            ((microsecond now <? 0) || (microsecond now =? 0) && false))) = false)
    as ->; [|done].
  destruct (Z.ltb_spec (hour now) 0); [lia|].
  destruct (Z.ltb_spec (minute now) 0); [lia|].
  destruct (Z.ltb_spec (second now) 0); [lia|].
  destruct (Z.ltb_spec (microsecond now) 0); [lia|].
  simpl. by rewrite !andb_false_r.
Qed.

Lemma sub_days_calendar now start_date :
  valid_datetime now → midnight start_date →
  sub_days now start_date = toordinal now - toordinal start_date.
Proof.
  intros (_ & _ & _ & Hh & Hm & Hs & Hus) (Hh0 & Hm0 & Hs0 & Hus0).
  unfold sub_days, seconds_of_day. rewrite Hh0, Hm0, Hs0, Hus0.
  generalize (toordinal now) (toordinal start_date). intros a b.
  Z.div_mod_to_equations. lia.
Qed.

Lemma same_date_toordinal a b : same_date a b → toordinal a = toordinal b.
Proof. intros (Hy & Hm & Hd). unfold toordinal. by rewrite Hy, Hm, Hd. Qed.

Lemma same_date_lt a b c : same_date a b → date_lt a c = date_lt b c.
Proof. intros (Hy & Hm & Hd). unfold date_lt. by rewrite Hy, Hm, Hd. Qed.

(** The period of a row depends on the day of the calendar alone, and
    the days since the start are days of the calendar: two instants of one
    day give the same period, the same pending entry and the same entry of
    today's list, so the period changes at midnight and at no other time. *)
Theorem resolution_is_by_date now1 now2 r :
  valid_datetime now1 → valid_datetime now2 → same_date now1 now2 →
  resolve now1 r = resolve now2 r
  ∧ pending_entry now1 r = pending_entry now2 r
  ∧ today_entry now1 r = today_entry now2 r
  ∧ ∀ start_date, strptime_Ymd (Schedules.start_date r) = Ok start_date →
                  sub_days now1 start_date = toordinal now1 - toordinal start_date.
Proof.
  intros H1 H2 Hsame.
  assert (resolve now1 r = resolve now2 r) as Hres.
  { unfold resolve.
    destruct (strptime_Ymd _) as [sd|] eqn:Hsd; [|done]. simpl.
    destruct (strptime_Ymd_valid _ _ Hsd) as [_ Hmid].
    rewrite !datetime_lt_midnight, !sub_days_calendar by done.
    by rewrite (same_date_lt _ _ _ Hsame), (same_date_toordinal _ _ Hsame). }
  split; [done|]. split; [|split].
  - by rewrite !pending_entry_resolve, Hres.
  - by rewrite !today_entry_resolve, Hres.
  - intros sd Hsd. destruct (strptime_Ymd_valid _ _ Hsd) as [_ Hmid].
    by apply sub_days_calendar.
Qed.

Lemma resolution_is_by_date_witness :
  valid_datetime (at_time 2024 1 3 0 0)
  ∧ valid_datetime (at_time 2024 1 3 23 59)
  ∧ same_date (at_time 2024 1 3 0 0) (at_time 2024 1 3 23 59)
  ∧ resolve (at_time 2024 1 3 23 59) aspirin = Ok (Some (period 3 "A" "20:00"))
  ∧ sub_days (at_time 2024 1 3 0 0) (at_time 2024 1 1 0 0) = 2.
Proof.
  assert (valid_datetime (at_time 2024 1 3 0 0)) as H1.
  { apply at_time_valid; split; by vm_compute. }
  assert (valid_datetime (at_time 2024 1 3 23 59)) as H2.
  { apply at_time_valid; split; by vm_compute. }
  assert (same_date (at_time 2024 1 3 0 0) (at_time 2024 1 3 23 59)) as Hsame.
  { by repeat split. }
  destruct (resolution_is_by_date _ _ aspirin H1 H2 Hsame) as (Hres & _ & _ & Hdays).
  split; [exact H1|]. split; [exact H2|]. split; [exact Hsame|]. split.
  - rewrite <- Hres. reflexivity.
  - rewrite (Hdays (at_time 2024 1 1 0 0) eq_refl). reflexivity.
Defined.

Lemma start_of_day_midnight d : midnight (start_of_day d).
Proof. by repeat split. Qed.

Lemma date_lt_irrefl a b : same_date a b → date_lt a b = false.
Proof.
  intros (Hy & Hm & Hd). unfold date_lt, lex_lt. rewrite Hy, Hm, Hd.
  rewrite !Z.ltb_irrefl. simpl. by rewrite !andb_false_r.
Qed.

Lemma resolve_on_start_date now r first rest :
  valid_datetime now →
  Schedules.start_date r = strftime_Ymd now →
  Schedules.schedule_json r = Some (JList (first :: rest)) →
  pos_duration first →
  resolve now r = Ok (Some first).
Proof.
  intros Hnow Hstart Hjson Hpos. unfold resolve.
  rewrite Hstart, strptime_reads_strftime_aux by done. simpl.
  rewrite datetime_lt_midnight by (done || apply start_of_day_midnight).
  rewrite date_lt_irrefl by by repeat split.
  rewrite sub_days_calendar by (done || apply start_of_day_midnight).
  rewrite Hjson. cbn [json_loads py_iter bind].
  rewrite find_period_step by by apply pos_duration_int.
  assert (toordinal now - toordinal (start_of_day now) = 0) as ->.
  { unfold toordinal. simpl. lia. }
  pose proof (pos_duration_of _ Hpos).
  destruct (Z.ltb_spec 0 (0 + duration_of first)); [done|lia].
Qed.

(** A row whose start date is the text of today's date, as
    [parse_with_gemini] gives it to the parser, is in its first period
    today whenever that period lasts a positive number of days: the tick
    runs the body of its loop on that period, and the pending list and
    today's list take their entry from it. *)
Theorem starts_on_its_start_date now r first rest :
  valid_datetime now →
  Schedules.start_date r = strftime_Ymd now →
  Schedules.schedule_json r = Some (JList (first :: rest)) →
  pos_duration first →
  (∀ current_time_str,
     remind now current_time_str r = notify current_time_str r first)
  ∧ pending_entry now r =
    (let! time := py_getitem first "time" in
     Ok (Some {| Pending.name := Schedules.name r; Pending.time := time |}))
  ∧ today_entry now r =
    (let! dosage := py_getitem first "dosage" in
     let! time := py_getitem first "time" in
     Ok (Some {| Today.name := Schedules.name r;
                 Today.dosage := dosage; Today.time := time |}))
  ∧ resolve now r = Ok (Some first).
Proof.
  intros Hnow Hstart Hjson Hpos.
  pose proof (resolve_on_start_date now r first rest Hnow Hstart Hjson Hpos) as Hres.
  split; [|split; [|split; [|done]]].
  - intros cur. by apply remind_found.
  - by rewrite pending_entry_resolve, Hres, bind_Ok.
  - by rewrite today_entry_resolve, Hres, bind_Ok.
Qed.

Lemma starts_on_its_start_date_witness :
  valid_datetime (at_time 2024 1 1 9 30)
  ∧ Schedules.start_date aspirin = strftime_Ymd (at_time 2024 1 1 9 30)
  ∧ pos_duration (period 3 "A" "20:00")
  ∧ remind (at_time 2024 1 1 9 30) "20:00" aspirin
    = Ok [SendMessage "42" "Aspirin" (JStr "A") (JStr "20:00")]
  ∧ pending_entry (at_time 2024 1 1 9 30) aspirin
    = Ok (Some {| Pending.name := "Aspirin"; Pending.time := JStr "20:00" |})
  ∧ today_entry (at_time 2024 1 1 9 30) aspirin
    = Ok (Some {| Today.name := "Aspirin"; Today.dosage := JStr "A";
                  Today.time := JStr "20:00" |}).
Proof.
  assert (valid_datetime (at_time 2024 1 1 9 30)) as Hnow.
  { apply at_time_valid; split; by vm_compute. }
  assert (pos_duration (period 3 "A" "20:00")) as Hpos.
  { exists 3. split; [reflexivity|lia]. }
  destruct (starts_on_its_start_date _ aspirin _ [period 9999 "B" "08:00"] Hnow
              eq_refl eq_refl Hpos) as (Hremind & Hpending & Htoday & _).
  split; [exact Hnow|]. split; [reflexivity|]. split; [exact Hpos|].
  split; [|split].
  - rewrite Hremind. reflexivity.
  - rewrite Hpending. reflexivity.
  - rewrite Htoday. reflexivity.
Defined.

(** ** The text of a button and the choice read back *)

Lemma prefix_append sep s : String.prefix sep (sep +:+ s) = true.
Proof.
  induction sep as [|c sep IH]; simpl; [by destruct s|].
  by destruct (ascii_dec c c).
Qed.

Lemma drop_chars_append sep s : drop_chars (String.length sep) (sep +:+ s) = s.
Proof. induction sep as [|c sep IH]; simpl; [by destruct s | done]. Qed.

Lemma rsplit1_absent sep s : occurs sep s = false → rsplit1 sep s = Raise ValueError.
Proof.
  induction s as [|c s IH]; [done|].
  cbn [occurs rsplit1]. intros [Hp Ho]%orb_false_elim.
  by rewrite (IH Ho), Hp.
Qed.

(** The split is at the last separator: when the text after a separator
    holds no other, the two parts are the texts around that one. *)
Lemma rsplit1_last c sep a b :
  occurs (String c sep) (sep +:+ b) = false →
  rsplit1 (String c sep) (a +:+ String c sep +:+ b) = Ok (a, b).
Proof.
  intros Hlast. induction a as [|x a IH].
  - change ("" +:+ String c sep +:+ b) with (String c (sep +:+ b)).
    cbn [rsplit1]. rewrite (rsplit1_absent _ _ Hlast).
    change (String c (sep +:+ b)) with (String c sep +:+ b).
    by rewrite prefix_append, drop_chars_append.
  - change (String x a +:+ String c sep +:+ b)
      with (String x (a +:+ String c sep +:+ b)).
    cbn [rsplit1]. by rewrite IH.
Qed.

Lemma prefix_paren c s :
  String.prefix " (" (String c s) =
  Ascii.eqb c " " && match s with
                     | String y _ => Ascii.eqb y "("
                     | EmptyString => false
                     end.
Proof.
  change (String.prefix " (" (String c s))
    with (if ascii_dec " " c then String.prefix "(" s else false).
  destruct (ascii_dec " " c) as [<-|Hne].
  - destruct s as [|y s]; [done|].
    change (String.prefix "(" (String y s))
      with (if ascii_dec "(" y then String.prefix "" s else false).
    destruct (ascii_dec "(" y) as [<-|Hne]; [by destruct s|].
    symmetry. apply Ascii.eqb_neq. congruence.
  - assert (Ascii.eqb c " " = false) as ->; [|done].
    apply Ascii.eqb_neq. congruence.
Qed.

Lemma occurs_paren_close t : occurs " (" t = false → occurs " (" (t +:+ ")") = false.
Proof.
  induction t as [|c t IH]; [done|].
  cbn [occurs]. intros [Hp Ho]%orb_false_elim.
  change (String c t +:+ ")") with (String c (t +:+ ")")). cbn [occurs].
  rewrite (IH Ho), orb_false_r.
  rewrite prefix_paren in Hp |- *.
  destruct (Ascii.eqb c " "); [|done]. by destruct t.
Qed.

Lemma rsplit1_button_text name t :
  occurs " (" t = false → rsplit1 " (" (button_text name t) = Ok (name, t +:+ ")").
Proof.
  intros Ht. unfold button_text. apply rsplit1_last.
  change ("(" +:+ t +:+ ")") with (String "(" (t +:+ ")")). cbn [occurs].
  by rewrite (occurs_paren_close _ Ht).
Qed.

Lemma drop_last_append t c : drop_last (t +:+ String c "") = t.
Proof.
  induction t as [|x t IH]; [done|].
  change (String x t +:+ String c "") with (String x (t +:+ String c "")).
  cbn [drop_last]. rewrite IH. by destruct t.
Qed.

Lemma lower_keeps_space s : has_char " " s = true → has_char " " (lower s) = true.
Proof.
  induction s as [|c s IH]; [done|]. cbn [has_char lower].
  destruct (Ascii.eqb_spec c " ") as [->|]; [done|]. simpl. intros Hs.
  rewrite (IH Hs). apply orb_true_r.
Qed.

Lemma has_char_append c a b : has_char c (a +:+ b) = has_char c a || has_char c b.
Proof. induction a as [|x a IH]; [done|]. simpl. by rewrite IH, orb_assoc. Qed.

Lemma button_text_not_cancel name t : lower (button_text name t) ≠ "cancel".
Proof.
  intros Heq.
  assert (has_char " " (lower (button_text name t)) = true) as Hs.
  { apply lower_keeps_space. unfold button_text.
    rewrite has_char_append. simpl. apply orb_true_r. }
  by rewrite Heq in Hs.
Qed.

(** ** What a logged choice changes *)

Lemma select_taken_snoc rows_s rows row user_id today_str :
  select_taken {| schedules := rows_s; tracking := rows ++ [row] |} user_id today_str =
  select_taken {| schedules := rows_s; tracking := rows |} user_id today_str ++
  (if decide (Tracking.user_id row = user_id ∧ Tracking.taken_date row = today_str)
   then [(Tracking.name row, Tracking.taken_time row)] else []).
Proof.
  unfold select_taken. simpl. rewrite filter_app, fmap_app. f_equal.
  case_decide.
  - by rewrite filter_cons_True.
  - by rewrite filter_cons_False.
Qed.

Lemma get_pending_pills_ext d d' user_id now :
  schedules d = schedules d' →
  select_taken d user_id (strftime_Ymd now) = select_taken d' user_id (strftime_Ymd now) →
  get_pending_pills d user_id now = get_pending_pills d' user_id now.
Proof.
  intros Hs Ht. rewrite !get_pending_pills_unfold.
  unfold select_schedules. by rewrite Hs, Ht.
Qed.

Lemma get_todaypills_message_ext d d' user_id now :
  schedules d = schedules d' →
  select_taken d user_id (strftime_Ymd now) = select_taken d' user_id (strftime_Ymd now) →
  get_todaypills_message d user_id now = get_todaypills_message d' user_id now.
Proof.
  intros Hs Ht. unfold get_todaypills_message, select_schedules. simpl.
  by rewrite Hs, Ht.
Qed.

Lemma in_taken_add name time n t taken b :
  in_taken name time taken = Ok b →
  in_taken name time (taken ∪ {[(n, t)]}) =
  Ok (b || bool_decide (name = n ∧ time = JStr t)).
Proof.
  unfold in_taken. destruct (hashable time); [|done].
  intros [= <-]. f_equal. destruct time; simpl;
    try (rewrite bool_decide_eq_false_2; [done | by intros [_ ?]]).
  rewrite <- bool_decide_or. apply bool_decide_ext.
  rewrite elem_of_union, elem_of_singleton. split.
  - intros [H|[= -> ->]]; [by left | by right].
  - intros [H|[-> [= ->]]]; [by left | by right].
Qed.

Lemma not_taken_add taken n t pills out :
  not_taken taken pills = Ok out →
  not_taken (taken ∪ {[(n, t)]}) pills = Ok (filter (other_slot n t) out).
Proof.
  revert out. induction pills as [|p pills IH]; intros out; simpl.
  - by intros [= <-].
  - destruct (in_taken (Pending.name p) (Pending.time p) taken) as [b|] eqn:Hb;
      [|done].
    rewrite (in_taken_add _ _ n t _ _ Hb). simpl.
    destruct (not_taken taken pills) as [rest|]; [|done]. simpl.
    rewrite (IH rest eq_refl). simpl. intros [= <-]. f_equal.
    destruct b; simpl; [done|].
    case_bool_decide as Hslot.
    + by rewrite filter_cons_False by (unfold other_slot; tauto).
    + by rewrite filter_cons_True by done.
Qed.

Lemma log_button_effect d user_id name time now later :
  occurs " (" time = false →
  let d' := {| schedules := schedules d;
               tracking := tracking d ++
                 [taken_row d user_id name (strftime_Ymd now) time later] |} in
  log_selected_pill d user_id (button_text name time) now later
  = (d', Some (Logged name))
  ∧ ∀ now' pills,
      strftime_Ymd now' = strftime_Ymd now →
      get_pending_pills d user_id now' = Ok pills →
      get_pending_pills d' user_id now' = Ok (filter (other_slot name time) pills).
Proof.
  intros Htime d'. split.
  - rewrite (log_selected_pill_logs d user_id _ name (time +:+ ")") now later
               (button_text_not_cancel name time) (rsplit1_button_text name time Htime)).
    by rewrite drop_last_append.
  - intros now' pills Hday. rewrite !get_pending_pills_unfold. subst d'.
    unfold select_schedules. cbn [schedules].
    rewrite select_taken_snoc. simpl. rewrite decide_True by done.
    rewrite list_to_set_app_L. simpl. rewrite union_empty_r_L.
    assert (select_taken {| schedules := schedules d; tracking := tracking d |}
              user_id (strftime_Ymd now') = select_taken d user_id (strftime_Ymd now'))
      as -> by by destruct d.
    apply not_taken_add.
Qed.

(** The choice of a button of the pending keyboard is read back as the
    name and the time on the button: when the time holds no [" ("], the
    handler stores one record for the owner, the name, the day and the
    time, and answers "logged".  From then on, on that day, the pending
    list is what it was without the entries of that name and time. *)
Theorem logging_a_button_clears_it d user_id name time now later :
  occurs " (" time = false →
  let d' := {| schedules := schedules d;
               tracking := tracking d ++
                 [taken_row d user_id name (strftime_Ymd now) time later] |} in
  log_selected_pill d user_id (button_text name time) now later
  = (d', Some (Logged name))
  ∧ ∀ now' pills,
      strftime_Ymd now' = strftime_Ymd now →
      get_pending_pills d user_id now' = Ok pills →
      get_pending_pills d' user_id now' = Ok (filter (other_slot name time) pills).
Proof. apply log_button_effect. Qed.

Lemma logging_a_button_clears_it_witness :
  occurs " (" "20:00" = false
  ∧ get_pending_pills
      (log_selected_pill sample_db "42" (button_text "Aspirin" "20:00")
         (at_time 2024 1 2 20 5) (at_time 2024 1 2 20 5)).1
      "42" (at_time 2024 1 2 21 0)
    = Ok (filter (other_slot "Aspirin" "20:00")
            [ {| Pending.name := "Aspirin"; Pending.time := JStr "20:00" |};
              {| Pending.name := "Zinc"; Pending.time := JStr "08:00" |} ]).
Proof.
  split; [reflexivity|].
  destruct (logging_a_button_clears_it sample_db "42" "Aspirin" "20:00"
              (at_time 2024 1 2 20 5) (at_time 2024 1 2 20 5) eq_refl) as [Hlog Hpending].
  rewrite Hlog. apply (Hpending (at_time 2024 1 2 21 0)); [reflexivity|].
  vm_compute. reflexivity.
Defined.

Lemma log_selected_pill_shape d user_id choice now later :
  (log_selected_pill d user_id choice now later).1 = d
  ∨ ∃ name time,
      (log_selected_pill d user_id choice now later).1 =
      {| schedules := schedules d;
         tracking := tracking d ++
           [taken_row d user_id name (strftime_Ymd now) time later] |}.
Proof.
  unfold log_selected_pill. case_bool_decide; [by left|].
  destruct (rsplit1 " (" choice) as [[n t]|]; [|by left].
  right. by exists n, (drop_last t).
Qed.

Lemma next_id_fresh rows r : r ∈ rows → Tracking.id r < next_id rows.
Proof.
  unfold next_id. induction rows as [|x rows IH]; [by intros ?%elem_of_nil|].
  intros [->|Hin]%elem_of_cons; simpl; [lia|]. specialize (IH Hin). lia.
Qed.

(** The ledger only grows: whatever the choice, the handler leaves the
    schedules and the records already stored as they are and adds at most
    one record, whose id is greater than every id in use; so ids that are
    distinct stay distinct. *)
Theorem ledger_only_grows d user_id choice now later :
  let d' := (log_selected_pill d user_id choice now later).1 in
  schedules d' = schedules d
  ∧ (tracking d' = tracking d
     ∨ ∃ row, tracking d' = tracking d ++ [row]
              ∧ Tracking.user_id row = user_id
              ∧ Tracking.taken_date row = strftime_Ymd now
              ∧ ∀ old, old ∈ tracking d → Tracking.id old < Tracking.id row)
  ∧ (NoDup (Tracking.id <$> tracking d) → NoDup (Tracking.id <$> tracking d')).
Proof.
  intros d'. subst d'.
  destruct (log_selected_pill_shape d user_id choice now later)
    as [->|(n & t & ->)]; [by eauto|].
  cbn [schedules tracking]. split; [done|]. split.
  - right. eexists. split; [done|]. split; [done|]. split; [done|].
    intros old Hold. by apply next_id_fresh.
  - intros Hnd. rewrite fmap_app. apply NoDup_app. split; [done|]. split.
    + intros i (old & -> & Hold)%list_elem_of_fmap [Heq|[]%elem_of_nil]%elem_of_cons.
      pose proof (next_id_fresh _ _ Hold). simpl in Heq. lia.
    + apply NoDup_singleton.
Qed.

(** A record one owner logs on one day changes nothing for another owner
    and nothing on another day: the pending list and today's list of
    every other owner, and of every other day, are what they were, and so
    are the reminders of every tick. *)
Theorem logging_is_local d user_id choice now later other now' :
  other ≠ user_id ∨ strftime_Ymd now' ≠ strftime_Ymd now →
  let d' := (log_selected_pill d user_id choice now later).1 in
  get_pending_pills d' other now' = get_pending_pills d other now'
  ∧ get_todaypills_message d' other now' = get_todaypills_message d other now'
  ∧ check_reminders d' now' = check_reminders d now'.
Proof.
  intros Hother d'. subst d'.
  destruct (log_selected_pill_shape d user_id choice now later)
    as [->|(n & t & ->)]; [done|].
  assert (select_taken
            {| schedules := schedules d;
               tracking := tracking d ++
                 [taken_row d user_id n (strftime_Ymd now) t later] |}
            other (strftime_Ymd now')
          = select_taken d other (strftime_Ymd now')) as Htaken.
  { rewrite select_taken_snoc. cbn [taken_row Tracking.user_id Tracking.taken_date].
    rewrite decide_False by (intros [Hu Hd]; destruct Hother; congruence).
    rewrite app_nil_r. by destruct d. }
  split; [by apply get_pending_pills_ext|].
  split; [by apply get_todaypills_message_ext|].
  by rewrite !check_reminders_rows.
Qed.

Lemma logging_is_local_witness :
  ("7" ≠ "42" ∨
   strftime_Ymd (at_time 2024 1 2 21 0) ≠ strftime_Ymd (at_time 2024 1 2 20 5))
  ∧ get_pending_pills
      (log_selected_pill sample_db "42" (button_text "Aspirin" "20:00")
         (at_time 2024 1 2 20 5) (at_time 2024 1 2 20 5)).1
      "7" (at_time 2024 1 2 21 0)
    = get_pending_pills sample_db "7" (at_time 2024 1 2 21 0).
Proof.
  assert ("7" ≠ "42" ∨ strftime_Ymd (at_time 2024 1 2 21 0)
                       ≠ strftime_Ymd (at_time 2024 1 2 20 5)) as Hother.
  { left. discriminate. }
  destruct (logging_is_local sample_db "42" (button_text "Aspirin" "20:00")
              (at_time 2024 1 2 20 5) (at_time 2024 1 2 20 5) "7"
              (at_time 2024 1 2 21 0) Hother) as (Hpending & _).
  split; [exact Hother | exact Hpending].
Defined.

(** A choice that holds no [" ("] is not the text of a button: nothing is
    stored, and the answer is the error reply, or none when the choice is
    "cancel" in any case of letters. *)
Theorem not_a_button_stores_nothing d user_id choice now later :
  occurs " (" choice = false →
  log_selected_pill d user_id choice now later =
  (d, if bool_decide (lower choice = "cancel") then None else Some ErrorOccurred).
Proof.
  intros Hno. unfold log_selected_pill. case_bool_decide; [done|].
  by rewrite (rsplit1_absent _ _ Hno).
Qed.

Lemma not_a_button_stores_nothing_witness :
  occurs " (" "Aspirin" = false
  ∧ log_selected_pill sample_db "42" "Aspirin"
      (at_time 2024 1 2 20 5) (at_time 2024 1 2 20 5)
    = (sample_db, Some ErrorOccurred)
  ∧ log_selected_pill sample_db "42" "CANCEL"
      (at_time 2024 1 2 20 5) (at_time 2024 1 2 20 5)
    = (sample_db, None).
Proof.
  split; [reflexivity|]. split.
  - apply (not_a_button_stores_nothing sample_db "42" "Aspirin"). reflexivity.
  - apply (not_a_button_stores_nothing sample_db "42" "CANCEL"). reflexivity.
Defined.

Lemma not_taken_in_taken taken pills out pill :
  not_taken taken pills = Ok out → pill ∈ pills →
  ∃ b, in_taken (Pending.name pill) (Pending.time pill) taken = Ok b.
Proof.
  revert out. induction pills as [|p pills IH]; intros out; simpl.
  - by intros _ ?%elem_of_nil.
  - destruct (in_taken (Pending.name p) (Pending.time p) taken) as [b|] eqn:Hb;
      [|done].
    simpl. destruct (not_taken taken pills) as [rest|]; [|done].
    intros _ [->|Hin]%elem_of_cons; [by eauto|]. by apply (IH rest).
Qed.

(** A dose whose time is stored as something other than a string can
    never be marked as taken: whatever the ledger holds, its entry is in
    every pending list that is returned. *)
Theorem non_text_time_stays_pending d user_id now r pill pills :
  r ∈ schedules d →
  Schedules.user_id r = user_id →
  pending_entry now r = Ok (Some pill) →
  (∀ t, Pending.time pill ≠ JStr t) →
  get_pending_pills d user_id now = Ok pills →
  pill ∈ pills.
Proof.
  intros Hr Hu Hentry Htime. rewrite get_pending_pills_unfold. intros Hget.
  assert (pill ∈ omap (entry_of (pending_entry now)) (select_schedules d user_id))
    as Hin.
  { apply list_elem_of_omap. exists r. split.
    - by apply list_elem_of_filter.
    - unfold entry_of. by rewrite Hentry. }
  apply (not_taken_elem _ _ _ pill Hget). split; [done|].
  destruct (not_taken_in_taken _ _ _ _ Hget Hin) as [b Hb]. rewrite Hb. f_equal.
  unfold in_taken in Hb. destruct (hashable _); [|done].
  destruct (Pending.time pill) eqn:Ht; try (by injection Hb as <-).
  by destruct (Htime s).
Qed.

Lemma non_text_time_stays_pending_witness :
  tea ∈ schedules tea_db
  ∧ pending_entry (at_time 2024 1 2 9 0) tea
    = Ok (Some {| Pending.name := "Tea"; Pending.time := JInt 8 |})
  ∧ get_pending_pills tea_db "42" (at_time 2024 1 2 9 0)
    = Ok [ {| Pending.name := "Tea"; Pending.time := JInt 8 |} ]
  ∧ {| Pending.name := "Tea"; Pending.time := JInt 8 |}
    ∈ [ {| Pending.name := "Tea"; Pending.time := JInt 8 |} ].
Proof.
  assert (tea ∈ schedules tea_db) as Hr by left.
  assert (get_pending_pills tea_db "42" (at_time 2024 1 2 9 0)
          = Ok [ {| Pending.name := "Tea"; Pending.time := JInt 8 |} ]) as Hget
    by (vm_compute; reflexivity).
  split; [exact Hr|]. split; [reflexivity|]. split; [exact Hget|].
  apply (non_text_time_stays_pending tea_db "42" (at_time 2024 1 2 9 0) tea _ _ Hr);
    [reflexivity | reflexivity | discriminate | exact Hget].
Defined.

(** ** The button under a reminder *)

Lemma split_first_append c a b :
  has_char c a = false → split_first c (a +:+ String c b) = Some (a, b).
Proof.
  induction a as [|x a IH]; simpl.
  - by rewrite Ascii.eqb_refl.
  - intros [Hx Ha]%orb_false_elim. by rewrite Hx, (IH Ha).
Qed.

Lemma append_associative a b c : (a +:+ b) +:+ c = a +:+ (b +:+ c).
Proof.
  induction a as [|x a IH]; [done|].
  change (String x ((a +:+ b) +:+ c) = String x (a +:+ (b +:+ c))). by f_equal.
Qed.

Lemma callback_data_bars name time :
  callback_data name time = "take" +:+ String "|" (name +:+ String "|" time).
Proof. reflexivity. Qed.

Lemma split_data_callback name time :
  has_char "|" name = false → split_data (callback_data name time) = Ok ("take", name, time).
Proof.
  intros Hname. unfold split_data. rewrite callback_data_bars.
  rewrite (split_first_append "|" "take") by reflexivity.
  by rewrite (split_first_append "|" name time).
Qed.

Lemma split_data_barred_name before after time :
  has_char "|" before = false →
  split_data (callback_data (before +:+ "|" +:+ after) time)
  = Ok ("take", before, after +:+ "|" +:+ time).
Proof.
  intros Hname. unfold split_data. rewrite callback_data_bars.
  rewrite (split_first_append "|" "take") by reflexivity.
  assert ((before +:+ "|" +:+ after) +:+ String "|" time
          = before +:+ String "|" (after +:+ "|" +:+ time)) as ->.
  { rewrite append_associative. reflexivity. }
  by rewrite (split_first_append "|" before _).
Qed.

Lemma today_message_shows_taken d user_id now rec lines keyboard :
  rec ∈ tracking d →
  Tracking.user_id rec = user_id →
  Tracking.taken_date rec = strftime_Ymd now →
  get_todaypills_message d user_id now = Ok (TodayPills lines keyboard) →
  (∀ dosage, PendingLine (Tracking.name rec) dosage (JStr (Tracking.taken_time rec))
             ∉ lines)
  ∧ MarkTaken (Tracking.name rec) (JStr (Tracking.taken_time rec)) ∉ keyboard.
Proof.
  intros Hrec Hu Hd
    (ordered & out & Hsort & Hlines & -> & ->)%get_todaypills_message_unfold.
  assert (in_taken (Tracking.name rec) (JStr (Tracking.taken_time rec))
            (list_to_set (select_taken d user_id (strftime_Ymd now))) = Ok true)
    as Htaken.
  { apply in_taken_true. eexists. split; [done|].
    rewrite elem_of_list_to_set. apply elem_of_select_taken. by exists rec. }
  destruct (today_lines_pending _ _ _ Hlines) as [Hpend Hbutton]. split.
  - intros dosage [[=]|Hin]%elem_of_cons. apply Hpend in Hin. congruence.
  - intros Hin. apply Hbutton in Hin. congruence.
Qed.

(** The button under a reminder records the dose of the reminder: for a
    name without a bar, the data of the button is read back as the name and
    the time, one record is stored for the presser, the name, the day and
    the time, and the list that replaces the message, made on the same day,
    has no pending line and no button for that dose. *)
Theorem reminder_button_records_its_dose d user_id name time now later now' :
  has_char "|" name = false →
  strftime_Ymd now' = strftime_Ymd now →
  let d' := {| schedules := schedules d;
               tracking := tracking d ++
                 [taken_row d user_id name (strftime_Ymd now) time later] |} in
  (button_handler d user_id (callback_data name time) now later now').1 = d'
  ∧ ∀ lines keyboard,
      (button_handler d user_id (callback_data name time) now later now').2
      = Some (Refreshed (TodayPills lines keyboard)) →
      (∀ dosage, PendingLine name dosage (JStr time) ∉ lines)
      ∧ MarkTaken name (JStr time) ∉ keyboard.
Proof.
  intros Hname Hday d'. unfold button_handler.
  rewrite (split_data_callback _ _ Hname).
  rewrite bool_decide_eq_true_2 by done. cbn [insert_tracking].
  fold (taken_row d user_id name (strftime_Ymd now) time later). fold d'.
  destruct (get_todaypills_message d' user_id now') as [m|] eqn:Hm;
    (split; [done|]); [|done].
  intros lines keyboard [= ->].
  apply (today_message_shows_taken d' user_id now'
           (taken_row d user_id name (strftime_Ymd now) time later));
    [|done|by rewrite Hday|done].
  subst d'. cbn [tracking]. apply elem_of_app. right. by left.
Qed.

Lemma reminder_button_records_its_dose_witness :
  has_char "|" "Aspirin" = false
  ∧ strftime_Ymd (at_time 2024 1 2 20 6) = strftime_Ymd (at_time 2024 1 2 20 5)
  ∧ button_handler sample_db "42" (callback_data "Aspirin" "20:00")
      (at_time 2024 1 2 20 5) (at_time 2024 1 2 20 5) (at_time 2024 1 2 20 6)
    = ({| schedules := schedules sample_db;
          tracking := [taken_row sample_db "42" "Aspirin" "2024-01-02" "20:00"
                         (at_time 2024 1 2 20 5)] |},
       Some (Refreshed (TodayPills
         [Header; PendingLine "Zinc" (JStr "Z") (JStr "08:00");
          TakenLine "Aspirin" (JStr "A") (JStr "20:00")]
         [MarkTaken "Zinc" (JStr "08:00")])))
  ∧ (button_handler sample_db "42" (callback_data "Aspirin" "20:00")
       (at_time 2024 1 2 20 5) (at_time 2024 1 2 20 5) (at_time 2024 1 2 20 6)).1
    = {| schedules := schedules sample_db;
         tracking := tracking sample_db ++
           [taken_row sample_db "42" "Aspirin"
              (strftime_Ymd (at_time 2024 1 2 20 5)) "20:00" (at_time 2024 1 2 20 5)] |}.
Proof.
  split; [reflexivity|]. split; [reflexivity|]. split; [vm_compute; reflexivity|].
  apply (reminder_button_records_its_dose sample_db "42" "Aspirin" "20:00"
           (at_time 2024 1 2 20 5) (at_time 2024 1 2 20 5) (at_time 2024 1 2 20 6));
    reflexivity.
Defined.

(** A bar in the name of a pill makes the button record another dose:
    the data is cut at the first bar of the name, so the record stored has
    the beginning of the name as its name and the rest, a bar and the time
    as its time, and the dose of the reminder has no record more than
    before. *)
Theorem barred_name_records_another_dose d user_id before after time now later now' :
  has_char "|" before = false →
  let name := before +:+ "|" +:+ after in
  let d' := (button_handler d user_id (callback_data name time) now later now').1 in
  d' = {| schedules := schedules d;
          tracking := tracking d ++
            [taken_row d user_id before (strftime_Ymd now)
               (after +:+ "|" +:+ time) later] |}
  ∧ slot_records d' user_id name (strftime_Ymd now) time
    = slot_records d user_id name (strftime_Ymd now) time.
Proof.
  intros Hname name d'. subst name d'. unfold button_handler.
  rewrite (split_data_barred_name _ _ _ Hname).
  rewrite bool_decide_eq_true_2 by done. cbn [insert_tracking].
  fold (taken_row d user_id before (strftime_Ymd now) (after +:+ "|" +:+ time) later).
  set (d' := {| schedules := schedules d; tracking := _ |}).
  assert ((match get_todaypills_message d' user_id now' with
           | Ok message => (d', Some (Refreshed message))
           | Raise _ => (d', Some WentWrong)
           end).1 = d') as -> by by destruct (get_todaypills_message _ _ _).
  split; [done|]. subst d'. unfold slot_records. cbn [tracking].
  rewrite filter_app, filter_cons_False, filter_nil, app_nil_r; [done|].
  cbn [taken_row Tracking.name]. intros (_ & Hn & _).
  assert (has_char "|" before = true) as Hbar; [|congruence].
  rewrite Hn, has_char_append. simpl. apply orb_true_r.
Qed.

Lemma barred_name_records_another_dose_witness :
  has_char "|" "A" = false
  ∧ (button_handler sample_db "42" (callback_data "A|B" "08:00")
       (at_time 2024 1 2 8 0) (at_time 2024 1 2 8 0) (at_time 2024 1 2 8 0)).1
    = {| schedules := schedules sample_db;
         tracking := tracking sample_db ++
           [taken_row sample_db "42" "A" (strftime_Ymd (at_time 2024 1 2 8 0))
              ("B" +:+ "|" +:+ "08:00") (at_time 2024 1 2 8 0)] |}.
Proof.
  split; [reflexivity|].
  apply (barred_name_records_another_dose sample_db "42" "A" "B" "08:00"
           (at_time 2024 1 2 8 0) (at_time 2024 1 2 8 0) (at_time 2024 1 2 8 0)).
  reflexivity.
Defined.

(** ** A time that cannot be hashed *)

Lemma not_taken_raises taken pills pill :
  pill ∈ pills → hashable (Pending.time pill) = false →
  ∃ e, not_taken taken pills = Raise e.
Proof.
  intros Hin Hh. induction pills as [|p pills IH]; [by apply elem_of_nil in Hin|].
  simpl. apply elem_of_cons in Hin as [<-|Hin].
  - unfold in_taken. rewrite Hh. simpl. eauto.
  - destruct (in_taken _ _ taken) as [b|]; simpl; [|by eauto].
    destruct (IH Hin) as [e ->]. simpl. eauto.
Qed.

Lemma today_lines_raises taken pills pill :
  pill ∈ pills → hashable (Today.time pill) = false →
  ∃ e, today_lines taken pills = Raise e.
Proof.
  intros Hin Hh. induction pills as [|p pills IH]; [by apply elem_of_nil in Hin|].
  simpl. apply elem_of_cons in Hin as [<-|Hin].
  - unfold in_taken. rewrite Hh. simpl. eauto.
  - destruct (in_taken _ _ taken) as [b|]; simpl; [|by eauto].
    destruct (IH Hin) as [e ->]. simpl. eauto.
Qed.

(** One row whose period of the day has a list or a dict as its time
    makes the lists of its owner fail: [get_pending_pills], and with it
    [logpill_command], raise, and so does [get_todaypills_message] when the
    period has a dosage; none of them catches the error.  The tick passes
    over the same row without a reminder and without an error. *)
Theorem unhashable_time_breaks_the_lists d user_id now r period time :
  r ∈ schedules d →
  Schedules.user_id r = user_id →
  resolve now r = Ok (Some period) →
  py_getitem period "time" = Ok time →
  hashable time = false →
  (∃ e, get_pending_pills d user_id now = Raise e)
  ∧ (∃ e, logpill_command d user_id now = Raise e)
  ∧ (∀ dosage, py_getitem period "dosage" = Ok dosage →
               ∃ e, get_todaypills_message d user_id now = Raise e)
  ∧ tick_row now r = [].
Proof.
  intros Hr Hu Hres Htime Hh.
  assert (r ∈ select_schedules d user_id) as Hsel by by apply list_elem_of_filter.
  assert (∃ e, get_pending_pills d user_id now = Raise e) as [e He].
  { rewrite get_pending_pills_unfold.
    apply (not_taken_raises _ _ {| Pending.name := Schedules.name r;
                                   Pending.time := time |}); [|done].
    apply list_elem_of_omap. exists r. split; [done|].
    unfold entry_of. by rewrite pending_entry_resolve, Hres, bind_Ok, Htime. }
  split; [by eauto|]. split; [|split].
  - unfold logpill_command. rewrite He. simpl. eauto.
  - intros dosage Hdose. unfold get_todaypills_message. simpl.
    rewrite foldl_entries. simpl.
    set (pill := {| Today.name := Schedules.name r; Today.dosage := dosage;
                    Today.time := time |}).
    assert (pill ∈ omap (entry_of (today_entry now)) (select_schedules d user_id))
      as Hin.
    { apply list_elem_of_omap. exists r. split; [done|].
      unfold entry_of. by rewrite today_entry_resolve, Hres, bind_Ok, Hdose, bind_Ok, Htime. }
    destruct (omap _ _) as [|p ps] eqn:Hps; [by apply elem_of_nil in Hin|].
    destruct (sorted Today.time (p :: ps)) as [ordered|] eqn:Hsort; [|by eauto].
    rewrite bind_Ok.
    destruct (today_lines_raises
                (list_to_set (select_taken d user_id (strftime_Ymd now)))
                ordered pill) as [e' ->]; [|done|by eauto].
    by rewrite (sorted_perm _ _ _ Hsort).
  - unfold tick_row. rewrite (remind_found _ _ _ _ Hres). unfold notify.
    rewrite Htime, bind_Ok.
    assert (py_eq time (JStr (strftime_HM now)) = false) as ->; [|done].
    destruct (py_eq time _) eqn:Heq; [|done].
    apply py_eq_JStr in Heq. by subst.
Qed.

Lemma unhashable_time_breaks_the_lists_witness :
  listed ∈ schedules listed_db
  ∧ resolve (at_time 2024 1 2 8 0) listed
    = Ok (Some (JDict [("duration_days", JInt 9999); ("dosage", JStr "spoon");
                       ("time", JList [JStr "08:00"; JStr "20:00"])]))
  ∧ get_pending_pills listed_db "42" (at_time 2024 1 2 8 0) = Raise TypeError
  ∧ (∃ e, get_pending_pills listed_db "42" (at_time 2024 1 2 8 0) = Raise e)
  ∧ check_reminders listed_db (at_time 2024 1 2 8 0)
    = [SendMessage "42" "Zinc" (JStr "Z") (JStr "08:00")].
Proof.
  assert (listed ∈ schedules listed_db) as Hr by (right; left).
  split; [exact Hr|]. split; [reflexivity|]. split; [vm_compute; reflexivity|].
  split; [|reflexivity].
  apply (unhashable_time_breaks_the_lists listed_db "42" (at_time 2024 1 2 8 0)
           listed
           (JDict [("duration_days", JInt 9999); ("dosage", JStr "spoon");
                   ("time", JList [JStr "08:00"; JStr "20:00"])])
           (JList [JStr "08:00"; JStr "20:00"]) Hr);
    reflexivity.
Defined.

(** ** Deleting a schedule *)

Lemma delete_schedules_rows d user_id name :
  schedules (delete_schedules d user_id name).1 =
  filter (λ r, ¬ (Schedules.user_id r = user_id ∧ Schedules.name r = name))
         (schedules d)
  ∧ tracking (delete_schedules d user_id name).1 = tracking d.
Proof. done. Qed.

Lemma length_filter_pos {A} (P : A → Prop) `{∀ x, Decision (P x)} (l : list A) :
  (0 < length (filter P l))%nat ↔ ∃ x, x ∈ l ∧ P x.
Proof.
  split.
  - destruct (filter P l) as [|x l'] eqn:Hf; simpl; [lia|]. intros _.
    assert (x ∈ filter P l) as [HP Hin]%list_elem_of_filter by (rewrite Hf; by left).
    by exists x.
  - intros (x & Hin & HP).
    assert (x ∈ filter P l) as Hx by by apply list_elem_of_filter.
    destruct (filter P l); [by apply elem_of_nil in Hx | simpl; lia].
Qed.

(** Deleting a name removes every schedule the owner has under that
    name, however many there are, and nothing else: the other rows stay,
    in their order, and the ledger keeps its records of the deleted name.
    The answer is "deleted" exactly when there was such a schedule, and
    deleting the same name again finds nothing. *)
Theorem delete_removes_every_match d user_id choice :
  let d' := (delete_selected_pill d user_id choice).1 in
  (∀ r, r ∈ schedules d' ↔
        r ∈ schedules d ∧
        ¬ (Schedules.user_id r = user_id ∧ Schedules.name r = choice))
  ∧ sublist (schedules d') (schedules d)
  ∧ tracking d' = tracking d
  ∧ ((delete_selected_pill d user_id choice).2 = DeleteSuccess choice ↔
     ∃ r, r ∈ schedules d ∧ Schedules.user_id r = user_id ∧ Schedules.name r = choice)
  ∧ delete_selected_pill d' user_id choice = (d', DeleteError).
Proof.
  intros d'. subst d'. unfold delete_selected_pill.
  destruct (delete_schedules d user_id choice) as [d' rowcount] eqn:Hdel.
  unfold delete_schedules in Hdel. injection Hdel as <- <-. cbn [fst snd schedules tracking].
  split; [|split; [|split; [done|split]]].
  - intros r. rewrite list_elem_of_filter. tauto.
  - apply sublist_filter.
  - destruct (Z.ltb_spec 0 (Z.of_nat (length (filter
        (λ r, Schedules.user_id r = user_id ∧ Schedules.name r = choice)
        (schedules d))))) as [Hpos|Hzero].
    + split; [intros _|done].
      apply (length_filter_pos (λ r, Schedules.user_id r = user_id
                                     ∧ Schedules.name r = choice)). lia.
    + split; [done|]. intros Hex. exfalso.
      apply (length_filter_pos (λ r, Schedules.user_id r = user_id
                                     ∧ Schedules.name r = choice)) in Hex. lia.
  - unfold delete_schedules. cbn [schedules tracking].
    set (kept := filter _ (schedules d)).
    assert (∀ r, r ∈ kept →
                 ¬ (Schedules.user_id r = user_id ∧ Schedules.name r = choice)) as Hkept.
    { by intros r [Hr _]%list_elem_of_filter. }
    by rewrite (filter_all _ kept Hkept), (filter_none _ kept Hkept).
Qed.

Lemma filter_filter_cond {A} (P Q R : A → Prop)
    `{∀ x, Decision (P x)} `{∀ x, Decision (Q x)} `{∀ x, Decision (R x)} (l : list A) :
  (∀ x, P x → (Q x ↔ R x)) → filter P (filter Q l) = filter R (filter P l).
Proof.
  intros Hcond. induction l as [|a l IH]; [done|].
  rewrite (filter_cons Q), (filter_cons P a).
  destruct (decide (Q a)) as [HQ|HQ], (decide (P a)) as [HP|HP].
  - rewrite filter_cons_True by done.
    rewrite (filter_cons_True R) by by apply Hcond. by rewrite IH.
  - by rewrite filter_cons_False by done.
  - rewrite (filter_cons_False R) by (intros HR; by apply Hcond in HR). done.
  - done.
Qed.

Lemma names_filter (rows : list Schedules.row) name :
  filter (λ n, n ≠ name) (Schedules.name <$> rows)
  = Schedules.name <$> filter (λ r, Schedules.name r ≠ name) rows.
Proof.
  induction rows as [|r rows IH]; [done|].
  rewrite fmap_cons, !filter_cons, IH. cbn beta.
  by destruct (decide (Schedules.name r ≠ name)).
Qed.

(** Every name [deletepill_command] offers can be deleted.  There is
    nothing to choose exactly when the owner has no schedule; otherwise
    the keyboard is not empty and holds the names of the owner's schedules
    and no other, choosing one of them is answered "deleted", and the name
    is then no longer offered: the names left are offered again, and
    nothing is when every schedule of the owner had the chosen name. *)
Theorem offered_names_can_be_deleted d user_id :
  match deletepill_command d user_id with
  | NothingToDelete => select_schedules d user_id = []
  | WhichToDelete keyboard =>
      keyboard ≠ []
      ∧ keyboard = Schedules.name <$> select_schedules d user_id
      ∧ ∀ choice, choice ∈ keyboard →
          (delete_selected_pill d user_id choice).2 = DeleteSuccess choice
          ∧ match deletepill_command (delete_selected_pill d user_id choice).1 user_id with
            | NothingToDelete => ∀ name, name ∈ keyboard → name = choice
            | WhichToDelete keyboard' =>
                keyboard' ≠ []
                ∧ keyboard' = filter (λ name, name ≠ choice) keyboard
                ∧ sublist keyboard' keyboard ∧ choice ∉ keyboard'
            end
  end.
Proof.
  unfold deletepill_command.
  destruct (Schedules.name <$> select_schedules d user_id) as [|n ns] eqn:Hnames.
  { by destruct (select_schedules d user_id). }
  split; [done|]. split; [done|]. intros choice Hchoice. rewrite <- Hnames in Hchoice.
  apply list_elem_of_fmap in Hchoice as (r & -> & [Hu Hr]%list_elem_of_filter).
  split.
  - unfold delete_selected_pill, delete_schedules.
    assert (0 < Z.of_nat (length (filter
        (λ r0, Schedules.user_id r0 = user_id ∧ Schedules.name r0 = Schedules.name r)
        (schedules d)))) as Hpos.
    { assert (0 < length (filter
        (λ r0, Schedules.user_id r0 = user_id ∧ Schedules.name r0 = Schedules.name r)
        (schedules d)))%nat; [|lia].
      apply (length_filter_pos (λ r0, Schedules.user_id r0 = user_id
                                      ∧ Schedules.name r0 = Schedules.name r)).
      by exists r. }
    apply Z.ltb_lt in Hpos. cbn [snd]. by rewrite Hpos.
  - assert (Schedules.name <$>
              select_schedules (delete_selected_pill d user_id (Schedules.name r)).1 user_id
            = filter (λ name, name ≠ Schedules.name r)
                     (Schedules.name <$> select_schedules d user_id)) as Hafter.
    { rewrite names_filter.
      unfold select_schedules, delete_selected_pill, delete_schedules.
      cbn [fst schedules]. f_equal. apply filter_filter_cond.
      intros x Hx. tauto. }
    rewrite Hafter.
    destruct (filter _ (Schedules.name <$> _)) as [|n' ns'] eqn:Hleft.
    + intros name Hname. rewrite <- Hnames in Hname.
      destruct (decide (name = Schedules.name r)) as [|Hne]; [done|].
      assert (name ∈ filter (λ name, name ≠ Schedules.name r)
                            (Schedules.name <$> select_schedules d user_id)) as Hin
        by by apply list_elem_of_filter.
      rewrite Hleft in Hin. by apply elem_of_nil in Hin.
    + split; [done|]. rewrite <- Hleft, <- Hnames. split; [done|]. split.
      * apply sublist_filter.
      * intros [Hne _]%list_elem_of_filter. congruence.
Qed.

(** ** After a deletion *)

Lemma elem_of_concat_fmap {A B} (f : A → list B) (l : list A) (y : B) :
  y ∈ concat (f <$> l) ↔ ∃ x, x ∈ l ∧ y ∈ f x.
Proof.
  induction l as [|a l IH].
  - split; [by intros ?%elem_of_nil | by intros (x & ?%elem_of_nil & _)].
  - rewrite fmap_cons. cbn [concat]. rewrite elem_of_app, IH. split.
    + intros [Hy|(x & Hx & Hy)]; [exists a | exists x]; (split; [|done]);
        [by left | by right].
    + intros (x & [->|Hx]%elem_of_cons & Hy); [by left | right; by exists x].
Qed.

Lemma sublist_concat_filter {A B} (f : A → list B) (P : A → Prop)
    `{∀ x, Decision (P x)} (l : list A) :
  sublist (concat (f <$> filter P l)) (concat (f <$> l)).
Proof.
  induction l as [|a l IH]; [done|].
  rewrite filter_cons, (fmap_cons f a l). cbn [concat]. case_decide.
  - rewrite fmap_cons. cbn [concat]. by apply sublist_app.
  - by apply sublist_inserts_l.
Qed.

(** Once a name is deleted, no tick reminds its owner of it and no
    pending list of the owner holds it; the events a tick still gives are
    events it gave before, in the same order. *)
Theorem deleted_schedule_is_silent d user_id choice now :
  let d' := (delete_selected_pill d user_id choice).1 in
  (∀ dosage time, SendMessage user_id choice dosage time ∉ check_reminders d' now)
  ∧ sublist (check_reminders d' now) (check_reminders d now)
  ∧ (∀ pills pill, get_pending_pills d' user_id now = Ok pills →
                   pill ∈ pills → Pending.name pill ≠ choice).
Proof.
  intros d'. subst d'. unfold delete_selected_pill, delete_schedules. cbn [fst].
  set (d' := {| schedules := _; tracking := tracking d |}).
  assert (∀ r, r ∈ schedules d' →
               ¬ (Schedules.user_id r = user_id ∧ Schedules.name r = choice)) as Hkept.
  { by intros r [Hr _]%list_elem_of_filter. }
  split; [|split].
  - intros dosage time. rewrite check_reminders_rows.
    intros (r & Hr & Hev)%elem_of_concat_fmap.
    apply tick_row_send in Hev as (_ & _ & _ & _ & _ & Hu & Hn).
    by apply (Hkept r).
  - rewrite !check_reminders_rows. apply sublist_concat_filter.
  - intros pills pill. rewrite get_pending_pills_unfold. intros Hget Hin Hname.
    apply (not_taken_elem _ _ _ pill Hget) in Hin as [Hin _].
    apply list_elem_of_omap in Hin as (r & [Hu Hr]%list_elem_of_filter & Hentry).
    unfold entry_of in Hentry.
    destruct (pending_entry now r) as [[p|]|] eqn:Hp; try done.
    injection Hentry as ->. apply pending_entry_name in Hp.
    apply (Hkept r Hr). split; [done | congruence].
Qed.

(** ** The two lists of the day *)

Lemma not_taken_filter taken pills out :
  not_taken taken pills = Ok out →
  out = filter (λ pill, in_taken (Pending.name pill) (Pending.time pill) taken
                        = Ok false) pills.
Proof.
  revert out. induction pills as [|p pills IH]; intros out; simpl.
  - by intros [= <-].
  - destruct (in_taken (Pending.name p) (Pending.time p) taken) as [b|] eqn:Hb;
      [|done].
    simpl. destruct (not_taken taken pills) as [rest|]; [|done]. simpl.
    intros [= <-]. rewrite filter_cons, Hb, <- (IH rest eq_refl).
    destruct b; [by rewrite decide_False | by rewrite decide_True].
Qed.

Lemma today_lines_buttons taken pills out :
  today_lines taken pills = Ok out →
  out.2 = mark_of <$>
    filter (λ pill, in_taken (Pending.name pill) (Pending.time pill) taken = Ok false)
           (pending_of <$> pills).
Proof.
  revert out. induction pills as [|p pills IH]; intros out.
  - by intros [= <-].
  - cbn [today_lines].
    destruct (in_taken (Today.name p) (Today.time p) taken) as [b|] eqn:Hb; [|done].
    rewrite bind_Ok. destruct (today_lines taken pills) as [more|]; [|done].
    rewrite bind_Ok. intros [= <-]. specialize (IH more eq_refl). rewrite fmap_cons.
    destruct b; cbn [fst snd].
    + rewrite filter_cons_False; [done|]. cbn [pending_of Pending.name Pending.time].
      rewrite Hb. congruence.
    + rewrite filter_cons_True; [|cbn [pending_of Pending.name Pending.time]; by rewrite Hb].
      rewrite fmap_cons. by f_equal.
Qed.

Lemma entries_agree now r :
  (∀ period, resolve now r = Ok (Some period) →
             ∃ dosage, py_getitem period "dosage" = Ok dosage) →
  entry_of (pending_entry now) r = pending_of <$> entry_of (today_entry now) r.
Proof.
  intros Hdose. unfold entry_of.
  rewrite pending_entry_resolve, today_entry_resolve.
  destruct (resolve now r) as [[period|]|]; [|done..].
  destruct (Hdose period eq_refl) as [dosage Hd]. rewrite !bind_Ok, Hd, bind_Ok.
  by destruct (py_getitem period "time").
Qed.

Lemma entries_agree_all now (rows : list Schedules.row) :
  (∀ r period, r ∈ rows → resolve now r = Ok (Some period) →
               ∃ dosage, py_getitem period "dosage" = Ok dosage) →
  omap (entry_of (pending_entry now)) rows
  = pending_of <$> omap (entry_of (today_entry now)) rows.
Proof.
  induction rows as [|r rows IH]; intros Hdose; [done|].
  change (omap (entry_of (pending_entry now)) (r :: rows))
    with (match entry_of (pending_entry now) r with
          | Some x => x :: omap (entry_of (pending_entry now)) rows
          | None => omap (entry_of (pending_entry now)) rows
          end).
  change (omap (entry_of (today_entry now)) (r :: rows))
    with (match entry_of (today_entry now) r with
          | Some x => x :: omap (entry_of (today_entry now)) rows
          | None => omap (entry_of (today_entry now)) rows
          end).
  rewrite (entries_agree now r) by (intros p Hp; apply (Hdose r); [by left | done]).
  rewrite IH by (intros r' p Hr'; apply (Hdose r'); by right).
  by destruct (entry_of (today_entry now) r).
Qed.

(** ** Saving the confirmed pills *)

Lemma insert_schedule_row d seq user_id name start_date schedule d' seq' :
  insert_schedule d seq user_id name start_date schedule = Success (d', seq') →
  ∃ n s,
    adapt name = Success (Some n) ∧ adapt start_date = Success (Some s)
    ∧ d' = {| schedules := schedules d ++
                [ {| Schedules.id := seq';
                     Schedules.user_id := user_id;
                     Schedules.name := n;
                     Schedules.start_date := s;
                     Schedules.schedule_json := Some schedule |} ];
              tracking := tracking d |}
    ∧ seq < seq'
    ∧ ∀ r, r ∈ schedules d → Schedules.id r < seq'.
Proof.
  unfold insert_schedule.
  destruct (adapt name) as [[n|]|]; simpl; [|by destruct (adapt start_date) as [[?|]|]|done].
  destruct (adapt start_date) as [[s|]|]; simpl; [|done..].
  intros [= <- <-]. exists n, s. repeat split; [lia|].
  intros r Hr.
  assert (Schedules.id r ≤ foldr Z.max 0 (Schedules.id <$> schedules d)); [|lia].
  clear -Hr. induction (schedules d) as [|x rows IH]; [by apply elem_of_nil in Hr|].
  rewrite fmap_cons. cbn [foldr].
  apply elem_of_cons in Hr as [->|Hr]; [lia|]. specialize (IH Hr). lia.
Qed.

Lemma insert_pills_rows d seq user_id pills d' seq' :
  insert_pills d seq user_id pills = Success (d', seq') →
  ∃ rows, schedules d' = schedules d ++ rows
          ∧ tracking d' = tracking d
          ∧ Forall2 (row_of_pill user_id) pills rows
          ∧ seq ≤ seq'.
Proof.
  revert d seq. induction pills as [|pill pills IH]; intros d seq.
  - intros [= <- <-]. exists []. by rewrite app_nil_r.
  - cbn [insert_pills].
    destruct (py_getitem pill "name") as [name|] eqn:Hname; [|done].
    destruct (py_getitem pill "start_date") as [start|] eqn:Hstart; [|done].
    destruct (py_getitem pill "schedule") as [schedule|] eqn:Hsched; [|done].
    cbn [lift attempt_bind].
    destruct (insert_schedule d seq user_id name start schedule) as [[d1 seq1]|] eqn:Hins;
      [|done].
    cbn [attempt_bind fst snd]. intros Hrest.
    apply insert_schedule_row in Hins as (n & s & Hn & Hs & -> & Hseq & _).
    destruct (IH _ _ Hrest) as (rows & Hrows & Htrack & Hall & Hle).
    cbn [schedules tracking] in Hrows, Htrack.
    exists ({| Schedules.id := seq1; Schedules.user_id := user_id;
               Schedules.name := n; Schedules.start_date := s;
               Schedules.schedule_json := Some schedule |} :: rows).
    split; [by rewrite Hrows, <- app_assoc|]. split; [done|]. split; [|lia].
    constructor; [|done]. split; [done|].
    by exists name, start, schedule.
Qed.

Lemma save_confirmed_pills_effect d seq ud user_id :
  let saved := save_confirmed_pills d seq ud user_id in
  let d' := saved.1.1.1 in
  tracking d' = tracking d
  ∧ (d' = d
     ∨ ∃ items rows,
         py_iter (default (JList []) (parsed_pills ud)) = Ok items
         ∧ schedules d' = schedules d ++ rows
         ∧ Forall2 (row_of_pill user_id) items rows)
  ∧ (saved.2 = Success SaveError → d' = d ∧ saved.1.2 = clean_user_context ud)
  ∧ (∀ names, saved.2 = Success (SaveSuccess names) → saved.1.2 = clean_user_context ud)
  ∧ (∀ e, saved.2 = Failure e → saved.1.2 = ud).
Proof.
  intros saved d'. subst saved d'. unfold save_confirmed_pills.
  destruct (truthy _); [|by repeat split; auto].
  destruct (py_iter (default (JList []) (parsed_pills ud))) as [items|] eqn:Hitems;
    cbn [lift attempt_bind]; [|by repeat split; auto].
  destruct (insert_pills d seq user_id items) as [[d' seq']|] eqn:Hins;
    [|by repeat split; auto].
  apply insert_pills_rows in Hins as (rows & Hrows & Htrack & Hall & _).
  rewrite bind_Ok.
  destruct (let! names := pill_names items in join_names names) as [names|];
    cbn [fst snd]; (split; [done|]); (split; [right; by exists items, rows|]);
    repeat split; congruence.
Qed.

(** Saving adds all the pills of the context or none: whatever the
    context holds, the rows and the records already stored stay as they
    are, and the rows added, one for each pill and in their order, belong
    to the user and hold the name, the start date and the schedule of their
    pill.  The context is cleared when the handler answers and kept when
    it is left by an exception. *)
Theorem save_adds_all_or_nothing d seq ud user_id :
  let saved := save_confirmed_pills d seq ud user_id in
  let d' := saved.1.1.1 in
  tracking d' = tracking d
  ∧ (d' = d
     ∨ ∃ items rows,
         py_iter (default (JList []) (parsed_pills ud)) = Ok items
         ∧ schedules d' = schedules d ++ rows
         ∧ Forall2 (row_of_pill user_id) items rows)
  ∧ (saved.2 = Success SaveError → d' = d ∧ saved.1.2 = clean_user_context ud)
  ∧ (∀ names, saved.2 = Success (SaveSuccess names) → saved.1.2 = clean_user_context ud)
  ∧ (∀ e, saved.2 = Failure e → saved.1.2 = ud).
Proof. apply save_confirmed_pills_effect. Qed.

Lemma insert_pills_text d seq user_id items :
  Forall text_pill items →
  ∃ d' seq', insert_pills d seq user_id items = Success (d', seq').
Proof.
  intros Hitems. revert d seq.
  induction Hitems as [|p items (n & s & sch & Hn & Hs & Hsch) _ IH]; intros d seq.
  - by exists d, seq.
  - cbn [insert_pills]. rewrite Hn, Hs, Hsch. cbn [lift attempt_bind].
    unfold insert_schedule. cbn [adapt attempt_bind fst snd]. apply IH.
Qed.

Lemma join_names_text items :
  Forall text_pill items →
  ∃ names, (let! l := pill_names items in join_names l) = Ok names.
Proof.
  intros Hitems.
  assert (∃ l, pill_names items = Ok l ∧ Forall (λ v, ∃ s, v = JStr s) l)
    as (l & -> & Hl).
  { induction Hitems as [|p items (n & s & sch & Hn & Hs & Hsch) _ (l & IH & Hl)].
    - by exists [].
    - cbn [pill_names]. rewrite Hn, bind_Ok, IH, bind_Ok.
      eexists. split; [done|]. constructor; [by eauto | done]. }
  rewrite bind_Ok. induction Hl as [|v l [s ->] _ [names IH]]; [by eexists|].
  cbn [join_names]. rewrite IH, bind_Ok. by eexists.
Qed.

Lemma text_named_pills_are_saved_aux d seq ud user_id items :
  parsed_pills ud = Some (JList items) →
  items ≠ [] →
  Forall text_pill items →
  ∃ rows seq' names,
    save_confirmed_pills d seq ud user_id =
    ({| schedules := schedules d ++ rows; tracking := tracking d |}, seq',
     clean_user_context ud, Success (SaveSuccess names))
    ∧ Forall2 (row_of_pill user_id) items rows.
Proof.
  intros Hud Hne Hitems. unfold save_confirmed_pills. rewrite Hud.
  change (default (JList []) (Some (JList items))) with (JList items).
  destruct items as [|p items]; [done|].
  cbn [truthy py_iter lift attempt_bind bind].
  destruct (insert_pills_text d seq user_id _ Hitems) as (d' & seq' & Hins).
  rewrite Hins.
  destruct (join_names_text _ Hitems) as [names ->].
  apply insert_pills_rows in Hins as (rows & Hrows & Htrack & Hall & _).
  exists rows, seq', names. split; [|done].
  destruct d' as [s t]. cbn [schedules tracking] in Hrows, Htrack. by subst.
Qed.

(** The pills of a confirmed context whose names and start dates are
    strings are all saved, whatever the user has stored before, also under
    the same names: the answer is the success reply with the names, the
    context is cleared, and the rows added hold, pill by pill, the name,
    the start date and the schedule that were confirmed. *)
Theorem text_named_pills_are_saved d seq ud user_id items :
  parsed_pills ud = Some (JList items) →
  items ≠ [] →
  Forall text_pill items →
  ∃ rows seq' names,
    save_confirmed_pills d seq ud user_id =
    ({| schedules := schedules d ++ rows; tracking := tracking d |}, seq',
     clean_user_context ud, Success (SaveSuccess names))
    ∧ Forall2 (row_of_pill user_id) items rows.
Proof. apply text_named_pills_are_saved_aux. Qed.

Lemma text_named_pills_are_saved_witness :
  parsed_pills confirmed
  = Some (JList [pill "Zinc" "2024-01-05" [period 9999 "Z" "08:00"]])
  ∧ Forall text_pill [pill "Zinc" "2024-01-05" [period 9999 "Z" "08:00"]]
  ∧ save_confirmed_pills sample_db 9 confirmed "42"
    = ({| schedules := schedules sample_db ++
            [schedule_row 10 "42" "Zinc" "2024-01-05" [period 9999 "Z" "08:00"]];
          tracking := [] |}, 10, clean_user_context confirmed,
       Success (SaveSuccess "Zinc"))
  ∧ ∃ rows seq' names,
      save_confirmed_pills sample_db 9 confirmed "42" =
      ({| schedules := schedules sample_db ++ rows; tracking := tracking sample_db |},
       seq', clean_user_context confirmed, Success (SaveSuccess names)).
Proof.
  assert (Forall text_pill [pill "Zinc" "2024-01-05" [period 9999 "Z" "08:00"]])
    as Htext.
  { repeat constructor. eexists _, _, _. repeat split; reflexivity. }
  split; [reflexivity|]. split; [exact Htext|]. split; [reflexivity|].
  destruct (text_named_pills_are_saved sample_db 9 confirmed "42" _ eq_refl
              ltac:(discriminate) Htext) as (rows & seq' & names & Hsave & _).
  by exists rows, seq', names.
Defined.




(** ** From the analysis to the confirmation *)

Lemma show_periods_shown periods lines :
  show_periods periods = Ok lines → Forall shown_period periods.
Proof.
  revert lines. induction periods as [|p periods IH]; intros lines; [by constructor|].
  cbn [show_periods]. unfold show_period.
  destruct (py_getitem p "duration_days") as [dur|] eqn:Hdur; [|done]. rewrite bind_Ok.
  destruct (py_getitem p "dosage") as [dose|] eqn:Hdose; [|done]. rewrite bind_Ok.
  destruct (py_getitem p "time") as [t|] eqn:Ht; [|done]. rewrite !bind_Ok.
  destruct (show_periods periods) as [more|]; [|done]. intros _.
  constructor; [by exists dur, dose, t | by apply (IH more)].
Qed.

Lemma show_pills_shown items shown :
  show_pills items = Ok shown → Forall shown_pill items.
Proof.
  revert shown. induction items as [|p items IH]; intros shown; [by constructor|].
  cbn [show_pills]. unfold show_pill.
  destruct (py_getitem p "name") as [name|] eqn:Hname; [|done]. rewrite bind_Ok.
  destruct (py_getitem p "start_date") as [start|] eqn:Hstart; [|done]. rewrite bind_Ok.
  destruct (py_getitem p "schedule") as [schedule|] eqn:Hsched; [|done]. rewrite bind_Ok.
  destruct (py_iter schedule) as [periods|] eqn:Hiter; [|done]. rewrite bind_Ok.
  destruct (show_periods periods) as [lines|] eqn:Hlines; [|done]. rewrite !bind_Ok.
  destruct (show_pills items) as [more|]; [|done]. intros _.
  constructor; [|by apply (IH more)].
  exists name, start, schedule, periods. repeat split; try done.
  by apply (show_periods_shown _ lines).
Qed.

Lemma shown_pill_is_dict pill : shown_pill pill → ∃ kv, pill = JDict kv.
Proof. intros (n & _ & _ & _ & Hn & _). destruct pill; try done. by eexists. Qed.

Lemma confirmation_shape (generate_content : prompt → option string)
    (loads : string → option json) ud user_text now ud' reply st :
  parse_with_gemini generate_content loads ud user_text now = Ok (ud', reply, st) →
  (st = CONFIRM_PILL
   ∧ ∃ history items schedule_text,
       pill_conversation_history ud = Some history
       ∧ ud' = {| parsed_pills := Some (JList items);
                  pill_conversation_history := Some (history ++ [user_text]) |}
       ∧ items ≠ []
       ∧ Forall shown_pill items
       ∧ reply = ConfirmationPrompt schedule_text)
  ∨ (st = END ∧ ud' = clean_user_context ud
     ∧ (reply = ParseError ∨ reply = GenericError)).
Proof.
  unfold parse_with_gemini.
  destruct (pill_conversation_history ud) as [history|] eqn:Hhist; [|done].
  destruct (generate_content _) as [text|]; [|intros [= <- <- <-]; right; by auto].
  destruct (loads _) as [pills|]; [|intros [= <- <- <-]; right; by auto].
  destruct (truthy pills) eqn:Htruthy; [|intros [= <- <- <-]; right; by auto].
  destruct (py_iter pills) as [items|] eqn:Hiter;
    [|intros [= <- <- <-]; right; by auto].
  rewrite bind_Ok.
  destruct (show_pills items) as [shown|] eqn:Hshown;
    [|intros [= <- <- <-]; right; by auto].
  intros [= <- <- <-]. left. split; [done|].
  apply show_pills_shown in Hshown.
  assert (pills = JList items ∧ items ≠ []) as [-> Hne].
  { destruct pills as [| | |s|l|kv]; try done.
    - destruct s as [|c s]; [done|]. injection Hiter as <-.
      apply Forall_cons in Hshown as [Hc _]. by apply shown_pill_is_dict in Hc as [? ?].
    - injection Hiter as <-. by destruct l.
    - destruct kv as [|[k v] kv]; [done|]. injection Hiter as <-.
      apply Forall_cons in Hshown as [Hc _]. by apply shown_pill_is_dict in Hc as [? ?]. }
  by exists history, items, shown.
Qed.

(** The ways out of the analysis.  Without a history in the context the
    handler is left by the [KeyError] of the history, before anything
    else is done.  With one, it asks for a confirmation only of what it
    could show: the context then holds a list, not empty, of pills that
    each have a name, a start date and a schedule whose periods each have a
    duration, a dosage and a time, and the history with the text just sent
    at its end; every other reply ends the conversation with the context
    cleared. *)
Theorem only_a_shown_schedule_is_confirmed (generate_content : prompt → option string)
    (loads : string → option json) ud user_text now :
  match parse_with_gemini generate_content loads ud user_text now with
  | Raise e =>
      pill_conversation_history ud = None ∧ e = KeyError "pill_conversation_history"
  | Ok (ud', reply, st) =>
      ∃ history,
        pill_conversation_history ud = Some history
        ∧ ((st = CONFIRM_PILL
            ∧ ∃ items schedule_text,
                ud' = {| parsed_pills := Some (JList items);
                         pill_conversation_history := Some (history ++ [user_text]) |}
                ∧ items ≠ []
                ∧ Forall shown_pill items
                ∧ reply = ConfirmationPrompt schedule_text)
           ∨ (st = END ∧ ud' = clean_user_context ud
              ∧ (reply = ParseError ∨ reply = GenericError)))
  end.
Proof.
  destruct (parse_with_gemini generate_content loads ud user_text now)
    as [[[ud' reply] st]|e] eqn:Hparse.
  - destruct (pill_conversation_history ud) as [history|] eqn:Hhist.
    2: { unfold parse_with_gemini in Hparse. by rewrite Hhist in Hparse. }
    exists history. split; [done|].
    destruct (confirmation_shape _ _ _ _ _ _ _ _ Hparse)
      as [(-> & history' & items & shown & Hhist' & -> & Hne & Hshown & ->)|Hend].
    + left. split; [done|]. rewrite Hhist in Hhist'. injection Hhist' as <-.
      by exists items, shown.
    + by right.
  - unfold parse_with_gemini in Hparse.
    destruct (pill_conversation_history ud) as [history|]; [|by injection Hparse as <-].
    destruct (generate_content _) as [text|]; [|done].
    destruct (loads _) as [pills|]; [|done].
    destruct (truthy pills); [|done].
    by destruct (let! items := py_iter pills in show_pills items).
Qed.

(** ** The rows of a confirmed schedule *)

Lemma shown_pill_row user_id pill r :
  shown_pill pill → row_of_pill user_id pill r → shown_row r.
Proof.
  intros (_ & _ & schedule & periods & _ & _ & Hsched & Hiter & Hshown)
         (_ & _ & _ & schedule' & _ & _ & _ & _ & Hsched' & Hjson).
  rewrite Hsched in Hsched'. injection Hsched' as <-.
  by exists schedule, periods.
Qed.

(** Every row that saving adds from a context the analysis has confirmed
    holds a schedule that was shown: the rows of the database after the
    save are the rows before it and rows of the user whose periods each
    have a duration, a dosage and a time. *)
Theorem confirmed_rows_have_their_keys (generate_content : prompt → option string)
    (loads : string → option json) ud user_text now ud' reply d seq user_id r :
  parse_with_gemini generate_content loads ud user_text now
  = Ok (ud', reply, CONFIRM_PILL) →
  r ∈ schedules (save_confirmed_pills d seq ud' user_id).1.1.1 →
  r ∈ schedules d ∨ (Schedules.user_id r = user_id ∧ shown_row r).
Proof.
  intros [(_ & history & items & shown & _ & -> & _ & Hshown & _)|[? _]]%confirmation_shape;
    [|done].
  destruct (save_confirmed_pills_effect d seq
              {| parsed_pills := Some (JList items);
                 pill_conversation_history := Some (history ++ [user_text]) |} user_id)
    as (_ & [->|(items' & rows & Hiter & -> & Hall)] & _); [by left|].
  injection Hiter as <-.
  intros [Hr|Hr]%elem_of_app; [by left|]. right.
  apply list_elem_of_lookup in Hr as [i Hi].
  destruct (Forall2_lookup_r _ _ _ _ _ Hall Hi) as (p & Hp & Hrow).
  split; [apply Hrow|].
  apply (shown_pill_row user_id p); [|done].
  rewrite Forall_forall in Hshown. apply Hshown. by eapply list_elem_of_lookup_2.
Qed.

Lemma confirmed_rows_have_their_keys_witness :
  parse_with_gemini
    (λ _, Some "[]")
    (λ _, Some (JList [pill "Zinc" "2024-01-05" [period 9999 "Z" "08:00"]]))
    {| parsed_pills := None; pill_conversation_history := Some [] |}
    "zinc every morning at 8" (at_time 2024 1 5 7 0)
  = Ok (confirmed,
        ConfirmationPrompt
          [(JStr "Zinc", JStr "2024-01-05", [(JInt 9999, JStr "Z", JStr "08:00")])],
        CONFIRM_PILL)
  ∧ schedule_row 10 "42" "Zinc" "2024-01-05" [period 9999 "Z" "08:00"]
    ∈ schedules (save_confirmed_pills sample_db 9 confirmed "42").1.1.1
  ∧ (schedule_row 10 "42" "Zinc" "2024-01-05" [period 9999 "Z" "08:00"]
     ∈ schedules sample_db
     ∨ (Schedules.user_id
          (schedule_row 10 "42" "Zinc" "2024-01-05" [period 9999 "Z" "08:00"]) = "42"
        ∧ shown_row (schedule_row 10 "42" "Zinc" "2024-01-05" [period 9999 "Z" "08:00"]))).
Proof.
  assert (schedule_row 10 "42" "Zinc" "2024-01-05" [period 9999 "Z" "08:00"]
          ∈ schedules (save_confirmed_pills sample_db 9 confirmed "42").1.1.1) as Hin.
  { vm_compute. do 4 right. left. }
  split; [reflexivity|]. split; [exact Hin|].
  apply (confirmed_rows_have_their_keys
           (λ _, Some "[]")
           (λ _, Some (JList [pill "Zinc" "2024-01-05" [period 9999 "Z" "08:00"]]))
           {| parsed_pills := None; pill_conversation_history := Some [] |}
           "zinc every morning at 8" (at_time 2024 1 5 7 0) confirmed _
           sample_db 9 "42" _ eq_refl Hin).
Defined.

Lemma find_period_shown elapsed cum periods :
  Forall shown_period periods →
  match find_period elapsed cum periods with
  | Ok (Some period) => shown_period period
  | Ok None => True
  | Raise e => ¬ undecoded e
  end.
Proof.
  intros Hshown. revert cum.
  induction Hshown as [|p periods (dur & dose & t & Hdur & Hdose & Ht) _ IH];
    intros cum; [done|].
  cbn [find_period]. rewrite Hdur, bind_Ok. unfold in_window, py_add.
  destruct (cum <=? elapsed).
  - destruct (as_int dur) as [n|]; [|by intros [|[]]]. rewrite !bind_Ok.
    destruct (elapsed <? cum + n); [by exists dur, dose, t | apply IH].
  - rewrite bind_Ok. destruct (as_int dur) as [n|]; [|by intros [|[]]].
    rewrite bind_Ok. apply IH.
Qed.

Lemma strptime_Ymd_raises s e : strptime_Ymd s = Raise e → e = ValueError.
Proof.
  unfold strptime_Ymd. destruct (parse_Ymd s) as [[[y m] dd]|]; [|by intros [= <-]].
  destruct ((1 <=? y) && (dd <=? days_in_month y m)); [done | by intros [= <-]].
Qed.

Lemma strptime_Ymd_decoded s e : strptime_Ymd s = Raise e → ¬ undecoded e.
Proof. intros ->%strptime_Ymd_raises. by intros [|[]]. Qed.

(** A row whose schedule was shown for confirmation never fails for a
    missing key or for text that is not JSON: no error a tick logs for it
    is a [KeyError] or a [JSONDecodeError], and none keeps its entry out of
    the pending list or out of today's list. *)
Theorem shown_row_never_lacks_a_key now r :
  shown_row r →
  (∀ user_id e, LogError user_id e ∈ tick_row now r → ¬ undecoded e)
  ∧ (∀ e, pending_entry now r = Raise e → ¬ undecoded e)
  ∧ (∀ e, today_entry now r = Raise e → ¬ undecoded e).
Proof.
  intros (schedule & periods & Hjson & Hiter & Hshown).
  assert (∀ days, match find_period days 0 periods with
                  | Ok (Some period) => shown_period period
                  | Ok None => True
                  | Raise e => ¬ undecoded e
                  end) as Hfind by (intros; by apply find_period_shown).
  split; [|split].
  - intros u e. unfold tick_row, remind. rewrite Hjson. cbn [json_loads bind].
    destruct (strptime_Ymd _) as [sd|] eqn:Hsd; cbn [bind].
    2: { intros [= _ ->]%list_elem_of_singleton. by eapply strptime_Ymd_decoded. }
    destruct (datetime_lt now sd); [by intros ?%elem_of_nil|].
    rewrite Hiter. cbn [bind]. specialize (Hfind (sub_days now sd)).
    destruct (find_period _ _ periods) as [[p|]|]; cbn [bind].
    + destruct Hfind as (dur & dose & t & _ & Hdose & Ht). unfold notify.
      rewrite Ht. cbn [bind]. destruct (py_eq t _); [|by intros ?%elem_of_nil].
      rewrite Hdose. cbn [bind]. by intros [=]%list_elem_of_singleton.
    + by intros ?%elem_of_nil.
    + by intros [= _ ->]%list_elem_of_singleton.
  - intros e. unfold pending_entry.
    destruct (strptime_Ymd _) as [sd|] eqn:Hsd; cbn [bind].
    2: { intros [= <-]. by eapply strptime_Ymd_decoded. }
    destruct (datetime_lt now sd); [done|].
    rewrite Hjson. cbn [json_loads bind]. rewrite Hiter. cbn [bind].
    specialize (Hfind (sub_days now sd)).
    destruct (find_period _ _ periods) as [[p|]|]; cbn [bind]; [|done|].
    + destruct Hfind as (dur & dose & t & _ & _ & Ht). by rewrite Ht.
    + by intros [= <-].
  - intros e. unfold today_entry.
    destruct (strptime_Ymd _) as [sd|] eqn:Hsd; cbn [bind].
    2: { intros [= <-]. by eapply strptime_Ymd_decoded. }
    destruct (datetime_lt now sd); [done|].
    rewrite Hjson. cbn [json_loads bind]. rewrite Hiter. cbn [bind].
    specialize (Hfind (sub_days now sd)).
    destruct (find_period _ _ periods) as [[p|]|]; cbn [bind]; [|done|].
    + destruct Hfind as (dur & dose & t & _ & Hdose & Ht). by rewrite Hdose, Ht.
    + by intros [= <-].
Qed.

Lemma shown_row_never_lacks_a_key_witness :
  shown_row undated
  ∧ tick_row (at_time 2024 1 5 8 0) undated = [LogError "42" ValueError]
  ∧ ∀ user_id e, LogError user_id e ∈ tick_row (at_time 2024 1 5 8 0) undated →
                 ¬ undecoded e.
Proof.
  assert (shown_row undated) as Hshown.
  { eexists _, _. split; [reflexivity|]. split; [reflexivity|].
    repeat constructor. eexists _, _, _. repeat split; reflexivity. }
  split; [exact Hshown|]. split; [reflexivity|].
  apply (shown_row_never_lacks_a_key (at_time 2024 1 5 8 0) undated Hshown).
Defined.

(** ** Logging every button *)

Lemma log_all_pending d user_id now todo pills :
  Forall button_time todo →
  get_pending_pills d user_id now = Ok pills →
  get_pending_pills
    (foldl (λ d pill, (log_selected_pill d user_id (choice_of pill) now now).1) d todo)
    user_id now
  = Ok (foldl (λ l pill,
                 filter (other_slot (Pending.name pill) (time_text (Pending.time pill))) l)
              pills todo).
Proof.
  intros Htodo. revert d pills.
  induction Htodo as [|q todo (t & Ht & Hno) _ IH]; intros d pills Hget; [done|].
  cbn [foldl]. apply IH. unfold choice_of. rewrite Ht. cbn [time_text].
  destruct (log_button_effect d user_id (Pending.name q) t now now Hno) as [-> Hafter].
  by apply Hafter.
Qed.

Lemma filtered_out_stays_out (todo : list Pending.pill) (l : list Pending.pill) p :
  p ∈ foldl (λ l pill,
               filter (other_slot (Pending.name pill) (time_text (Pending.time pill))) l)
            l todo →
  p ∈ l ∧ ∀ q, q ∈ todo →
               other_slot (Pending.name q) (time_text (Pending.time q)) p.
Proof.
  revert l. induction todo as [|q todo IH]; intros l; cbn [foldl].
  - intros Hp. split; [done|]. by intros q ?%elem_of_nil.
  - intros [[Hq Hp]%list_elem_of_filter Hrest]%IH. split; [done|].
    intros q' [->|Hq']%elem_of_cons; [done | by apply Hrest].
Qed.

(** Logging the button of every entry of the keyboard leaves nothing to
    log: after the choices of all the pending entries, whose times are
    strings that can stand on a button, the command finds everything of
    the day logged. *)
Theorem logging_every_button_empties_the_list d user_id now pills :
  get_pending_pills d user_id now = Ok pills →
  Forall button_time pills →
  logpill_command
    (foldl (λ d pill, (log_selected_pill d user_id (choice_of pill) now now).1) d pills)
    user_id now
  = Ok EverythingLogged.
Proof.
  intros Hget Hpills. unfold logpill_command.
  rewrite (log_all_pending d user_id now pills pills Hpills Hget), bind_Ok.
  destruct (foldl _ pills pills) as [|p rest] eqn:Hleft; [done|]. exfalso.
  assert (p ∈ foldl (λ l pill,
            filter (other_slot (Pending.name pill) (time_text (Pending.time pill))) l)
            pills pills) as Hp by (rewrite Hleft; by left).
  apply filtered_out_stays_out in Hp as [Hin Hother].
  rewrite Forall_forall in Hpills. destruct (Hpills p Hin) as (t & Ht & _).
  apply (Hother p Hin). rewrite Ht. done.
Qed.

Lemma logging_every_button_empties_the_list_witness :
  get_pending_pills sample_db "42" (at_time 2024 1 2 21 0)
  = Ok [ {| Pending.name := "Aspirin"; Pending.time := JStr "20:00" |};
         {| Pending.name := "Zinc"; Pending.time := JStr "08:00" |} ]
  ∧ Forall button_time
      [ {| Pending.name := "Aspirin"; Pending.time := JStr "20:00" |};
        {| Pending.name := "Zinc"; Pending.time := JStr "08:00" |} ]
  ∧ logpill_command
      (log_selected_pill
         (log_selected_pill sample_db "42" "Aspirin (20:00)"
            (at_time 2024 1 2 21 0) (at_time 2024 1 2 21 0)).1
         "42" "Zinc (08:00)" (at_time 2024 1 2 21 0) (at_time 2024 1 2 21 0)).1
      "42" (at_time 2024 1 2 21 0)
    = Ok EverythingLogged.
Proof.
  assert (get_pending_pills sample_db "42" (at_time 2024 1 2 21 0)
          = Ok [ {| Pending.name := "Aspirin"; Pending.time := JStr "20:00" |};
                 {| Pending.name := "Zinc"; Pending.time := JStr "08:00" |} ]) as Hget
    by (vm_compute; reflexivity).
  assert (Forall button_time
            [ {| Pending.name := "Aspirin"; Pending.time := JStr "20:00" |};
              {| Pending.name := "Zinc"; Pending.time := JStr "08:00" |} ]) as Hall.
  { repeat constructor; eexists; (split; [reflexivity|reflexivity]). }
  split; [exact Hget|]. split; [exact Hall|].
  exact (logging_every_button_empties_the_list sample_db "42" (at_time 2024 1 2 21 0)
           _ Hget Hall).
Defined.

(** ** The button pressed twice *)



(** ** The order of today's list *)

Lemma today_lines_total taken pills :
  Forall (has_str_key Today.time) pills →
  ∃ out, today_lines taken pills = Ok out
         ∧ line_time <$> out.1 = Today.time <$> pills.
Proof.
  induction 1 as [|p pills [t Ht] _ (out & IH & Htimes)].
  - by exists ([], []).
  - cbn [today_lines]. unfold in_taken at 1. rewrite Ht. cbn [hashable bind].
    rewrite IH. cbn [bind]. eexists. split; [done|].
    rewrite fmap_cons, <- Htimes, Ht. by destruct (bool_decide _).
Qed.

Lemma ordered_by_fmap {A B} (f : A → B) (key : B → json) (l : list A) :
  ordered_by (key ∘ f) l → ordered_by key (f <$> l).
Proof.
  unfold ordered_by. induction 1 as [|x l _ IH Hx]; [constructor|].
  rewrite fmap_cons. constructor; [done|]. by apply Forall_fmap.
Qed.

(** Today's list is in the order of the times: when the times of the
    entries of the day are strings, the message is made, and its lines
    after the header are in ascending order of the time as text, one line
    for each entry. *)
Theorem today_list_is_ordered d user_id now :
  let entries := omap (entry_of (today_entry now)) (select_schedules d user_id) in
  entries ≠ [] →
  Forall (has_str_key Today.time) entries →
  ∃ body keyboard,
    get_todaypills_message d user_id now = Ok (TodayPills (Header :: body) keyboard)
    ∧ line_time <$> body ≡ₚ Today.time <$> entries
    ∧ ordered_by line_time body.
Proof.
  intros entries Hne Hstr. unfold get_todaypills_message. simpl.
  rewrite foldl_entries. simpl. fold entries.
  destruct (sorted_ordered Today.time entries Hstr) as (ordered & Hsort & Hord).
  pose proof (sorted_perm _ _ _ Hsort) as Hperm.
  destruct entries as [|p ps]; [done|]. rewrite Hsort, bind_Ok.
  assert (Forall (has_str_key Today.time) ordered) as Hstr' by by rewrite Hperm.
  destruct (today_lines_total
              (list_to_set (select_taken d user_id (strftime_Ymd now))) ordered Hstr')
    as (out & -> & Htimes).
  rewrite bind_Ok. exists out.1, out.2. split; [done|]. split.
  - by rewrite Htimes, Hperm.
  - assert (ordered_by id (line_time <$> out.1)) as Hlines.
    { rewrite Htimes. by apply ordered_by_fmap. }
    clear -Hlines. unfold ordered_by in *.
    induction out.1 as [|l ls IH]; [constructor|].
    rewrite fmap_cons in Hlines. inversion Hlines as [|? ? Hrest Hhead]; subst.
    constructor; [by apply IH|]. rewrite Forall_fmap in Hhead. exact Hhead.
Qed.

Lemma today_list_is_ordered_witness :
  omap (entry_of (today_entry (at_time 2024 1 2 21 0))) (select_schedules sample_db "42")
  = [ {| Today.name := "Aspirin"; Today.dosage := JStr "A"; Today.time := JStr "20:00" |};
      {| Today.name := "Zinc"; Today.dosage := JStr "Z"; Today.time := JStr "08:00" |} ]
  ∧ ∃ body keyboard,
      get_todaypills_message sample_db "42" (at_time 2024 1 2 21 0)
      = Ok (TodayPills (Header :: body) keyboard)
      ∧ ordered_by line_time body.
Proof.
  assert (omap (entry_of (today_entry (at_time 2024 1 2 21 0)))
            (select_schedules sample_db "42")
          = [ {| Today.name := "Aspirin"; Today.dosage := JStr "A";
                 Today.time := JStr "20:00" |};
              {| Today.name := "Zinc"; Today.dosage := JStr "Z";
                 Today.time := JStr "08:00" |} ]) as Hentries
    by (vm_compute; reflexivity).
  split; [exact Hentries|].
  destruct (today_list_is_ordered sample_db "42" (at_time 2024 1 2 21 0))
    as (body & keyboard & Hmsg & _ & Hord).
  - rewrite Hentries. discriminate.
  - rewrite Hentries. repeat constructor; eexists; reflexivity.
  - by exists body, keyboard.
Defined.

(** ** The code fence of a reply *)

Lemma remove_all_fresh c old s :
  has_char c s = false → remove_all (String c old) s = s.
Proof.
  unfold remove_all. induction s as [|x s IH]; [done|].
  cbn [has_char]. intros [Hx Hs]%orb_false_elim. cbn [remove_from].
  change (String.prefix (String c old) (String x s))
    with (if ascii_dec c x then String.prefix old s else false).
  destruct (ascii_dec c x) as [->|_].
  - by rewrite Ascii.eqb_refl in Hx.
  - by rewrite (IH Hs).
Qed.

Lemma remove_all_before c old tail s :
  has_char c s = false →
  remove_all (String c old) (s +:+ tail) = s +:+ remove_all (String c old) tail.
Proof.
  unfold remove_all. induction s as [|x s IH]; [done|].
  cbn [has_char]. intros [Hx Hs]%orb_false_elim.
  change (String x s +:+ tail) with (String x (s +:+ tail)). cbn [remove_from].
  change (String.prefix (String c old) (String x (s +:+ tail)))
    with (if ascii_dec c x then String.prefix old (s +:+ tail) else false).
  destruct (ascii_dec c x) as [->|_].
  - by rewrite Ascii.eqb_refl in Hx.
  - rewrite (IH Hs). reflexivity.
Qed.

Lemma remove_from_skips old s t :
  remove_from old (String.length s) (s +:+ t) = remove_from old 0 t.
Proof. induction s as [|x s IH]; [done | exact IH]. Qed.

Lemma remove_all_leading c old t :
  remove_all (String c old) (String c old +:+ t) = remove_all (String c old) t.
Proof.
  unfold remove_all.
  change (String c old +:+ t) with (String c (old +:+ t)) at 1.
  cbn [remove_from].
  change (String c (old +:+ t)) with (String c old +:+ t).
  rewrite prefix_append.
  replace (String.length (String c old) - 1)%nat with (String.length old)
    by (cbn [String.length]; lia).
  apply remove_from_skips.
Qed.

Lemma append_empty s : s +:+ EmptyString = s.
Proof.
  induction s as [|x s IH]; [done|].
  change (String x (s +:+ EmptyString) = String x s). by f_equal.
Qed.

Lemma rstrip_keeps s c :
  is_space c = false → rstrip (s +:+ String c EmptyString) = s +:+ String c EmptyString.
Proof.
  intros Hc. induction s as [|x s IH].
  - change (rstrip (String c EmptyString) = String c EmptyString).
    cbn [rstrip]. by rewrite Hc.
  - change (String x s +:+ String c EmptyString)
      with (String x (s +:+ String c EmptyString)).
    cbn [rstrip]. rewrite IH. by destruct s.
Qed.

Lemma has_char_lstrip c s : has_char c s = false → has_char c (lstrip s) = false.
Proof.
  induction s as [|x s IH]; [done|]. cbn [lstrip]. destruct (is_space x); [|done].
  cbn [has_char]. intros [_ Hs]%orb_false_elim. by apply IH.
Qed.

Lemma has_char_rstrip c s : has_char c s = false → has_char c (rstrip s) = false.
Proof.
  induction s as [|x s IH]; [done|]. cbn [has_char].
  intros [Hx Hs]%orb_false_elim. cbn [rstrip]. specialize (IH Hs).
  destruct (rstrip s) as [|y rest].
  - destruct (is_space x); [done|]. cbn [has_char]. by rewrite Hx.
  - cbn [has_char] in *. by rewrite Hx, IH.
Qed.

(** The code fence round a reply is removed before the reply is read as
    JSON: of a reply that is a body without a backquote between the
    opening fence with the word json and the closing fence, the body is
    left, character for character; of a reply without a backquote, the
    reply without the spaces round it. *)
Theorem code_fence_is_removed body :
  has_char "`" body = false →
  json_response_text ("```json" +:+ body +:+ "```") = body
  ∧ json_response_text body = strip body.
Proof.
  intros Hbody. unfold json_response_text. split.
  - assert (strip ("```json" +:+ body +:+ "```") = "```json" +:+ body +:+ "```") as ->.
    { unfold strip.
      change (lstrip ("```json" +:+ body +:+ "```")) with ("```json" +:+ body +:+ "```").
      assert ("```json" +:+ body +:+ "```"
              = ("```json" +:+ body +:+ "``") +:+ String "`" EmptyString) as ->.
      { rewrite !append_associative. reflexivity. }
      by apply rstrip_keeps. }
    rewrite (remove_all_leading "`" "``json").
    rewrite (remove_all_before _ _ _ _ Hbody).
    change (remove_all "```json" "```") with "```".
    rewrite (remove_all_before _ _ _ _ Hbody).
    change (remove_all "```" "```") with EmptyString.
    apply append_empty.
  - assert (has_char "`" (strip body) = false) as Hstrip
      by by apply has_char_rstrip, has_char_lstrip.
    by rewrite !(remove_all_fresh _ _ _ Hstrip).
Qed.

Lemma code_fence_is_removed_witness :
  has_char "`" "[]" = false
  ∧ json_response_text ("```json" +:+ "[]" +:+ "```") = "[]"
  ∧ json_response_text "[]" = strip "[]".
Proof.
  split; [reflexivity|]. apply (code_fence_is_removed "[]"). reflexivity.
Defined.

(** ** The two lists of the day agree *)

Lemma today_entries_text now (rows : list Schedules.row) :
  (∀ r period time, r ∈ rows → resolve now r = Ok (Some period) →
                    py_getitem period "time" = Ok time → ∃ t, time = JStr t) →
  Forall (has_str_key Today.time) (omap (entry_of (today_entry now)) rows).
Proof.
  intros Htext. apply Forall_forall. intros p (r & Hr & Hp)%list_elem_of_omap.
  unfold entry_of in Hp. rewrite today_entry_resolve in Hp.
  destruct (resolve now r) as [[period|]|] eqn:Hres; [|done..].
  rewrite bind_Ok in Hp.
  destruct (py_getitem period "dosage") as [dosage|]; [|done]. rewrite bind_Ok in Hp.
  destruct (py_getitem period "time") as [time|] eqn:Htime; [|done].
  rewrite bind_Ok in Hp. injection Hp as <-.
  destruct (Htext r period time Hr Hres Htime) as [t ->]. by exists t.
Qed.

(** The two lists of a day agree when every period of the day has a
    dosage and every time of the day is a string: today's list is then
    made, its buttons are, up to the order, the entries of the pending
    list, and it is the reply without reminders only when the pending list
    is empty.  (Today's list leaves a period without a dosage out, the
    pending list does not; and times that are not all strings make the
    sort of today's list fail.) *)
Theorem today_buttons_are_the_pending_pills d user_id now pills :
  (∀ r period, r ∈ select_schedules d user_id →
               resolve now r = Ok (Some period) →
               ∃ dosage, py_getitem period "dosage" = Ok dosage) →
  (∀ r period time, r ∈ select_schedules d user_id →
                    resolve now r = Ok (Some period) →
                    py_getitem period "time" = Ok time → ∃ t, time = JStr t) →
  get_pending_pills d user_id now = Ok pills →
  ∃ message,
    get_todaypills_message d user_id now = Ok message
    ∧ match message with
      | NoRemindersToday => pills = []
      | TodayPills lines keyboard => keyboard ≡ₚ mark_of <$> pills
      end.
Proof.
  intros Hdose Htext. rewrite get_pending_pills_unfold. intros Hget.
  assert (omap (entry_of (pending_entry now)) (select_schedules d user_id)
          = pending_of <$> omap (entry_of (today_entry now)) (select_schedules d user_id))
    as Hentries.
  { by apply entries_agree_all. }
  rewrite Hentries in Hget. apply not_taken_filter in Hget.
  pose proof (today_entries_text now (select_schedules d user_id) Htext) as Hstr.
  unfold get_todaypills_message. simpl. rewrite foldl_entries. simpl.
  destruct (omap (entry_of (today_entry now)) _) as [|p ps] eqn:Hps.
  { by exists NoRemindersToday. }
  destruct (sorted_ordered Today.time (p :: ps) Hstr) as (ordered & Hsort & _).
  rewrite Hsort, bind_Ok.
  pose proof (sorted_perm _ _ _ Hsort) as Hperm.
  assert (Forall (has_str_key Today.time) ordered) as Hstr' by by rewrite Hperm.
  destruct (today_lines_total
              (list_to_set (select_taken d user_id (strftime_Ymd now))) ordered Hstr')
    as (out & Hout & _).
  rewrite Hout, bind_Ok. eexists. split; [done|]. cbn beta iota.
  by rewrite (today_lines_buttons _ _ _ Hout), Hget, Hperm.
Qed.

Lemma today_buttons_are_the_pending_pills_witness :
  get_pending_pills sample_db "42" (at_time 2024 1 2 21 0)
  = Ok [ {| Pending.name := "Aspirin"; Pending.time := JStr "20:00" |};
         {| Pending.name := "Zinc"; Pending.time := JStr "08:00" |} ]
  ∧ get_todaypills_message sample_db "42" (at_time 2024 1 2 21 0)
    = Ok (TodayPills
            [Header; PendingLine "Zinc" (JStr "Z") (JStr "08:00");
             PendingLine "Aspirin" (JStr "A") (JStr "20:00")]
            [MarkTaken "Zinc" (JStr "08:00"); MarkTaken "Aspirin" (JStr "20:00")])
  ∧ ∃ message,
      get_todaypills_message sample_db "42" (at_time 2024 1 2 21 0) = Ok message
      ∧ match message with
        | NoRemindersToday => False
        | TodayPills lines keyboard =>
            keyboard
            ≡ₚ [MarkTaken "Aspirin" (JStr "20:00"); MarkTaken "Zinc" (JStr "08:00")]
        end.
Proof.
  assert (get_pending_pills sample_db "42" (at_time 2024 1 2 21 0)
          = Ok [ {| Pending.name := "Aspirin"; Pending.time := JStr "20:00" |};
                 {| Pending.name := "Zinc"; Pending.time := JStr "08:00" |} ]) as Hget
    by (vm_compute; reflexivity).
  split; [exact Hget|]. split; [vm_compute; reflexivity|].
  assert (select_schedules sample_db "42" = [aspirin; zinc; undated]) as Hsel
    by (vm_compute; reflexivity).
  assert (∀ r period, r ∈ select_schedules sample_db "42" →
            resolve (at_time 2024 1 2 21 0) r = Ok (Some period) →
            ∃ dosage, py_getitem period "dosage" = Ok dosage) as Hdose.
  { intros r p Hr. rewrite Hsel in Hr.
    repeat (apply elem_of_cons in Hr as [->|Hr]);
      [| |discriminate|by apply elem_of_nil in Hr];
      intros [= <-]; eexists; reflexivity. }
  assert (∀ r period time, r ∈ select_schedules sample_db "42" →
            resolve (at_time 2024 1 2 21 0) r = Ok (Some period) →
            py_getitem period "time" = Ok time → ∃ t, time = JStr t) as Htext.
  { intros r p time Hr. rewrite Hsel in Hr.
    repeat (apply elem_of_cons in Hr as [->|Hr]);
      [| |discriminate|by apply elem_of_nil in Hr];
      intros [= <-] [= <-]; eexists; reflexivity. }
  destruct (today_buttons_are_the_pending_pills sample_db "42"
              (at_time 2024 1 2 21 0) _ Hdose Htext Hget) as (message & Hmsg & Hagree).
  exists message. split; [exact Hmsg|].
  destruct message as [|lines keyboard]; [discriminate Hagree | exact Hagree].
Defined.
